(** * Quantitative analysis engine (ai_analyzer/quant.py)

    A shallow embedding of [QuantAnalyzer]: technical indicators, performance
    metrics and the two rule-based backtests, with the properties of the
    specification stated and proved (or refuted) against it.

    Modelling conventions.
    - Python [float] and [int] values are idealised as exact rationals, in
      canonical form ([Qc]): equality of numbers is [=], and evaluation
      keeps fractions reduced.  Rounding error, infinities and NaN are
      outside the model, and so is [OverflowError]: statements that no
      exception is raised are made for values of bounded magnitude, where
      no operation of the source can overflow.
    - Where rounding decides a property, the function is also given over
      IEEE 754 binary64 numbers ([Binary64], on the primitive [float]),
      which is what the interpreter computes.
    - [math.sqrt] and the string parser behind [float(str)] belong to the
      Python runtime, not to this repository: they are parameters of the
      development ([Variable]s of the section below).
    - Exceptions are explicit: a function that can raise returns
      [result A], either [Ok a] or [Raise e].
    - Lists are indexed and sliced with Python's rules (negative indices
      count from the end, slice bounds are clamped), over [Z].
    - A history record is a [dict]: a finite map from field names to Python
      values ([None], a number or a string). *)

From Stdlib Require Import Floats.
From Stdlib Require Import QArith Qcanon Qcabs Qround ZArith List Lia Lqa Bool Sorted.
From stdpp Require Import gmap strings pretty numbers.
Import ListNotations.

Local Open Scope Z_scope.
Local Open Scope Qc_scope.

(** Integer literals and [int] values are read as numbers where one is
    expected. *)
Coercion Qc_of_Z : Z >-> Qc.

(** The comparisons of the source, as booleans. *)
Definition Qc_ltb (x y : Qc) : bool := bool_decide (x < y).
Definition Qc_leb (x y : Qc) : bool := bool_decide (x <= y).
Definition Qc_eqb (x y : Qc) : bool := bool_decide (x = y).
Notation "x <? y" := (Qc_ltb x y) : Qc_scope.
Notation "x <=? y" := (Qc_leb x y) : Qc_scope.
Notation "x =? y" := (Qc_eqb x y) : Qc_scope.

(** ** Exceptions *)

Inductive exn : Type :=
| KeyError | TypeError | ValueError | IndexError | ZeroDivisionError.

Inductive result (A : Type) : Type :=
| Ok (a : A)
| Raise (e : exn).
Arguments Ok {A} a.
Arguments Raise {A} e.

Definition bind {A B : Type} (m : result A) (k : A -> result B) : result B :=
  match m with
  | Ok a => k a
  | Raise e => Raise e
  end.

Notation "x <- m ;; k" := (bind m (fun x => k))
  (at level 20, m at level 99, k at level 200, only parsing).
Notation "' p <- m ;; k" := (bind m (fun x => match x with p => k end))
  (at level 20, p pattern, m at level 99, k at level 200, only parsing).

(** [for x in xs: s = body(s, x)], stopping at the first exception. *)
Fixpoint for_each {S X : Type} (body : S -> X -> result S) (xs : list X) (s : S)
  : result S :=
  match xs with
  | [] => Ok s
  | x :: xs' => s' <- body s x ;; for_each body xs' s'
  end.

(** A list comprehension [[f(x) for x in xs]] whose body can raise. *)
Fixpoint comprehension {A B : Type} (f : A -> result B) (xs : list A)
  : result (list B) :=
  match xs with
  | [] => Ok []
  | x :: xs' => y <- f x ;; ys <- comprehension f xs' ;; Ok (y :: ys)
  end.

(** ** Python values and lists *)

Inductive pyval : Type :=
| PyNone
| PyNum (q : Qc)
| PyStr (s : string).

(** [dict] values of the history and of the recorded trade signals. *)
Abbreviation dict := (gmap string pyval).

Definition len {A : Type} (l : list A) : Z := Z.of_nat (length l).

(** Clamping of one slice bound against a list of length [n]. *)
Definition adjust (n i : Z) : Z :=
  if (i <? 0)%Z then Z.max 0 (i + n) else Z.min i n.

(** [l[start:stop]]; [None] is an omitted bound. *)
Definition slice {A : Type} (l : list A) (start stop : option Z) : list A :=
  let n := len l in
  let a := match start with Some i => adjust n i | None => 0%Z end in
  let b := match stop with Some j => adjust n j | None => n end in
  firstn (Z.to_nat (b - a)) (skipn (Z.to_nat a) l).

(** [l[i]]. *)
Definition getitem {A : Type} (l : list A) (i : Z) : result A :=
  let j := if (i <? 0)%Z then (i + len l)%Z else i in
  if (j <? 0)%Z then Raise IndexError
  else match nth_error l (Z.to_nat j) with
       | Some x => Ok x
       | None => Raise IndexError
       end.

(** [range(a, b)]. *)
Definition range (a b : Z) : list Z :=
  map (fun k => (a + Z.of_nat k)%Z) (seq 0 (Z.to_nat (b - a))).

(** ** Arithmetic *)

(** [x / y]. *)
Definition truediv (x y : Qc) : result Qc :=
  if y =? 0 then Raise ZeroDivisionError else Ok (x / y).

(** [sum(xs)]: starts from 0 and adds from the left. *)
Definition sum (xs : list Qc) : Qc := fold_left Qcplus xs 0.

(** Two-argument [max(a, b)] and [min(a, b)]: the first argument is kept
    unless the second is strictly better. *)
Definition max2 (a b : Qc) : Qc := if a <? b then b else a.
Definition min2 (a b : Qc) : Qc := if b <? a then b else a.

(** [max(xs)] and [min(xs)] of a list; [ValueError] on the empty list. *)
Definition py_max (xs : list Qc) : result Qc :=
  match xs with
  | [] => Raise ValueError
  | x :: xs' => Ok (fold_left max2 xs' x)
  end.

Definition py_min (xs : list Qc) : result Qc :=
  match xs with
  | [] => Raise ValueError
  | x :: xs' => Ok (fold_left min2 xs' x)
  end.

(** Truth value of an arbitrary record value. *)
Definition py_truthy (v : pyval) : bool :=
  match v with
  | PyNone => false
  | PyNum q => negb (q =? 0)
  | PyStr s => negb (String.eqb s EmptyString)
  end.

(** [v != 0]. *)
Definition py_ne_zero (v : pyval) : bool :=
  match v with
  | PyNum q => negb (q =? 0)
  | _ => true
  end.

(** The operand of an arithmetic operator: anything but a number raises. *)
Definition as_num (v : pyval) : result Qc :=
  match v with
  | PyNum q => Ok q
  | _ => Raise TypeError
  end.

(** [a - b] on record values. *)
Definition py_sub (a b : pyval) : result Qc :=
  x <- as_num a ;; y <- as_num b ;; Ok (x - y).

(** [sum(vs)] on record values: [0 + v1 + v2 + ...]. *)
Definition py_sum (vs : list pyval) : result Qc :=
  for_each (fun acc v => x <- as_num v ;; Ok (acc + x)) vs 0.

(** [round(x, ndigits)]: to the nearest multiple of [10^-ndigits], ties to
    the even one. *)
Definition round_half_even (x : Qc) : Z :=
  let f := Qfloor x in
  match Qccompare (x - Qc_of_Z f) (Q2Qc (1 # 2)) with
  | Lt => f
  | Gt => (f + 1)%Z
  | Eq => if Z.even f then f else (f + 1)%Z
  end.

Definition py_round (x : Qc) (ndigits : nat) : Qc :=
  let scale := Qc_of_Z (10 ^ Z.of_nat ndigits) in
  Qc_of_Z (round_half_even (x * scale)) / scale.

(** [sorted(xs)]: a stable sort by [<]. *)
Fixpoint insert_sorted (x : Qc) (xs : list Qc) : list Qc :=
  match xs with
  | [] => [x]
  | y :: ys => if x <? y then x :: y :: ys else y :: insert_sorted x ys
  end.

Definition sorted (xs : list Qc) : list Qc :=
  fold_left (fun acc x => insert_sorted x acc) xs [].

(** ** Result records *)

Record BacktestResult : Type := mkBacktestResult {
  strategy_name : string;
  bt_total_return : Qc;
  bt_annual_return : Qc;
  bt_max_drawdown : Qc;
  bt_sharpe_ratio : Qc;
  win_rate : Qc;
  profit_loss_ratio : Qc;
  trade_count : Z;
  signals : list dict
}.

Record PerformanceMetrics : Type := mkPerformanceMetrics {
  total_return : Qc;
  annual_return : Qc;
  daily_return_mean : Qc;
  daily_return_std : Qc;
  volatility : Qc;
  max_drawdown : Qc;
  max_drawdown_duration : Z;
  var_95 : Qc;
  var_99 : Qc;
  sharpe_ratio : Qc;
  sortino_ratio : Qc;
  calmar_ratio : Qc;
  positive_days : Z;
  negative_days : Z;
  best_day : Qc;
  worst_day : Qc
}.

Record TechnicalIndicators : Type := mkTechnicalIndicators {
  ma5 : option Qc;
  ma10 : option Qc;
  ma20 : option Qc;
  ma60 : option Qc;
  ema12 : option Qc;
  ema26 : option Qc;
  macd : option Qc;
  macd_signal : option Qc;
  macd_hist : option Qc;
  rsi_6 : option Qc;
  rsi_14 : option Qc;
  boll_upper : option Qc;
  boll_middle : option Qc;
  boll_lower : option Qc;
  boll_width : option Qc;
  kdj_k : option Qc;
  kdj_d : option Qc;
  kdj_j : option Qc;
  atr : option Qc;
  obv_trend : option string;
  trend_score : Z;
  signal : string
}.

(** The five values of [signal]. *)
Definition STRONG_BUY : string := "强烈买入".
Definition BUY : string := "买入".
Definition HOLD : string := "观望".
Definition SELL : string := "卖出".
Definition STRONG_SELL : string := "强烈卖出".

(** [TechnicalIndicators()]: every field at its declared default. *)
Definition TechnicalIndicators_default : TechnicalIndicators :=
  {| ma5 := None; ma10 := None; ma20 := None; ma60 := None;
     ema12 := None; ema26 := None;
     macd := None; macd_signal := None; macd_hist := None;
     rsi_6 := None; rsi_14 := None;
     boll_upper := None; boll_middle := None; boll_lower := None;
     boll_width := None;
     kdj_k := None; kdj_d := None; kdj_j := None;
     atr := None; obv_trend := None;
     trend_score := 0; signal := HOLD |}.

(** ** The analyzer *)

Definition nonzero (q : Qc) : bool := negb (q =? 0).

(** [not xs] for a list. *)
Definition is_empty {A : Type} (l : list A) : bool :=
  match l with [] => true | _ => false end.

Section QuantAnalyzer.

(** [math.sqrt]. *)
Variable sqrt : Qc -> Qc.

(** [float(s)] on a string [s]: [None] when Python raises [ValueError]. *)
Variable float_of_str : string -> option Qc.

Definition RISK_FREE_RATE : Qc := Q2Qc (2 # 100).

(** *** Technical indicators *)

Definition _sma (data : list Qc) (period : Z) : result (option Qc) :=
  if (len data <? period)%Z then Ok None else
  r <- truediv (sum (slice data (Some (- period)%Z) None)) (Qc_of_Z period) ;;
  Ok (Some r).

Definition _ema (data : list Qc) (period : Z) : result (option Qc) :=
  if (len data <? period)%Z then Ok None else
  multiplier <- truediv 2 (Qc_of_Z (period + 1)) ;;
  ema <- truediv (sum (slice data None (Some period))) (Qc_of_Z period) ;;
  Ok (Some (fold_left (fun ema price => (price - ema) * multiplier + ema)
                      (slice data (Some period) None) ema)).

Definition _std (data : list Qc) : result Qc :=
  if (len data <? 2)%Z then Ok 0 else
  mean <- truediv (sum data) (Qc_of_Z (len data)) ;;
  variance <- truediv (sum (map (fun x => (x - mean) ^ 2) data))
                      (Qc_of_Z (len data - 1)) ;;
  Ok (sqrt variance).

(** [prices] may hold raw record values: [backtest_rsi] passes slices of
    the [close] column as read from the records. *)
Definition calculate_rsi (prices : list pyval) (period : Z) : result (option Qc) :=
  if (len prices <? period + 1)%Z then Ok None else
  changes <- comprehension
               (fun i => a <- getitem prices i ;;
                         b <- getitem prices (i - 1) ;;
                         py_sub a b)
               (range 1 (len prices)) ;;
  let gains := map (fun c => max2 0 c) (slice changes (Some (- period)%Z) None) in
  let losses :=
    map (fun c => Qcabs (min2 0 c)) (slice changes (Some (- period)%Z) None) in
  avg_gain <- truediv (sum gains) (Qc_of_Z period) ;;
  avg_loss <- truediv (sum losses) (Qc_of_Z period) ;;
  if avg_loss =? 0 then Ok (Some (100 : Qc)) else
  rs <- truediv avg_gain avg_loss ;;
  q <- truediv 100 (1 + rs) ;;
  Ok (Some (100 - q)).

Definition calculate_macd (prices : list Qc) (fast slow signal : Z)
  : result (option Qc * option Qc * option Qc) :=
  if (len prices <? slow + signal)%Z then Ok (None, None, None) else
  ema_fast <- _ema prices fast ;;
  ema_slow <- _ema prices slow ;;
  match ema_fast, ema_slow with
  | Some ema_fast, Some ema_slow =>
      let macd_line := ema_fast - ema_slow in
      macd_history <-
        for_each
          (fun macd_history i =>
             ef <- _ema (slice prices None (Some i)) fast ;;
             es <- _ema (slice prices None (Some i)) slow ;;
             match ef, es with
             | Some ef, Some es =>
                 (* [if ef and es]: both present and non-zero *)
                 if nonzero ef && nonzero es
                 then Ok (macd_history ++ [ef - es])
                 else Ok macd_history
             | _, _ => Ok macd_history
             end)
          (range slow (len prices + 1)) [] ;;
      if (len macd_history <? signal)%Z then Ok (Some macd_line, None, None) else
      signal_line <- _sma macd_history signal ;;
      let histogram :=
        match signal_line with
        | Some s => if nonzero s then Some (macd_line - s) else None
        | None => None
        end in
      Ok (Some macd_line, signal_line, histogram)
  | _, _ => Ok (None, None, None)
  end.

Definition calculate_bollinger (prices : list Qc) (period : Z) (std_dev : Qc)
  : result (option Qc * option Qc * option Qc) :=
  if (len prices <? period)%Z then Ok (None, None, None) else
  middle <- _sma prices period ;;
  std <- _std (slice prices (Some (- period)%Z) None) ;;
  match middle with
  | None => Ok (None, None, None)
  | Some middle =>
      let upper := middle + std_dev * std in
      let lower := middle - std_dev * std in
      Ok (Some upper, Some middle, Some lower)
  end.

Definition calculate_kdj (highs lows closes : list Qc) (period : Z)
  : result (option Qc * option Qc * option Qc) :=
  if (len closes <? period)%Z then Ok (None, None, None) else
  highest <- py_max (slice highs (Some (- period)%Z) None) ;;
  lowest <- py_min (slice lows (Some (- period)%Z) None) ;;
  rsv <- (if highest =? lowest then Ok (50 : Qc)
          else c <- getitem closes (-1) ;;
               r <- truediv (c - lowest) (highest - lowest) ;;
               Ok (r * 100)) ;;
  let k := rsv in
  let d := k in
  let j := 3 * k - 2 * d in
  Ok (Some k, Some d, Some j).

Definition calculate_atr (highs lows closes : list Qc) (period : Z)
  : result (option Qc) :=
  if (len closes <? period + 1)%Z then Ok None else
  trs <- for_each
           (fun trs i =>
              hi <- getitem highs i ;;
              lo <- getitem lows i ;;
              prev <- getitem closes (i - 1) ;;
              let tr := max2 (max2 (hi - lo) (Qcabs (hi - prev))) (Qcabs (lo - prev)) in
              Ok (trs ++ [tr]))
           (range 1 (len closes)) [] ;;
  r <- truediv (sum (slice trs (Some (- period)%Z) None)) (Qc_of_Z period) ;;
  Ok (Some r).

(** The four blocks of the composite score, in the order of the source;
    each takes the running score and returns the updated one. *)
Definition ma_block (current_price : Qc) (indicators : TechnicalIndicators)
  (score : Z) : Z :=
  match ma5 indicators, ma10 indicators, ma20 indicators with
  | Some m5, Some m10, Some m20 =>
      if nonzero m5 && nonzero m10 && nonzero m20 then
        if (m5 <? current_price) && (m10 <? m5) && (m20 <? m10)
        then (score + 30)%Z
        else if (m5 <? current_price) && (m10 <? m5) then (score + 20)%Z
        else if m5 <? current_price then (score + 10)%Z
        else if (current_price <? m5) && (m5 <? m10) && (m10 <? m20)
        then (score - 30)%Z
        else if (current_price <? m5) && (m5 <? m10) then (score - 20)%Z
        else if current_price <? m5 then (score - 10)%Z
        else score
      else score
  | _, _, _ => score
  end.

Definition macd_block (indicators : TechnicalIndicators) (score : Z) : Z :=
  match macd_hist indicators with
  | Some hist =>
      let score :=
        if 0 <? hist
        then (score + (if Qc_ltb (Q2Qc (1 # 100)) hist then 15 else 10))%Z
        else (score - (if Qc_ltb hist (- Q2Qc (1 # 100))%Qc then 15 else 10))%Z in
      match macd indicators, macd_signal indicators with
      | Some m, Some s =>
          if nonzero m && nonzero s
          then if s <? m then (score + 10)%Z else (score - 10)%Z
          else score
      | _, _ => score
      end
  | None => score
  end.

Definition rsi_block (indicators : TechnicalIndicators) (score : Z) : Z :=
  match rsi_14 indicators with
  | Some rsi =>
      if nonzero rsi then
        if 70 <? rsi then (score - 25)%Z
        else if 60 <? rsi then (score - 10)%Z
        else if rsi <? 30 then (score + 25)%Z
        else if rsi <? 40 then (score + 10)%Z
        else score
      else score
  | None => score
  end.

Definition kdj_block (indicators : TechnicalIndicators) (score : Z) : Z :=
  match kdj_j indicators with
  | Some j =>
      if 100 <? j then (score - 20)%Z
      else if 80 <? j then (score - 10)%Z
      else if j <? 0 then (score + 20)%Z
      else if j <? 20 then (score + 10)%Z
      else score
  | None => score
  end.

Definition _calculate_signal (current_price : Qc) (indicators : TechnicalIndicators)
  : Z * string :=
  let score := 0%Z in
  let score := ma_block current_price indicators score in
  let score := macd_block indicators score in
  let score := rsi_block indicators score in
  let score := kdj_block indicators score in
  let score := Z.max (-100) (Z.min 100 score) in
  let signal :=
    if (60 <=? score)%Z then STRONG_BUY
    else if (30 <=? score)%Z then BUY
    else if (-30 <=? score)%Z then HOLD
    else if (-60 <=? score)%Z then SELL
    else STRONG_SELL in
  (score, signal).

(** The local helper of [calculate_all_indicators]: [None], and whatever
    [float] rejects, become 0. *)
Definition safe_float (val : pyval) : Qc :=
  match val with
  | PyNone => 0
  | PyNum q => q
  | PyStr s => match float_of_str s with Some q => q | None => 0 end
  end.

(** The three columns that [calculate_all_indicators] extracts:
    [closes], [highs] and [lows]. *)
Definition closes_of (history_data : list dict) : list Qc :=
  map (fun d => safe_float (default (PyNum 0) (d !! "close"))) history_data.

Definition highs_of (history_data : list dict) : list Qc :=
  map (fun '(d, c) => safe_float (default (PyNum c) (d !! "high")))
      (zip history_data (closes_of history_data)).

Definition lows_of (history_data : list dict) : list Qc :=
  map (fun '(d, c) => safe_float (default (PyNum c) (d !! "low")))
      (zip history_data (closes_of history_data)).

Definition calculate_all_indicators (history_data : list dict)
  : result TechnicalIndicators :=
  let indicators := TechnicalIndicators_default in
  if is_empty history_data || (len history_data <? 5)%Z then Ok indicators else
  let closes := closes_of history_data in
  let highs := highs_of history_data in
  let lows := lows_of history_data in
  v_ma5 <- _sma closes 5 ;;
  v_ma10 <- _sma closes 10 ;;
  v_ma20 <- _sma closes 20 ;;
  v_ma60 <- _sma closes 60 ;;
  v_ema12 <- _ema closes 12 ;;
  v_ema26 <- _ema closes 26 ;;
  '(v_macd, v_signal, v_hist) <- calculate_macd closes 12 26 9 ;;
  v_rsi_6 <- calculate_rsi (map PyNum closes) 6 ;;
  v_rsi_14 <- calculate_rsi (map PyNum closes) 14 ;;
  '(upper, middle, lower) <- calculate_bollinger closes 20 2 ;;
  v_width <-
    match upper, lower with
    | Some u, Some l =>
        (* [if upper and lower], then [... if middle else None] *)
        if nonzero u && nonzero l then
          match middle with
          | Some m =>
              if nonzero m
              then w <- truediv (u - l) m ;; Ok (Some (w * 100))
              else Ok None
          | None => Ok None
          end
        else Ok None
    | _, _ => Ok None
    end ;;
  '(k, d, j) <- calculate_kdj highs lows closes 9 ;;
  v_atr <- calculate_atr highs lows closes 14 ;;
  let indicators :=
    {| ma5 := v_ma5; ma10 := v_ma10; ma20 := v_ma20; ma60 := v_ma60;
       ema12 := v_ema12; ema26 := v_ema26;
       macd := v_macd; macd_signal := v_signal; macd_hist := v_hist;
       rsi_6 := v_rsi_6; rsi_14 := v_rsi_14;
       boll_upper := upper; boll_middle := middle; boll_lower := lower;
       boll_width := v_width;
       kdj_k := k; kdj_d := d; kdj_j := j;
       atr := v_atr; obv_trend := None;
       trend_score := 0; signal := HOLD |} in
  last_close <- getitem closes (-1) ;;
  let '(score, sig) := _calculate_signal last_close indicators in
  Ok {| ma5 := v_ma5; ma10 := v_ma10; ma20 := v_ma20; ma60 := v_ma60;
        ema12 := v_ema12; ema26 := v_ema26;
        macd := v_macd; macd_signal := v_signal; macd_hist := v_hist;
        rsi_6 := v_rsi_6; rsi_14 := v_rsi_14;
        boll_upper := upper; boll_middle := middle; boll_lower := lower;
        boll_width := v_width;
        kdj_k := k; kdj_d := d; kdj_j := j;
        atr := v_atr; obv_trend := None;
        trend_score := score; signal := sig |}.

(** *** Performance metrics *)

(** [int(x)]: truncation towards zero. *)
Definition py_int (x : Qc) : Z := Z.quot (Qnum x) (Zpos (Qden x)).

(** [enumerate(xs)]. *)
Fixpoint enumerate_from {A : Type} (i : Z) (xs : list A) : list (Z * A) :=
  match xs with
  | [] => []
  | x :: xs' => (i, x) :: enumerate_from (i + 1)%Z xs'
  end.

Definition enumerate {A : Type} (xs : list A) : list (Z * A) := enumerate_from 0%Z xs.

(** The local variables of [_calculate_max_drawdown]. *)
Record drawdown_state : Type := mkDrawdown {
  dd_max : Qc;
  dd_max_duration : Z;
  dd_peak : Qc;
  dd_peak_idx : Z;
  dd_current_duration : Z
}.

Definition drawdown_step (st : drawdown_state) (ip : Z * Qc) : result drawdown_state :=
  let '(i, price) := ip in
  if dd_peak st <? price then
    Ok {| dd_max := dd_max st; dd_max_duration := dd_max_duration st;
          dd_peak := price; dd_peak_idx := i; dd_current_duration := 0 |}
  else
    dd <- (if (0 <? (dd_peak st))
           then r <- truediv (dd_peak st - price) (dd_peak st) ;; Ok (r * 100)
           else Ok 0) ;;
    let current_duration := (i - dd_peak_idx st)%Z in
    if dd_max st <? dd then
      Ok {| dd_max := dd; dd_max_duration := current_duration;
            dd_peak := dd_peak st; dd_peak_idx := dd_peak_idx st;
            dd_current_duration := current_duration |}
    else
      Ok {| dd_max := dd_max st; dd_max_duration := dd_max_duration st;
            dd_peak := dd_peak st; dd_peak_idx := dd_peak_idx st;
            dd_current_duration := current_duration |}.

Definition _calculate_max_drawdown (prices : list Qc) : result (Qc * Z) :=
  match prices with
  | [] => Ok (0, 0%Z)
  | p0 :: _ =>
      st <- for_each drawdown_step (enumerate prices)
              {| dd_max := 0; dd_max_duration := 0; dd_peak := p0;
                 dd_peak_idx := 0; dd_current_duration := 0 |} ;;
      Ok (dd_max st, dd_max_duration st)
  end.

(** [d["close"]]. *)
Definition get_close (d : dict) : result pyval :=
  match d !! "close" with
  | Some v => Ok v
  | None => Raise KeyError
  end.

(** The loop that builds [daily_returns] from the raw [close] column. *)
Definition daily_returns_of (closes : list pyval) : result (list Qc) :=
  for_each
    (fun daily_returns i =>
       prev <- getitem closes (i - 1) ;;
       if py_ne_zero prev then
         cur <- getitem closes i ;;
         diff <- py_sub cur prev ;;
         p <- as_num prev ;;
         r <- truediv diff p ;;
         Ok (daily_returns ++ [r * 100])
       else Ok daily_returns)
    (range 1 (len closes)) [].

(** [_calculate_max_drawdown] is declared on floats.  It compares every
    element with the running peak, which starts as the first element, so on
    the raw column it raises [TypeError] as soon as one element is not a
    number: the conversion below is that check. *)
Definition calculate_performance (history_data : list dict)
  : result (option PerformanceMetrics) :=
  if is_empty history_data || (len history_data <? 5)%Z then Ok None else
  closes <- comprehension get_close history_data ;;
  daily_returns <- daily_returns_of closes ;;
  if is_empty daily_returns then Ok None else
  first <- getitem closes 0 ;;
  total_return <-
    (if py_truthy first then
       last <- getitem closes (-1) ;;
       diff <- py_sub last first ;;
       f <- as_num first ;;
       r <- truediv diff f ;;
       Ok (r * 100)
     else Ok 0) ;;
  let days := len history_data in
  annual_return <-
    (if (0 <? days)%Z
     then r <- truediv 252 (Qc_of_Z days) ;; Ok (total_return * r)
     else Ok 0) ;;
  daily_mean <- truediv (sum daily_returns) (Qc_of_Z (len daily_returns)) ;;
  daily_std <- _std daily_returns ;;
  let volatility := daily_std * sqrt 252 in
  prices <- comprehension as_num closes ;;
  '(max_dd, max_dd_duration) <- _calculate_max_drawdown prices ;;
  let sorted_returns := sorted daily_returns in
  let var_95_idx := py_int (Qc_of_Z (len sorted_returns) * Q2Qc (5 # 100)) in
  let var_99_idx := py_int (Qc_of_Z (len sorted_returns) * Q2Qc (1 # 100)) in
  var_95 <- (if (var_95_idx <? len sorted_returns)%Z
             then getitem sorted_returns var_95_idx else Ok 0) ;;
  var_99 <- (if (var_99_idx <? len sorted_returns)%Z
             then getitem sorted_returns var_99_idx else Ok 0) ;;
  let risk_free_daily := RISK_FREE_RATE / 252 in
  sharpe <-
    (if 0 <? daily_std
     then r <- truediv (daily_mean - risk_free_daily * 100) daily_std ;;
          Ok (r * sqrt 252)
     else Ok 0) ;;
  let downside_returns := List.filter (fun r => r <? 0) daily_returns in
  sortino <-
    (if is_empty downside_returns then Ok 0 else
       downside_std <- _std downside_returns ;;
       if (0 <? downside_std)
       then r <- truediv (daily_mean - risk_free_daily * 100) downside_std ;;
            Ok (r * sqrt 252)
       else Ok 0) ;;
  calmar <-
    (if nonzero max_dd then truediv annual_return (Qcabs max_dd) else Ok 0) ;;
  let positive_days := len (List.filter (fun r => 0 <? r) daily_returns) in
  let negative_days := len (List.filter (fun r => r <? 0) daily_returns) in
  best_day <- py_max daily_returns ;;
  worst_day <- py_min daily_returns ;;
  Ok (Some {| total_return := py_round total_return 2;
              annual_return := py_round annual_return 2;
              daily_return_mean := py_round daily_mean 4;
              daily_return_std := py_round daily_std 4;
              volatility := py_round volatility 2;
              max_drawdown := py_round max_dd 2;
              max_drawdown_duration := max_dd_duration;
              var_95 := py_round var_95 2;
              var_99 := py_round var_99 2;
              sharpe_ratio := py_round sharpe 2;
              sortino_ratio := py_round sortino 2;
              calmar_ratio := py_round calmar 2;
              positive_days := positive_days;
              negative_days := negative_days;
              best_day := py_round best_day 2;
              worst_day := py_round worst_day 2 |}).

(** *** Strategy backtests *)

(** The local variables that the simulation loops carry. *)
Record sim_state : Type := mkSim {
  sim_signals : list dict;
  sim_position : Z;          (* 0: flat, 1: long *)
  sim_entry_price : pyval;
  sim_trades : list Qc
}.

Definition sim_init : sim_state :=
  {| sim_signals := []; sim_position := 0; sim_entry_price := PyNum 0;
     sim_trades := [] |}.

Definition TYPE_BUY : pyval := PyStr "买入".
Definition TYPE_SELL : pyval := PyStr "卖出".

(** [(closes[i] - entry_price) / entry_price * 100]. *)
Definition trade_profit (close entry_price : pyval) : result Qc :=
  diff <- py_sub close entry_price ;;
  e <- as_num entry_price ;;
  r <- truediv diff e ;;
  Ok (r * 100).

(** One iteration of the loop of [backtest_ma_cross]. *)
Definition ma_cross_step (closes dates : list pyval) (fast_period slow_period : Z)
  (st : sim_state) (i : Z) : result sim_state :=
  s <- py_sum (slice closes (Some (i - fast_period + 1)%Z) (Some (i + 1)%Z)) ;;
  fast_ma <- truediv s (Qc_of_Z fast_period) ;;
  s <- py_sum (slice closes (Some (i - slow_period + 1)%Z) (Some (i + 1)%Z)) ;;
  slow_ma <- truediv s (Qc_of_Z slow_period) ;;
  s <- py_sum (slice closes (Some (i - fast_period)%Z) (Some i)) ;;
  prev_fast <- truediv s (Qc_of_Z fast_period) ;;
  s <- py_sum (slice closes (Some (i - slow_period)%Z) (Some i)) ;;
  prev_slow <- truediv s (Qc_of_Z slow_period) ;;
  if (prev_fast <=? prev_slow) && (slow_ma <? fast_ma)
     && (sim_position st =? 0)%Z then
    close <- getitem closes i ;;
    date <- getitem dates i ;;
    Ok {| sim_signals :=
            sim_signals st ++
            [list_to_map
               [("date", date); ("type", TYPE_BUY); ("price", close);
                ("reason",
                 PyStr ("MA" +:+ pretty fast_period +:+ "上穿MA"
                        +:+ pretty slow_period))]];
          sim_position := 1;
          sim_entry_price := close;
          sim_trades := sim_trades st |}
  else if (prev_slow <=? prev_fast) && (fast_ma <? slow_ma)
          && (sim_position st =? 1)%Z then
    close <- getitem closes i ;;
    profit <- trade_profit close (sim_entry_price st) ;;
    date <- getitem dates i ;;
    Ok {| sim_signals :=
            sim_signals st ++
            [list_to_map
               [("date", date); ("type", TYPE_SELL); ("price", close);
                ("profit", PyNum (py_round profit 2));
                ("reason",
                 PyStr ("MA" +:+ pretty fast_period +:+ "下穿MA"
                        +:+ pretty slow_period))]];
          sim_position := 0;
          sim_entry_price := sim_entry_price st;
          sim_trades := sim_trades st ++ [profit] |}
  else Ok st.

Definition ma_cross_loop (closes dates : list pyval) (fast_period slow_period : Z)
  : result sim_state :=
  for_each (ma_cross_step closes dates fast_period slow_period)
           (range slow_period (len closes)) sim_init.

(** One iteration of the loop of [backtest_rsi]. *)
Definition rsi_step (closes dates : list pyval) (period : Z)
  (oversold overbought : Qc) (st : sim_state) (i : Z) : result sim_state :=
  rsi <- calculate_rsi (slice closes None (Some (i + 1)%Z)) period ;;
  prev_rsi <- calculate_rsi (slice closes None (Some i)) period ;;
  match rsi, prev_rsi with
  | Some rsi, Some prev_rsi =>
      if (prev_rsi <=? oversold) && (oversold <? rsi)
         && (sim_position st =? 0)%Z then
        close <- getitem closes i ;;
        date <- getitem dates i ;;
        Ok {| sim_signals :=
                sim_signals st ++
                [list_to_map
                   [("date", date); ("type", TYPE_BUY); ("price", close);
                    ("rsi", PyNum (py_round rsi 2));
                    ("reason", PyStr "RSI从超卖区反弹")]];
              sim_position := 1;
              sim_entry_price := close;
              sim_trades := sim_trades st |}
      else if (overbought <=? prev_rsi) && (rsi <? overbought)
              && (sim_position st =? 1)%Z then
        close <- getitem closes i ;;
        profit <- trade_profit close (sim_entry_price st) ;;
        date <- getitem dates i ;;
        Ok {| sim_signals :=
                sim_signals st ++
                [list_to_map
                   [("date", date); ("type", TYPE_SELL); ("price", close);
                    ("rsi", PyNum (py_round rsi 2));
                    ("profit", PyNum (py_round profit 2));
                    ("reason", PyStr "RSI进入超买区")]];
              sim_position := 0;
              sim_entry_price := sim_entry_price st;
              sim_trades := sim_trades st ++ [profit] |}
      else Ok st
  | _, _ => Ok st     (* [continue] *)
  end.

Definition rsi_loop (closes dates : list pyval) (period : Z)
  (oversold overbought : Qc) : result sim_state :=
  for_each (rsi_step closes dates period oversold overbought)
           (range (period + 1) (len closes)) sim_init.

(** The statistics block that ends both backtests (the two copies in the
    source differ in the strategy name only); [days] is
    [len(history_data)]. *)
Definition backtest_report (name : string) (days : Z) (trades : list Qc)
  (signals : list dict) : result BacktestResult :=
  if is_empty trades then
    Ok {| strategy_name := name;
          bt_total_return := 0; bt_annual_return := 0; bt_max_drawdown := 0;
          bt_sharpe_ratio := 0; win_rate := 0; profit_loss_ratio := 0;
          trade_count := 0; signals := signals |}
  else
  let total_return := sum trades in
  let wins := List.filter (fun t => 0 <? t) trades in
  let losses := List.filter (fun t => t <? 0) trades in
  win_rate <- (r <- truediv (Qc_of_Z (len wins)) (Qc_of_Z (len trades)) ;;
               Ok (r * 100)) ;;
  avg_win <- (if is_empty wins then Ok 0
              else truediv (sum wins) (Qc_of_Z (len wins))) ;;
  avg_loss <- (if is_empty losses then Ok 1
               else r <- truediv (sum losses) (Qc_of_Z (len losses)) ;;
                    Ok (Qcabs r)) ;;
  profit_loss_ratio <-
    (if 0 <? avg_loss then truediv avg_win avg_loss else Ok 0) ;;
  annual_return <-
    (if (0 <? days)%Z
     then r <- truediv 252 (Qc_of_Z days) ;; Ok (total_return * r)
     else Ok 0) ;;
  worst <- py_min trades ;;
  let max_dd := Qcabs worst in
  std <- _std trades ;;
  sharpe <-
    (if 0 <? std then
       mean <- truediv (sum trades) (Qc_of_Z (len trades)) ;;
       r <- truediv mean std ;;
       Ok (r * sqrt (Qc_of_Z (len trades)))
     else Ok 0) ;;
  Ok {| strategy_name := name;
        bt_total_return := py_round total_return 2;
        bt_annual_return := py_round annual_return 2;
        bt_max_drawdown := py_round max_dd 2;
        bt_sharpe_ratio := py_round sharpe 2;
        win_rate := py_round win_rate 2;
        profit_loss_ratio := py_round profit_loss_ratio 2;
        trade_count := len trades;
        signals := slice signals (Some (-5)%Z) None |}.

(** [d.get("date", "")]. *)
Definition get_date (d : dict) : pyval := default (PyStr EmptyString) (d !! "date").

Definition backtest_ma_cross (history_data : list dict) (fast_period slow_period : Z)
  : result (option BacktestResult) :=
  if is_empty history_data || (len history_data <? slow_period + 10)%Z
  then Ok None else
  closes <- comprehension get_close history_data ;;
  let dates := map get_date history_data in
  st <- ma_cross_loop closes dates fast_period slow_period ;;
  r <- backtest_report
         ("MA" +:+ pretty fast_period +:+ "/" +:+ pretty slow_period +:+ "交叉")
         (len history_data) (sim_trades st) (sim_signals st) ;;
  Ok (Some r).

Definition backtest_rsi (history_data : list dict) (period : Z)
  (oversold overbought : Qc) : result (option BacktestResult) :=
  if is_empty history_data || (len history_data <? period + 10)%Z
  then Ok None else
  closes <- comprehension get_close history_data ;;
  let dates := map get_date history_data in
  st <- rsi_loop closes dates period oversold overbought ;;
  r <- backtest_report ("RSI(" +:+ pretty period +:+ ")")
         (len history_data) (sim_trades st) (sim_signals st) ;;
  Ok (Some r).

(** [if r: results.append(r)]: a dataclass instance is always true. *)
Definition run_all_backtests (history_data : list dict)
  : result (list BacktestResult) :=
  r1 <- backtest_ma_cross history_data 5 20 ;;
  r2 <- backtest_ma_cross history_data 10 30 ;;
  r3 <- backtest_rsi history_data 14 30 70 ;;
  Ok (option_list r1 ++ option_list r2 ++ option_list r3).

End QuantAnalyzer.

(** ** Callers (ai_analyzer/analyzer.py)

    [AIFundAnalyzer] holds a [QuantAnalyzer] as [self.quant]; its
    LLM-free entry points delegate to it. *)

Section AIFundAnalyzer.

Variable sqrt : Qc -> Qc.
Variable float_of_str : string -> option Qc.

Definition get_technical_signal (history_data : list dict) : result (string * Z) :=
  indicators <- calculate_all_indicators sqrt float_of_str history_data ;;
  Ok (signal indicators, trend_score indicators).

Definition get_performance_metrics (history_data : list dict)
  : result (option PerformanceMetrics) :=
  calculate_performance sqrt history_data.

Definition get_backtest_results (history_data : list dict)
  : result (list BacktestResult) :=
  run_all_backtests sqrt history_data.

End AIFundAnalyzer.

(** ** The KDJ values in binary64

    [calculate_kdj] once more, over the floats that
    [calculate_all_indicators] passes to it: every operation rounds as the
    interpreter's does.  [max] and [min] keep their first argument unless
    a later one compares strictly greater (smaller); [==] is the IEEE
    comparison; the integer literals 50, 100, 3 and 2 are converted
    exactly. *)

Module Binary64.

Definition max2 (a b : float) : float := if PrimFloat.ltb a b then b else a.
Definition min2 (a b : float) : float := if PrimFloat.ltb b a then b else a.

Definition py_max (xs : list float) : result float :=
  match xs with
  | [] => Raise ValueError
  | x :: xs' => Ok (fold_left max2 xs' x)
  end.

Definition py_min (xs : list float) : result float :=
  match xs with
  | [] => Raise ValueError
  | x :: xs' => Ok (fold_left min2 xs' x)
  end.

Definition truediv (x y : float) : result float :=
  if PrimFloat.eqb y 0%float then Raise ZeroDivisionError
  else Ok (PrimFloat.div x y).

Definition calculate_kdj (highs lows closes : list float) (period : Z)
  : result (option float * option float * option float) :=
  if (len closes <? period)%Z then Ok (None, None, None) else
  highest <- py_max (slice highs (Some (- period)%Z) None) ;;
  lowest <- py_min (slice lows (Some (- period)%Z) None) ;;
  rsv <- (if PrimFloat.eqb highest lowest then Ok 50%float
          else c <- getitem closes (-1) ;;
               r <- truediv (PrimFloat.sub c lowest) (PrimFloat.sub highest lowest) ;;
               Ok (PrimFloat.mul r 100%float)) ;;
  let k := rsv in
  let d := k in
  let j := PrimFloat.sub (PrimFloat.mul 3%float k) (PrimFloat.mul 2%float d) in
  Ok (Some k, Some d, Some j).

End Binary64.

(** ** Vocabulary of the statements *)


(** The change from day [i - 1] to day [i] of a numeric series. *)
Definition delta (prices : list Qc) (i : Z) : Qc :=
  nth (Z.to_nat i) prices 0 - nth (Z.to_nat (i - 1)) prices 0.

(** [closes] is the [close] column of a series whose records all carry a
    number there. *)
Definition numeric_closes (history_data : list dict) (closes : list Qc) : Prop :=
  Forall2 (fun d c => d !! "close" = Some (PyNum c)) history_data closes.

(** The percentage return of day [i] over day [i - 1]. *)
Definition daily_return (closes : list Qc) (i : Z) : Qc :=
  delta closes i / nth (Z.to_nat (i - 1)) closes 0 * 100.

(** The bookkeeping of a simulation: the position is flat or long, and
    every completed trade has left two signals, an open position one. *)
Definition sim_consistent (st : sim_state) : Prop :=
  (sim_position st = 0%Z \/ sim_position st = 1%Z) /\
  len (sim_signals st) = (2 * len (sim_trades st) + sim_position st)%Z.

(** The [type] fields of a signal log, and what a log of [n] signals must
    show there: buys and sells in turn, a buy first. *)
Definition signal_types (sigs : list dict) : list (option pyval) :=
  map (fun d => d !! "type") sigs.

Definition alternating_types (n : nat) : list (option pyval) :=
  map (fun k => Some (if Nat.even k then TYPE_BUY else TYPE_SELL)) (seq 0 n).

(** The invariant of both simulation loops: consistent bookkeeping and
    alternating signal types. *)
Definition log_invariant (st : sim_state) : Prop :=
  sim_consistent st /\
  signal_types (sim_signals st) = alternating_types (length (sim_signals st)).

(** Magnitudes at which the floats of the source cannot overflow: at most
    [10^100] for the columns of the indicators, and between [10^-50] and
    [10^50] for the closes of a backtest, whose trade returns divide one
    close by another and are squared by [_std]. *)
Definition in_float_range (x : Qc) : Prop := Qcabs x <= Qc_of_Z (10 ^ 100).


(** The 30 closes of the flat series of the specification's example. *)
Definition flat30 : list Qc := repeat (Qc_of_Z 100) 30.

(** ** A concrete runtime for closed examples

    [sqrt_floor] is a rational approximation of the square root from
    below: exact on 0 and on squares of integers.  [no_float_syntax]
    rejects every string. *)

Definition sqrt_floor (x : Qc) : Qc :=
  Qc_of_Z (Z.sqrt (Qnum x * Zpos (Qden x))) / Qc_of_Z (Zpos (Qden x)).

Definition no_float_syntax (s : string) : option Qc := None.

(** A record with the given [close] only (so [high] and [low] fall back
    to it), and a flat series of such records. *)
Definition point (close : Qc) : dict := {[ "close" := PyNum close ]}.

Definition flat_series (n : nat) (close : Qc) : list dict := repeat (point close) n.

(** Two malformed series of 30 records: the last record has no [close],
    or has [None] there. *)
Definition series_missing_close : list dict := flat_series 29 100 ++ [∅].

Definition series_none_close : list dict :=
  flat_series 29 100 ++ [{[ "close" := PyNone ]}].

(** A series with one round trip under MA1/2: a buy at 2, a sell at 1. *)
Definition round_trip_series : list dict :=
  map (fun z => point (Qc_of_Z z)) [1; 1; 1; 2; 1; 1; 1; 1; 1; 1; 1; 1]%Z.

(** A series with a close of 0 on the day MA5 crosses above MA20. *)
Definition zero_close_series : list dict :=
  map (fun z => point (Qc_of_Z z))
      ([100] ++ repeat 0 15 ++ repeat 5 4 ++ repeat 0 10)%Z.

(** A series that turns every day: under MA1/2 each day from the third on
    is a cross, so 18 records log 16 signals. *)
Definition zigzag_series : list dict :=
  map (fun z => point (Qc_of_Z z))
      [2; 1; 2; 1; 2; 1; 2; 1; 2; 1; 2; 1; 2; 1; 2; 1; 2; 1]%Z.

(** * Properties *)

(** ** Numbers *)

Lemma Qc_ltb_lt (x y : Qc) : (x <? y) = true <-> x < y.
Proof. unfold Qc_ltb. apply bool_decide_eq_true. Qed.

Lemma Qc_ltb_ge (x y : Qc) : (x <? y) = false <-> y <= x.
Proof.
  unfold Qc_ltb. rewrite bool_decide_eq_false. split.
  - apply Qcnot_lt_le.
  - apply Qcle_not_lt.
Qed.

Lemma Qc_leb_le (x y : Qc) : (x <=? y) = true <-> x <= y.
Proof. unfold Qc_leb. apply bool_decide_eq_true. Qed.

Lemma Qc_eqb_eq (x y : Qc) : (x =? y) = true <-> x = y.
Proof. unfold Qc_eqb. apply bool_decide_eq_true. Qed.

Lemma Qc_eqb_neq (x y : Qc) : (x =? y) = false <-> x <> y.
Proof. unfold Qc_eqb. apply bool_decide_eq_false. Qed.

Lemma nonzero_true (q : Qc) : nonzero q = true <-> q <> 0.
Proof. unfold nonzero. rewrite negb_true_iff. apply Qc_eqb_neq. Qed.

(** Goals about [Qc] are moved to [Q], where [lra] and [field] decide
    them. *)
Lemma Qc_eq_Qeq (x y : Qc) : x = y <-> (x == y)%Q.
Proof. split; [intros ->; reflexivity | apply Qc_is_canon]. Qed.

Ltac to_Q :=
  repeat match goal with
  | H : @eq Qc _ _ |- _ => apply Qc_eq_Qeq in H
  | H : ~ @eq Qc _ _ |- _ => rewrite Qc_eq_Qeq in H
  | |- @eq Qc _ _ => apply Qc_is_canon
  | |- ~ @eq Qc _ _ => rewrite Qc_eq_Qeq
  end;
  unfold Qcle, Qclt, Qcdiv, Qcminus, Qcplus, Qcmult, Qcinv, Qcopp, Q2Qc, Qc_of_Z in *;
  cbn [this] in *;
  rewrite ?Qred_correct in *.


Lemma Qc_of_Z_eq0 (n : Z) : Qc_of_Z n = 0 <-> n = 0%Z.
Proof. rewrite <- Z2Qc_inj_0. apply Z2Qc_inj_iff. Qed.

Lemma Qc_of_Z_nonneg (n : Z) : (0 <= n)%Z -> 0 <= Qc_of_Z n.
Proof. intros H. rewrite <- Z2Qc_inj_0. apply (proj1 (Z2Qc_inj_le 0 n)). exact H. Qed.

Lemma Qc_of_Z_pos (n : Z) : (0 < n)%Z -> 0 < Qc_of_Z n.
Proof. intros H. rewrite <- Z2Qc_inj_0. apply (proj1 (Z2Qc_inj_lt 0 n)). exact H. Qed.

Lemma truediv_ok (x y : Qc) : y <> 0 -> truediv x y = Ok (x / y).
Proof. intros H. unfold truediv. apply Qc_eqb_neq in H. rewrite H. reflexivity. Qed.

Lemma truediv_zero (x : Qc) : truediv x 0 = Raise ZeroDivisionError.
Proof. reflexivity. Qed.

Lemma truediv_inv (x y r : Qc) : truediv x y = Ok r -> y <> 0 /\ r = x / y.
Proof.
  unfold truediv. destruct (y =? 0) eqn:E; [discriminate |].
  intros [= <-]. split; [apply Qc_eqb_neq, E | reflexivity].
Qed.

(** ** The error monad *)

Lemma bind_Ok_inv {A B : Type} (m : result A) (k : A -> result B) (b : B) :
  bind m k = Ok b -> exists a, m = Ok a /\ k a = Ok b.
Proof. destruct m as [a | e]; simpl; [eauto | discriminate]. Qed.

Lemma bind_Raise_inv {A B : Type} (m : result A) (k : A -> result B) (e : exn) :
  bind m k = Raise e -> m = Raise e \/ exists a, m = Ok a /\ k a = Raise e.
Proof. destruct m as [a | e']; simpl; [eauto | intros [= ->]; auto]. Qed.

(** A loop invariant: kept by every iteration that does not raise, it
    holds of the final state. *)
Lemma for_each_invariant {S X : Type} (I : S -> Prop)
  (body : S -> X -> result S) (xs : list X) :
  (forall s x s', In x xs -> I s -> body s x = Ok s' -> I s') ->
  forall s s', I s -> for_each body xs s = Ok s' -> I s'.
Proof.
  induction xs as [| x xs IH]; intros Hstep s s' Hs Hrun; simpl in Hrun.
  - injection Hrun as <-. exact Hs.
  - apply bind_Ok_inv in Hrun as (s1 & H1 & Hrun).
    apply (IH (fun s0 y s0' Hy => Hstep s0 y s0' (or_intror Hy)) s1 s').
    + apply (Hstep s x s1); [left; reflexivity | exact Hs | exact H1].
    + exact Hrun.
Qed.

(** A loop whose iterations never raise from states of the invariant
    runs to the end. *)
Lemma for_each_progress {S X : Type} (I : S -> Prop)
  (body : S -> X -> result S) (xs : list X) :
  (forall s x, In x xs -> I s -> exists s', body s x = Ok s' /\ I s') ->
  forall s, I s -> exists s', for_each body xs s = Ok s' /\ I s'.
Proof.
  induction xs as [| x xs IH]; intros Hstep s Hs; simpl.
  - exists s. split; [reflexivity | exact Hs].
  - destruct (Hstep s x (or_introl eq_refl) Hs) as (s1 & H1 & Hs1).
    rewrite H1. simpl.
    apply IH; [| exact Hs1].
    intros s0 y Hy. apply Hstep. right. exact Hy.
Qed.

Lemma for_each_app {S X : Type} (body : S -> X -> result S) (xs ys : list X) (s : S) :
  for_each body (xs ++ ys) s = bind (for_each body xs s) (for_each body ys).
Proof.
  revert s. induction xs as [| x xs IH]; intros s; simpl; [reflexivity |].
  destruct (body s x) as [s1 | e]; simpl; [apply IH | reflexivity].
Qed.

Lemma comprehension_map {A B : Type} (f : A -> result B) (g : A -> B) (xs : list A) :
  (forall x, In x xs -> f x = Ok (g x)) -> comprehension f xs = Ok (map g xs).
Proof.
  induction xs as [| x xs IH]; intros H; simpl; [reflexivity |].
  rewrite (H x (or_introl eq_refl)). simpl.
  rewrite IH; [reflexivity |]. intros y Hy. apply H. right. exact Hy.
Qed.

Lemma comprehension_length {A B : Type} (f : A -> result B) (xs : list A) (ys : list B) :
  comprehension f xs = Ok ys -> length ys = length xs.
Proof.
  revert ys. induction xs as [| x xs IH]; intros ys H; simpl in H.
  - injection H as <-. reflexivity.
  - apply bind_Ok_inv in H as (y & _ & H).
    apply bind_Ok_inv in H as (ys' & Hys & H).
    injection H as <-. simpl. f_equal. apply IH. exact Hys.
Qed.

(** ** Python lists *)

Lemma len_nonneg {A : Type} (l : list A) : (0 <= len l)%Z.
Proof. unfold len. lia. Qed.

Lemma len_nil_iff {A : Type} (l : list A) : len l = 0%Z <-> l = [].
Proof. unfold len. destruct l; simpl; split; intros H; try reflexivity; try discriminate; lia. Qed.

Lemma is_empty_false {A : Type} (l : list A) : (0 < len l)%Z -> is_empty l = false.
Proof. destruct l; unfold len; simpl; [lia | reflexivity]. Qed.

Lemma is_empty_true {A : Type} (l : list A) : is_empty l = true <-> l = [].
Proof. destruct l; simpl; split; intros H; try reflexivity; discriminate. Qed.

Lemma In_range (a b i : Z) : In i (range a b) <-> (a <= i < b)%Z.
Proof.
  unfold range. rewrite in_map_iff. split.
  - intros (k & <- & Hk). apply in_seq in Hk. lia.
  - intros H. exists (Z.to_nat (i - a)). split; [lia |]. apply in_seq. lia.
Qed.

Lemma range_empty (a b : Z) : (b <= a)%Z -> range a b = [].
Proof. intros H. unfold range. replace (Z.to_nat (b - a)) with 0%nat by lia. reflexivity. Qed.

Lemma getitem_ok {A : Type} (l : list A) (i : Z) :
  (0 <= i < len l)%Z -> exists x, getitem l i = Ok x /\ nth_error l (Z.to_nat i) = Some x.
Proof.
  intros H. unfold getitem, len in *.
  destruct (i <? 0)%Z eqn:E; [lia |]. rewrite E.
  destruct (nth_error l (Z.to_nat i)) as [x |] eqn:En.
  - exists x. split; reflexivity.
  - apply nth_error_None in En. lia.
Qed.

Lemma getitem_neg_ok {A : Type} (l : list A) (i : Z) :
  (- len l <= i < 0)%Z ->
  exists x, getitem l i = Ok x /\ nth_error l (Z.to_nat (i + len l)) = Some x.
Proof.
  intros H. unfold getitem, len in *.
  destruct (i <? 0)%Z eqn:E; [| lia].
  destruct (i + Z.of_nat (length l) <? 0)%Z eqn:E2; [lia |].
  destruct (nth_error l (Z.to_nat (i + Z.of_nat (length l)))) as [x |] eqn:En.
  - exists x. split; reflexivity.
  - apply nth_error_None in En. lia.
Qed.

Lemma getitem_map_ok {A B : Type} (f : A -> B) (l : list A) (i : Z) (x : A) :
  getitem l i = Ok x -> getitem (map f l) i = Ok (f x).
Proof.
  unfold getitem, len. rewrite length_map.
  destruct (i <? 0)%Z; (destruct (_ <? 0)%Z; [discriminate |]);
    rewrite nth_error_map; destruct (nth_error l _); simpl; congruence.
Qed.

(** [l[-p:]] keeps the last [p] elements, or all of a shorter list. *)
Lemma slice_last {A : Type} (l : list A) (p : Z) :
  (0 < p)%Z ->
  slice l (Some (- p)%Z) None = skipn (length l - Z.to_nat p) l.
Proof.
  intros H. unfold slice, adjust, len in *.
  destruct (- p <? 0)%Z eqn:E; [| lia].
  replace (Z.to_nat (Z.max 0 (- p + Z.of_nat (length l)))) with (length l - Z.to_nat p)%nat by lia.
  apply firstn_all2. rewrite length_skipn. lia.
Qed.

Lemma length_slice_last {A : Type} (l : list A) (p : Z) :
  (0 < p <= len l)%Z -> len (slice l (Some (- p)%Z) None) = p.
Proof.
  intros H. rewrite slice_last by lia. unfold len in *. rewrite length_skipn. lia.
Qed.

(** [l[:n]] keeps the first [n] elements. *)
Lemma slice_first {A : Type} (l : list A) (n : Z) :
  (0 <= n)%Z -> slice l None (Some n) = firstn (Z.to_nat n) l.
Proof.
  intros H. unfold slice, adjust, len.
  destruct (n <? 0)%Z eqn:E; [lia |].
  change (Z.to_nat 0) with 0%nat. change (skipn 0 l) with l.
  rewrite Z.sub_0_r.
  destruct (Z.le_ge_cases n (Z.of_nat (length l))) as [Hle | Hge].
  - rewrite Z.min_l by exact Hle. reflexivity.
  - rewrite Z.min_r by lia. rewrite Nat2Z.id.
    rewrite firstn_all. symmetry. apply firstn_all2. lia.
Qed.

Lemma In_firstn {A : Type} (n : nat) (l : list A) (x : A) :
  In x (firstn n l) -> In x l.
Proof. intros H. rewrite <- (firstn_skipn n l). apply in_or_app. left. exact H. Qed.

Lemma In_skipn {A : Type} (n : nat) (l : list A) (x : A) :
  In x (skipn n l) -> In x l.
Proof. intros H. rewrite <- (firstn_skipn n l). apply in_or_app. right. exact H. Qed.

Lemma slice_incl {A : Type} (l : list A) (a b : option Z) (x : A) :
  In x (slice l a b) -> In x l.
Proof.
  unfold slice. intros H. apply In_firstn in H. apply In_skipn in H. exact H.
Qed.

(** ** Moving averages *)

Lemma _sma_short (data : list Qc) (period : Z) :
  (len data < period)%Z -> _sma data period = Ok None.
Proof. intros H. unfold _sma. apply Z.ltb_lt in H. rewrite H. reflexivity. Qed.

Lemma _sma_long (data : list Qc) (period : Z) :
  (0 < period <= len data)%Z ->
  _sma data period =
  Ok (Some (sum (skipn (length data - Z.to_nat period) data) / Qc_of_Z period)).
Proof.
  intros H. unfold _sma.
  destruct (len data <? period)%Z eqn:E; [apply Z.ltb_lt in E; lia |].
  rewrite slice_last by lia.
  rewrite truediv_ok; [reflexivity |].
  rewrite Qc_of_Z_eq0. lia.
Qed.

Lemma _sma_total (data : list Qc) (period : Z) :
  period <> 0%Z -> exists o, _sma data period = Ok o.
Proof.
  intros H. unfold _sma. destruct (len data <? period)%Z; [eauto |].
  rewrite truediv_ok by (rewrite Qc_of_Z_eq0; exact H). simpl. eauto.
Qed.

Lemma _ema_short (data : list Qc) (period : Z) :
  (len data < period)%Z -> _ema data period = Ok None.
Proof. intros H. unfold _ema. apply Z.ltb_lt in H. rewrite H. reflexivity. Qed.

Lemma _ema_long (data : list Qc) (period : Z) :
  (0 < period <= len data)%Z -> exists e, _ema data period = Ok (Some e).
Proof.
  intros H. unfold _ema.
  destruct (len data <? period)%Z eqn:E; [apply Z.ltb_lt in E; lia |].
  rewrite truediv_ok by (rewrite Qc_of_Z_eq0; lia). simpl.
  rewrite truediv_ok by (rewrite Qc_of_Z_eq0; lia). simpl.
  eauto.
Qed.

Lemma _ema_total (data : list Qc) (period : Z) :
  (0 < period)%Z -> exists o, _ema data period = Ok o.
Proof.
  intros H. destruct (Z.lt_ge_cases (len data) period) as [Hlt | Hge].
  - rewrite _ema_short by exact Hlt. eauto.
  - destruct (_ema_long data period) as [e He]; [lia |]. rewrite He. eauto.
Qed.

(** ** MACD *)

Lemma calculate_macd_short (prices : list Qc) (fast slow signal : Z) :
  (len prices < slow + signal)%Z ->
  calculate_macd prices fast slow signal = Ok (None, None, None).
Proof.
  intros H. unfold calculate_macd. apply Z.ltb_lt in H. rewrite H. reflexivity.
Qed.

Lemma calculate_macd_line (prices : list Qc) (fast slow signal : Z) :
  (0 < fast <= slow)%Z -> (0 < signal)%Z -> (slow + signal <= len prices)%Z ->
  exists m s h,
    calculate_macd prices fast slow signal = Ok (Some m, s, h) /\
    (h <> None -> s <> None).
Proof.
  intros Hf Hs Hlen. unfold calculate_macd.
  destruct (len prices <? slow + signal)%Z eqn:E; [apply Z.ltb_lt in E; lia |].
  destruct (_ema_long prices fast) as [ef Hef]; [lia |].
  destruct (_ema_long prices slow) as [es Hes]; [lia |].
  rewrite Hef, Hes. simpl.
  match goal with |- context [for_each ?b ?xs ?s0] =>
    assert (Hloop : exists hist, for_each b xs s0 = Ok hist /\ True)
  end.
  { apply for_each_progress with (I := fun _ => True); [| exact I].
    intros hist i _ _.
    destruct (_ema_total (slice prices None (Some i)) fast) as [o1 H1]; [lia |].
    destruct (_ema_total (slice prices None (Some i)) slow) as [o2 H2]; [lia |].
    rewrite H1, H2. simpl.
    destruct o1 as [a |], o2 as [b |]; eauto.
    destruct (nonzero a && nonzero b); eauto. }
  destruct Hloop as (hist & Hhist & _).
  rewrite Hhist. simpl.
  destruct (len hist <? signal)%Z.
  - exists (ef - es), None, None. split; [reflexivity | congruence].
  - destruct (_sma_total hist signal) as [o Ho]; [lia |].
    rewrite Ho. simpl. eexists _, o, _. split; [reflexivity |].
    destruct o; [congruence |]. intros H. exfalso. apply H. reflexivity.
Qed.

(** C1, as the specification states it, fails at 26 points: the series is
    long enough for the slow EMA, yet the MACD line is absent.  It also
    fails at 35 points of a flat series, where the histogram is absent. *)
Lemma calculate_macd_26_points_absent :
  len (repeat (1 : Qc) 26) = 26%Z /\
  calculate_macd (repeat 1 26) 12 26 9 = Ok (None, None, None) /\
  len (repeat (Qc_of_Z 100) 35) = 35%Z /\
  exists m s, calculate_macd (repeat (Qc_of_Z 100) 35) 12 26 9 = Ok (Some m, Some s, None).
Proof.
  split; [reflexivity |]. split; [reflexivity |]. split; [reflexivity |].
  eexists _, _. vm_compute. reflexivity.
Qed.

(** C1 (amended): [calculate_macd] with the default periods returns three
    absent values on fewer than [slow + signal = 35] points, and a present
    MACD line on 35 points or more; hence the signal line and the
    histogram are present only from 35 points, and the histogram only with
    the signal line. *)
Theorem calculate_macd_presence (prices : list Qc) :
  ((len prices < 35)%Z ->
     calculate_macd prices 12 26 9 = Ok (None, None, None)) /\
  ((35 <= len prices)%Z ->
     exists m s h, calculate_macd prices 12 26 9 = Ok (Some m, s, h) /\
                   (h <> None -> s <> None)) /\
  (forall m s h, calculate_macd prices 12 26 9 = Ok (m, s, h) ->
     (m <> None <-> (35 <= len prices)%Z) /\
     (s <> None -> (35 <= len prices)%Z) /\
     (h <> None -> (35 <= len prices)%Z)).
Proof.
  split; [| split].
  - intros H. apply calculate_macd_short. lia.
  - intros H. apply calculate_macd_line; lia.
  - intros m s h Hr.
    destruct (Z.lt_ge_cases (len prices) 35) as [Hlt | Hge].
    + rewrite calculate_macd_short in Hr by lia.
      injection Hr as <- <- <-. repeat split; try congruence; lia.
    + destruct (calculate_macd_line prices 12 26 9) as (m' & s' & h' & Hr' & _);
        [lia | lia | lia |].
      rewrite Hr' in Hr. injection Hr as <- <- <-.
      repeat split; try congruence; intros; lia.
Qed.

Lemma calculate_macd_presence_witness :
  exists m s h,
    calculate_macd (map (fun n => Qc_of_Z (Z.of_nat n)) (seq 1 35)) 12 26 9
    = Ok (Some m, s, h).
Proof.
  destruct (proj1 (proj2 (calculate_macd_presence
              (map (fun n => Qc_of_Z (Z.of_nat n)) (seq 1 35)))))
    as (m & s & h & H & _).
  - vm_compute. discriminate.
  - exists m, s, h. exact H.
Defined.

(** Closed computations: both sides are evaluated, and numbers are
    compared by their canonical fractions. *)
Ltac qc_eval :=
  vm_compute;
  repeat match goal with
         | |- @eq Qc _ _ => apply Qc_is_canon; reflexivity
         | |- Ok _ = Ok _ => apply f_equal
         | |- Some _ = Some _ => apply f_equal
         | |- (_, _) = (_, _) => apply f_equal2
         | |- _ => reflexivity
         end.

(** ** The minimum-history floor of [calculate_all_indicators] *)

Section Indicators.

Variable sqrt : Qc -> Qc.
Variable float_of_str : string -> option Qc.

Lemma calculate_all_indicators_short (history_data : list dict) :
  (len history_data < 5)%Z ->
  calculate_all_indicators sqrt float_of_str history_data
  = Ok TechnicalIndicators_default.
Proof.
  intros H. unfold calculate_all_indicators.
  apply Z.ltb_lt in H. rewrite H, orb_true_r. reflexivity.
Qed.

(** C8: on fewer than five records every optional field is absent, the
    trend score is 0 and the signal is hold. *)
Theorem calculate_all_indicators_below_floor (history_data : list dict) :
  (len history_data < 5)%Z ->
  exists r,
    calculate_all_indicators sqrt float_of_str history_data = Ok r /\
    ma5 r = None /\ ma10 r = None /\ ma20 r = None /\ ma60 r = None /\
    ema12 r = None /\ ema26 r = None /\
    macd r = None /\ macd_signal r = None /\ macd_hist r = None /\
    rsi_6 r = None /\ rsi_14 r = None /\
    boll_upper r = None /\ boll_middle r = None /\ boll_lower r = None /\
    boll_width r = None /\
    kdj_k r = None /\ kdj_d r = None /\ kdj_j r = None /\
    atr r = None /\ obv_trend r = None /\
    trend_score r = 0%Z /\ signal r = HOLD.
Proof.
  intros H. exists TechnicalIndicators_default.
  split; [apply calculate_all_indicators_short; exact H |]. repeat split.
Qed.

(** ** The flat series of the specification's example *)

Lemma flat30_columns :
  closes_of float_of_str (flat_series 30 100) = flat30 /\
  highs_of float_of_str (flat_series 30 100) = flat30 /\
  lows_of float_of_str (flat_series 30 100) = flat30.
Proof. repeat split; vm_compute; reflexivity. Qed.

Lemma flat30_bollinger :
  sqrt 0 = 0 ->
  calculate_bollinger sqrt flat30 20 2 = Ok (Some (100 : Qc), Some (100 : Qc), Some (100 : Qc)).
Proof.
  intros Hsqrt. unfold calculate_bollinger.
  change (len flat30 <? 20)%Z with false. cbv iota.
  replace (_sma flat30 20) with (Ok (Some (100 : Qc))) by (symmetry; qc_eval).
  cbn [bind]. unfold _std.
  change (len (slice flat30 (Some (- 20)%Z) None) <? 2)%Z with false. cbv iota.
  match goal with |- context [truediv ?a ?b] =>
    replace (truediv a b) with (Ok (100 : Qc)) by (symmetry; qc_eval)
  end.
  cbn [bind].
  match goal with |- context [truediv ?a ?b] =>
    replace (truediv a b) with (Ok (0 : Qc)) by (symmetry; qc_eval)
  end.
  cbn [bind]. rewrite Hsqrt.
  qc_eval.
Qed.

(** C2 (amended): on 30 records with close 100 the three moving averages
    and the RSI are 100 and the Bollinger width is 0; the RSI of 100 is
    in the overbought zone, which costs 25 points, so the trend score is
    -25, and the signal is hold. *)
Theorem flat_series_indicators :
  sqrt 0 = 0 ->
  exists r,
    calculate_all_indicators sqrt float_of_str (flat_series 30 100) = Ok r /\
    ma5 r = Some (100 : Qc) /\ ma10 r = Some (100 : Qc) /\
    ma20 r = Some (100 : Qc) /\
    rsi_6 r = Some (100 : Qc) /\ rsi_14 r = Some (100 : Qc) /\
    boll_upper r = Some (100 : Qc) /\ boll_lower r = Some (100 : Qc) /\
    boll_width r = Some 0 /\
    trend_score r = (-25)%Z /\ signal r = HOLD.
Proof.
  intros Hsqrt. unfold calculate_all_indicators.
  change (is_empty (flat_series 30 100) || (len (flat_series 30 100) <? 5)%Z)
    with false.
  cbv iota zeta.
  destruct flat30_columns as (-> & -> & ->).
  replace (_sma flat30 5) with (Ok (Some (100 : Qc))) by (symmetry; qc_eval).
  replace (_sma flat30 10) with (Ok (Some (100 : Qc))) by (symmetry; qc_eval).
  replace (_sma flat30 20) with (Ok (Some (100 : Qc))) by (symmetry; qc_eval).
  replace (_sma flat30 60) with (@Ok (option Qc) None) by (symmetry; qc_eval).
  replace (_ema flat30 12) with (Ok (Some (100 : Qc))) by (symmetry; qc_eval).
  replace (_ema flat30 26) with (Ok (Some (100 : Qc))) by (symmetry; qc_eval).
  replace (calculate_macd flat30 12 26 9)
    with (@Ok (option Qc * option Qc * option Qc) (None, None, None))
    by (symmetry; qc_eval).
  replace (calculate_rsi (map PyNum flat30) 6) with (Ok (Some (100 : Qc)))
    by (symmetry; qc_eval).
  replace (calculate_rsi (map PyNum flat30) 14) with (Ok (Some (100 : Qc)))
    by (symmetry; qc_eval).
  rewrite (flat30_bollinger Hsqrt).
  replace (calculate_kdj flat30 flat30 flat30 9)
    with (Ok (Some (50 : Qc), Some (50 : Qc), Some (50 : Qc)))
    by (symmetry; qc_eval).
  replace (calculate_atr flat30 flat30 flat30 14) with (Ok (Some (0 : Qc)))
    by (symmetry; qc_eval).
  replace (getitem flat30 (-1)) with (Ok (100 : Qc)) by (symmetry; qc_eval).
  cbn [bind].
  change (nonzero 100) with true. cbn [andb bind].
  replace (truediv (100 - 100) 100) with (Ok (0 : Qc)) by (symmetry; qc_eval).
  cbn [bind].
  match goal with |- context [_calculate_signal ?p ?i] =>
    change (_calculate_signal p i) with ((-25)%Z, HOLD)
  end.
  cbv iota beta.
  eexists. split; [reflexivity |]. cbn.
  repeat split; qc_eval.
Qed.

End Indicators.

Lemma sqrt_floor_0 : sqrt_floor 0 = 0.
Proof. apply Qc_is_canon. reflexivity. Qed.

Lemma calculate_all_indicators_below_floor_witness :
  exists r,
    calculate_all_indicators sqrt_floor no_float_syntax (flat_series 4 100) = Ok r /\
    trend_score r = 0%Z /\ signal r = HOLD.
Proof.
  destruct (calculate_all_indicators_below_floor sqrt_floor no_float_syntax
              (flat_series 4 100)) as (r & Hr & H).
  - vm_compute. reflexivity.
  - exists r. split; [exact Hr |]. split; apply H.
Defined.

Lemma flat_series_indicators_witness :
  exists r,
    calculate_all_indicators sqrt_floor no_float_syntax (flat_series 30 100) = Ok r /\
    trend_score r = (-25)%Z /\ signal r = HOLD.
Proof.
  destruct (flat_series_indicators sqrt_floor no_float_syntax sqrt_floor_0)
    as (r & Hr & H).
  exists r. split; [exact Hr |]. split; apply H.
Defined.

(** C2, as the specification states it, fails: the trend score of the
    flat series is not 0. *)
Lemma flat_series_trend_score_nonzero :
  exists r,
    calculate_all_indicators sqrt_floor no_float_syntax (flat_series 30 100) = Ok r /\
    rsi_14 r = Some (100 : Qc) /\ trend_score r = (-25)%Z /\ trend_score r <> 0%Z.
Proof.
  eexists. split; [vm_compute; reflexivity |]. cbn.
  split; [qc_eval |]. split; [reflexivity | discriminate].
Qed.

(** ** Sums *)

Lemma fold_left_Qcplus (l : list Qc) (a : Qc) :
  fold_left Qcplus l a = a + sum l.
Proof.
  unfold sum. revert a. induction l as [| x l IH]; intros a; simpl.
  - ring.
  - rewrite IH. rewrite (IH (0 + x)). ring.
Qed.

Lemma sum_cons (x : Qc) (l : list Qc) : sum (x :: l) = x + sum l.
Proof. unfold sum at 1. simpl. rewrite fold_left_Qcplus. ring. Qed.

Lemma sum_nil : sum [] = 0.
Proof. reflexivity. Qed.

Lemma sum_app (l1 l2 : list Qc) : sum (l1 ++ l2) = sum l1 + sum l2.
Proof.
  induction l1 as [| x l1 IH]; simpl.
  - rewrite sum_nil. ring.
  - rewrite !sum_cons, IH. ring.
Qed.

Lemma sum_nonneg (l : list Qc) : Forall (fun x => 0 <= x) l -> 0 <= sum l.
Proof.
  induction 1 as [| x l Hx _ IH].
  - rewrite sum_nil. apply Qcle_refl.
  - rewrite sum_cons. apply Qcplus_nonneg_nonneg; assumption.
Qed.

Lemma sum_zero (l : list Qc) : Forall (fun x => x = 0) l -> sum l = 0.
Proof.
  induction 1 as [| x l Hx _ IH].
  - reflexivity.
  - rewrite sum_cons, Hx, IH. ring.
Qed.

Lemma sum_repeat (c : Qc) (n : nat) : sum (repeat c n) = Qc_of_Z (Z.of_nat n) * c.
Proof.
  induction n as [| n IH].
  - simpl. rewrite sum_nil. change (Qc_of_Z (Z.of_nat 0)) with (Qc_of_Z 0).
    rewrite Z2Qc_inj_0. ring.
  - cbn [repeat]. rewrite sum_cons, IH.
    rewrite Nat2Z.inj_succ, <- Z.add_1_r, Z2Qc_inj_add, Z2Qc_inj_1. ring.
Qed.

(** ** RSI *)

Lemma max2_0_nonneg (c : Qc) : 0 <= max2 0 c.
Proof.
  unfold max2. destruct (0 <? c) eqn:E.
  - apply Qc_ltb_lt in E. apply Qclt_le_weak. exact E.
  - apply Qcle_refl.
Qed.

Lemma min2_0_of_nonneg (c : Qc) : 0 <= c -> min2 0 c = 0.
Proof.
  intros H. unfold min2. destruct (c <? 0) eqn:E; [| reflexivity].
  apply Qc_ltb_lt in E. exfalso. eapply Qcle_not_lt; eassumption.
Qed.

Lemma Q_rsi_ratio (g l p : Q) :
  (0 <= g)%Q -> (0 <= l)%Q -> ~ (p == 0)%Q -> ~ (l * / p == 0)%Q ->
  (0 < l)%Q /\ (g * / p * / (l * / p) == g * / l)%Q.
Proof.
  intros Hg Hl Hp Hlp.
  assert (Hl0 : ~ (l == 0)%Q).
  { intros H. apply Hlp. rewrite H. ring. }
  split; [lra |]. field. split; assumption.
Qed.

Lemma Q_rsi_bounds (g l : Q) : (0 <= g)%Q -> (0 < l)%Q ->
  (0 < 1 + g * / l)%Q /\
  (0 <= (100 # 1) - (100 # 1) * / (1 + g * / l) <= 100 # 1)%Q.
Proof.
  intros Hg Hl.
  assert (Hi : (0 < / l)%Q) by (apply Qinv_lt_0_compat; exact Hl).
  assert (Hrs : (0 <= g * / l)%Q) by nra.
  set (rs := (g * / l)%Q) in *.
  assert (Hp : (0 < 1 + rs)%Q) by lra.
  assert (Hj : (0 < / (1 + rs))%Q) by (apply Qinv_lt_0_compat; exact Hp).
  assert (H1 : ((1 + rs) * / (1 + rs) == 1)%Q) by (apply Qmult_inv_r; lra).
  split; [exact Hp |]. split; nra.
Qed.

(** The closing arithmetic of [calculate_rsi]: from non-negative sums of
    gains and losses, the relative strength is non-negative whatever the
    sign of the period, and the index lies between 0 and 100. *)
Lemma rsi_formula_bounds (g l p : Qc) :
  0 <= g -> 0 <= l -> p <> 0 -> l / p <> 0 ->
  1 + g / p / (l / p) <> 0 /\
  0 <= 100 - 100 / (1 + g / p / (l / p)) /\
  100 - 100 / (1 + g / p / (l / p)) <= 100.
Proof.
  intros Hg Hl Hp Hlp.
  assert (H : (0 < 1 + g * / l)%Q /\
              (g * / p * / (l * / p) == g * / l)%Q /\
              (0 <= (100 # 1) - (100 # 1) * / (1 + g * / l) <= 100 # 1)%Q).
  { to_Q.
    destruct (Q_rsi_ratio g l p Hg Hl Hp Hlp) as [Hl0 Hrs].
    destruct (Q_rsi_bounds g l Hg Hl0) as (H1 & H2).
    auto. }
  destruct H as (H1 & Hrs & H2 & H3).
  repeat split; to_Q; unfold inject_Z; rewrite Hrs.
  - intros H. rewrite H in H1. lra.
  - exact H2.
  - exact H3.
Qed.

Lemma sum_gains_nonneg (changes : list Qc) :
  0 <= sum (map (fun c => max2 0 c) changes).
Proof.
  apply sum_nonneg. apply Forall_forall. intros x Hx.
  apply in_map_iff in Hx as (c & <- & _). apply max2_0_nonneg.
Qed.

Lemma sum_losses_nonneg (changes : list Qc) :
  0 <= sum (map (fun c => Qcabs (min2 0 c)) changes).
Proof.
  apply sum_nonneg. apply Forall_forall. intros x Hx.
  apply in_map_iff in Hx as (c & <- & _). apply Qcabs_nonneg.
Qed.

Lemma calculate_rsi_short (prices : list pyval) (period : Z) :
  (len prices < period + 1)%Z -> calculate_rsi prices period = Ok None.
Proof. intros H. unfold calculate_rsi. apply Z.ltb_lt in H. rewrite H. reflexivity. Qed.

(** Whatever the record values and the period, a returned RSI lies in
    [0, 100]. *)
Lemma calculate_rsi_range (prices : list pyval) (period : Z) (v : Qc) :
  calculate_rsi prices period = Ok (Some v) -> 0 <= v /\ v <= 100.
Proof.
  unfold calculate_rsi. destruct (len prices <? period + 1)%Z; [discriminate |].
  intros H.
  apply bind_Ok_inv in H as (changes & _ & H).
  apply bind_Ok_inv in H as (avg_gain & Hg & H).
  apply bind_Ok_inv in H as (avg_loss & Hl & H).
  apply truediv_inv in Hg as [Hp ->]. apply truediv_inv in Hl as [_ ->].
  destruct (_ =? 0) eqn:E.
  - injection H as <-. split.
    + apply Qc_of_Z_nonneg. lia.
    + apply Qcle_refl.
  - apply Qc_eqb_neq in E.
    apply bind_Ok_inv in H as (rs & Hrs & H).
    apply bind_Ok_inv in H as (q & Hq & H).
    apply truediv_inv in Hrs as [_ ->]. apply truediv_inv in Hq as [_ ->].
    injection H as <-.
    eapply rsi_formula_bounds; eauto using sum_gains_nonneg, sum_losses_nonneg.
Qed.

Lemma map_seq_shift {A : Type} (f : nat -> A) (k s n : nat) :
  map f (seq (s + k) n) = map (fun j => f (j + k)%nat) (seq s n).
Proof.
  revert s. induction n as [| n IH]; intros s; simpl; [reflexivity |].
  f_equal. apply (IH (S s)).
Qed.

Lemma skipn_range (k : nat) (a b : Z) :
  skipn k (range a b) = range (a + Z.of_nat k) b.
Proof.
  unfold range. rewrite skipn_map, skipn_seq.
  replace (Z.to_nat (b - (a + Z.of_nat k))) with (Z.to_nat (b - a) - k)%nat by lia.
  rewrite (map_seq_shift _ k 0). apply map_ext. intros j. lia.
Qed.

Lemma length_range (a b : Z) : length (range a b) = Z.to_nat (b - a).
Proof. unfold range. rewrite length_map, length_seq. reflexivity. Qed.

Lemma getitem_nth (prices : list Qc) (i : Z) :
  (0 <= i < len prices)%Z ->
  getitem (map PyNum prices) i = Ok (PyNum (nth (Z.to_nat i) prices 0)).
Proof.
  intros H. destruct (getitem_ok prices i H) as (x & Hx & Hn).
  rewrite (getitem_map_ok PyNum prices i x Hx).
  rewrite (nth_error_nth prices (Z.to_nat i) 0 Hn). reflexivity.
Qed.

(** The day-to-day changes that [calculate_rsi] computes from a numeric
    series. *)
Lemma rsi_changes (prices : list Qc) :
  comprehension
    (fun i => a <- getitem (map PyNum prices) i ;;
              b <- getitem (map PyNum prices) (i - 1) ;;
              py_sub a b)
    (range 1 (len (map PyNum prices)))
  = Ok (map (delta prices) (range 1 (len prices))).
Proof.
  unfold len. rewrite length_map. apply comprehension_map.
  intros i Hi. apply In_range in Hi.
  rewrite !getitem_nth by (unfold len; lia). reflexivity.
Qed.

Lemma calculate_rsi_no_losses (prices : list Qc) (period : Z) :
  (0 < period)%Z -> (period + 1 <= len prices)%Z ->
  (forall i, (len prices - period <= i < len prices)%Z ->
             nth (Z.to_nat (i - 1)) prices 0 <= nth (Z.to_nat i) prices 0) ->
  calculate_rsi (map PyNum prices) period = Ok (Some (100 : Qc)).
Proof.
  intros Hp Hlen Hup. unfold calculate_rsi.
  destruct (len (map PyNum prices) <? period + 1)%Z eqn:E.
  { apply Z.ltb_lt in E. unfold len in *. rewrite length_map in E. lia. }
  rewrite rsi_changes. cbn [bind].
  assert (Hsl : slice (map (delta prices) (range 1 (len prices))) (Some (- period)%Z) None
                = map (delta prices) (range (len prices - period) (len prices))).
  { rewrite slice_last by lia.
    rewrite skipn_map, skipn_range. f_equal. f_equal.
    rewrite length_map, length_range. unfold len in *. lia. }
  rewrite Hsl.
  rewrite !truediv_ok by (rewrite Qc_of_Z_eq0; lia). cbn [bind].
  assert (Hz : sum (map (fun c => Qcabs (min2 0 c))
                        (map (delta prices) (range (len prices - period) (len prices)))) = 0).
  { apply sum_zero. apply Forall_forall. intros x Hx.
    apply in_map_iff in Hx as (c & <- & Hc).
    apply in_map_iff in Hc as (i & <- & Hi). apply In_range in Hi.
    rewrite min2_0_of_nonneg.
    - apply Qcabs_pos. apply Qcle_refl.
    - unfold delta. apply (proj1 (Qcle_minus_iff _ _)). apply Hup. exact Hi. }
  rewrite Hz.
  replace (0 / Qc_of_Z period) with 0 by (unfold Qcdiv; ring).
  reflexivity.
Qed.

(** C5: [calculate_rsi] is absent below [period + 1] points; a returned
    value lies in [0, 100]; and for a period of at least 1 it is exactly
    100 when none of the last [period] changes is negative. *)
Theorem calculate_rsi_spec (prices : list Qc) (period : Z) :
  ((len prices < period + 1)%Z ->
     calculate_rsi (map PyNum prices) period = Ok None) /\
  (forall v, calculate_rsi (map PyNum prices) period = Ok (Some v) ->
     0 <= v /\ v <= 100) /\
  ((0 < period)%Z -> (period + 1 <= len prices)%Z ->
   (forall i, (len prices - period <= i < len prices)%Z ->
              nth (Z.to_nat (i - 1)) prices 0 <= nth (Z.to_nat i) prices 0) ->
     calculate_rsi (map PyNum prices) period = Ok (Some (100 : Qc))).
Proof.
  split; [| split].
  - intros H. apply calculate_rsi_short. unfold len in *. rewrite length_map. exact H.
  - intros v. apply calculate_rsi_range.
  - apply calculate_rsi_no_losses.
Qed.

Lemma calculate_rsi_spec_witness :
  calculate_rsi (map PyNum [1; 2; 2; Qc_of_Z 5]) 2 = Ok (Some (100 : Qc)) /\
  calculate_rsi (map PyNum [1; 2]) 2 = Ok None.
Proof.
  split.
  - apply (proj2 (proj2 (calculate_rsi_spec [1; 2; 2; Qc_of_Z 5] 2))).
    + lia.
    + vm_compute. discriminate.
    + intros i Hi. change (len [1; 2; 2; Qc_of_Z 5]) with 4%Z in Hi.
      assert (Hc : i = 2%Z \/ i = 3%Z) by lia.
      destruct Hc as [-> | ->]; vm_compute; discriminate.
  - apply (proj1 (calculate_rsi_spec [1; 2] 2)). vm_compute. reflexivity.
Defined.

(** ** Maximum drawdown *)

Lemma map_snd_enumerate_from {A : Type} (i : Z) (xs : list A) :
  map snd (enumerate_from i xs) = xs.
Proof.
  revert i. induction xs as [| x xs IH]; intros i; simpl; [reflexivity |].
  f_equal. apply IH.
Qed.

Lemma Qc_lt_nonzero (x : Qc) : 0 < x -> x <> 0.
Proof. intros H ->. exact (Qclt_not_eq _ _ H eq_refl). Qed.

(** One iteration never raises, and keeps the running maximum
    non-negative. *)
Lemma drawdown_step_nonneg (st : drawdown_state) (ip : Z * Qc) :
  0 <= dd_max st ->
  exists st', drawdown_step st ip = Ok st' /\ 0 <= dd_max st'.
Proof.
  intros H. destruct ip as [i price]. unfold drawdown_step.
  destruct (dd_peak st <? price).
  - eexists. split; [reflexivity | exact H].
  - destruct (0 <? dd_peak st) eqn:Ep.
    + apply Qc_ltb_lt in Ep.
      rewrite truediv_ok by (apply Qc_lt_nonzero; exact Ep). cbn [bind].
      destruct (dd_max st <? _) eqn:Em.
      * eexists. split; [reflexivity |]. cbn.
        apply Qc_ltb_lt in Em. apply Qclt_le_weak.
        eapply Qcle_lt_trans; eassumption.
      * eexists. split; [reflexivity | exact H].
    + cbn [bind]. destruct (dd_max st <? 0).
      * eexists. split; [reflexivity |]. cbn. apply Qcle_refl.
      * eexists. split; [reflexivity | exact H].
Qed.

(** On a non-decreasing remainder that starts at or above the peak, the
    running maximum stays at 0. *)
Lemma drawdown_loop_sorted (ips : list (Z * Qc)) (st : drawdown_state) :
  dd_max st = 0 ->
  Forall (fun p => dd_peak st <= p) (map snd ips) ->
  StronglySorted Qcle (map snd ips) ->
  exists st', for_each drawdown_step ips st = Ok st' /\ dd_max st' = 0.
Proof.
  revert st. induction ips as [| [i price] ips IH]; intros st Hmax Hpeak Hsorted.
  - exists st. split; [reflexivity | exact Hmax].
  - simpl in Hpeak, Hsorted.
    apply Forall_cons_iff in Hpeak as [Hp Hrest].
    apply StronglySorted_inv in Hsorted as [Hsorted Hhd].
    cbn [for_each]. unfold drawdown_step at 1.
    destruct (dd_peak st <? price) eqn:E.
    + cbn [bind]. apply IH; [exact Hmax | exact Hhd | exact Hsorted].
    + apply Qc_ltb_ge in E.
      assert (Heq : price = dd_peak st) by (apply Qcle_antisym; assumption).
      assert (Hdd : (dd_peak st - price) = 0) by (rewrite Heq; ring).
      destruct (0 <? dd_peak st) eqn:Ep.
      * apply Qc_ltb_lt in Ep.
        rewrite truediv_ok by (apply Qc_lt_nonzero; exact Ep). cbn [bind].
        rewrite Hdd, Hmax.
        replace (0 / dd_peak st * 100) with 0 by (unfold Qcdiv; ring).
        change (0 <? 0) with false. cbv iota.
        apply IH; cbn; [first [exact Hmax | reflexivity] | exact Hrest | exact Hsorted].
      * cbn [bind]. rewrite Hmax. change (0 <? 0) with false. cbv iota.
        apply IH; cbn; [first [exact Hmax | reflexivity] | exact Hrest | exact Hsorted].
Qed.

Lemma _calculate_max_drawdown_total (prices : list Qc) :
  exists dd duration,
    _calculate_max_drawdown prices = Ok (dd, duration) /\ 0 <= dd.
Proof.
  unfold _calculate_max_drawdown. destruct prices as [| p0 rest].
  - exists 0, 0%Z. split; [reflexivity | apply Qcle_refl].
  - match goal with |- context [for_each _ _ ?init] =>
      destruct (for_each_progress (fun st => 0 <= dd_max st) drawdown_step
                  (enumerate (p0 :: rest))
                  (fun st ip _ => drawdown_step_nonneg st ip) init (Qcle_refl 0))
        as (st & Hst & Hnonneg)
    end.
    rewrite Hst. cbn [bind]. eauto.
Qed.

#[local] Instance Qcle_transitive : Transitive Qcle := Qcle_trans.

(** C6: the maximum drawdown is never negative, and it is 0 on every
    non-decreasing series, the empty one included. *)
Theorem max_drawdown_nonneg (prices : list Qc) :
  exists dd duration,
    _calculate_max_drawdown prices = Ok (dd, duration) /\
    0 <= dd /\
    (Sorted Qcle prices -> dd = 0).
Proof.
  unfold _calculate_max_drawdown. destruct prices as [| p0 rest].
  - exists 0, 0%Z. split; [reflexivity |]. split; [apply Qcle_refl | reflexivity].
  - set (init := {| dd_max := 0; dd_max_duration := 0; dd_peak := p0;
                    dd_peak_idx := 0; dd_current_duration := 0 |}).
    destruct (for_each_progress (fun st => 0 <= dd_max st) drawdown_step
                (enumerate (p0 :: rest))
                (fun st ip _ => drawdown_step_nonneg st ip) init (Qcle_refl 0))
      as (st & Hst & Hnonneg).
    rewrite Hst. cbn [bind].
    exists (dd_max st), (dd_max_duration st).
    split; [reflexivity |]. split; [exact Hnonneg |].
    intros Hsorted. apply Sorted_StronglySorted in Hsorted; [| exact Qcle_transitive].
    destruct (drawdown_loop_sorted (enumerate (p0 :: rest)) init) as (st' & Hst' & Hz).
    + reflexivity.
    + unfold enumerate. rewrite map_snd_enumerate_from.
      apply Forall_cons; [apply Qcle_refl |].
      apply StronglySorted_inv in Hsorted as [_ Hhd]. exact Hhd.
    + unfold enumerate. rewrite map_snd_enumerate_from. exact Hsorted.
    + rewrite Hst in Hst'. injection Hst' as <-. exact Hz.
Qed.

Lemma max_drawdown_nonneg_witness :
  exists dd duration,
    _calculate_max_drawdown [1; 2; 2; Qc_of_Z 3] = Ok (dd, duration) /\ dd = 0.
Proof.
  destruct (max_drawdown_nonneg [1; 2; 2; Qc_of_Z 3]) as (dd & duration & H & _ & Hs).
  exists dd, duration. split; [exact H |]. apply Hs.
  repeat constructor; vm_compute; discriminate.
Defined.

(** ** Maxima and minima *)

Lemma max2_ge_l (a b : Qc) : a <= max2 a b.
Proof.
  unfold max2. destruct (a <? b) eqn:E.
  - apply Qc_ltb_lt in E. apply Qclt_le_weak. exact E.
  - apply Qcle_refl.
Qed.

Lemma max2_ge_r (a b : Qc) : b <= max2 a b.
Proof.
  unfold max2. destruct (a <? b) eqn:E.
  - apply Qcle_refl.
  - apply Qc_ltb_ge in E. exact E.
Qed.

Lemma min2_le_l (a b : Qc) : min2 a b <= a.
Proof.
  unfold min2. destruct (b <? a) eqn:E.
  - apply Qc_ltb_lt in E. apply Qclt_le_weak. exact E.
  - apply Qcle_refl.
Qed.

Lemma min2_le_r (a b : Qc) : min2 a b <= b.
Proof.
  unfold min2. destruct (b <? a) eqn:E.
  - apply Qcle_refl.
  - apply Qc_ltb_ge in E. exact E.
Qed.

Lemma fold_max2_ge (xs : list Qc) (a : Qc) :
  a <= fold_left max2 xs a /\ Forall (fun x => x <= fold_left max2 xs a) xs.
Proof.
  revert a. induction xs as [| x xs IH]; intros a; simpl.
  - split; [apply Qcle_refl | constructor].
  - destruct (IH (max2 a x)) as [H1 H2]. split.
    + eapply Qcle_trans; [apply max2_ge_l | exact H1].
    + constructor; [| exact H2].
      eapply Qcle_trans; [apply max2_ge_r | exact H1].
Qed.

Lemma fold_min2_le (xs : list Qc) (a : Qc) :
  fold_left min2 xs a <= a /\ Forall (fun x => fold_left min2 xs a <= x) xs.
Proof.
  revert a. induction xs as [| x xs IH]; intros a; simpl.
  - split; [apply Qcle_refl | constructor].
  - destruct (IH (min2 a x)) as [H1 H2]. split.
    + eapply Qcle_trans; [exact H1 | apply min2_le_l].
    + constructor; [| exact H2].
      eapply Qcle_trans; [exact H1 | apply min2_le_r].
Qed.

Lemma py_max_upper (xs : list Qc) (m x : Qc) :
  py_max xs = Ok m -> In x xs -> x <= m.
Proof.
  destruct xs as [| a xs]; [discriminate |]. intros [= <-] [<- | Hx].
  - apply fold_max2_ge.
  - destruct (fold_max2_ge xs a) as [_ H].
    rewrite Forall_forall in H. apply H. exact Hx.
Qed.

Lemma py_min_lower (xs : list Qc) (m x : Qc) :
  py_min xs = Ok m -> In x xs -> m <= x.
Proof.
  destruct xs as [| a xs]; [discriminate |]. intros [= <-] [<- | Hx].
  - apply fold_min2_le.
  - destruct (fold_min2_le xs a) as [_ H].
    rewrite Forall_forall in H. apply H. exact Hx.
Qed.

Lemma fold_max2_In (xs : list Qc) (a : Qc) : In (fold_left max2 xs a) (a :: xs).
Proof.
  revert a. induction xs as [| x xs IH]; intros a; simpl; [auto |].
  destruct (IH (max2 a x)) as [H | H].
  - unfold max2 in H at 1. destruct (a <? x); rewrite <- H; auto.
  - auto.
Qed.

Lemma fold_min2_In (xs : list Qc) (a : Qc) : In (fold_left min2 xs a) (a :: xs).
Proof.
  revert a. induction xs as [| x xs IH]; intros a; simpl; [auto |].
  destruct (IH (min2 a x)) as [H | H].
  - unfold min2 in H at 1. destruct (x <? a); rewrite <- H; auto.
  - auto.
Qed.

Lemma py_max_In (xs : list Qc) (m : Qc) : py_max xs = Ok m -> In m xs.
Proof. destruct xs; [discriminate |]. intros [= <-]. apply fold_max2_In. Qed.

Lemma py_min_In (xs : list Qc) (m : Qc) : py_min xs = Ok m -> In m xs.
Proof. destruct xs; [discriminate |]. intros [= <-]. apply fold_min2_In. Qed.

(** ** KDJ *)







(** ** The record built by [calculate_all_indicators] *)

Section IndicatorRecord.

Variable sqrt : Qc -> Qc.
Variable float_of_str : string -> option Qc.

(** The score depends on the indicator fields only, not on the score and
    signal already stored in the record. *)
Lemma _calculate_signal_fields (p : Qc) (a b : TechnicalIndicators) :
  ma5 a = ma5 b -> ma10 a = ma10 b -> ma20 a = ma20 b ->
  macd a = macd b -> macd_signal a = macd_signal b -> macd_hist a = macd_hist b ->
  rsi_14 a = rsi_14 b -> kdj_j a = kdj_j b ->
  _calculate_signal p a = _calculate_signal p b.
Proof.
  intros H1 H2 H3 H4 H5 H6 H7 H8.
  unfold _calculate_signal, ma_block, macd_block, rsi_block, kdj_block.
  rewrite H1, H2, H3, H4, H5, H6, H7, H8. reflexivity.
Qed.

(** Each field of a returned record is the result of the corresponding
    indicator on the extracted columns. *)
Lemma calculate_all_indicators_inv (history_data : list dict) (r : TechnicalIndicators) :
  (5 <= len history_data)%Z ->
  calculate_all_indicators sqrt float_of_str history_data = Ok r ->
  let closes := closes_of float_of_str history_data in
  let highs := highs_of float_of_str history_data in
  let lows := lows_of float_of_str history_data in
  _sma closes 5 = Ok (ma5 r) /\
  _sma closes 10 = Ok (ma10 r) /\
  _sma closes 20 = Ok (ma20 r) /\
  _sma closes 60 = Ok (ma60 r) /\
  _ema closes 12 = Ok (ema12 r) /\
  _ema closes 26 = Ok (ema26 r) /\
  calculate_macd closes 12 26 9 = Ok (macd r, macd_signal r, macd_hist r) /\
  calculate_rsi (map PyNum closes) 6 = Ok (rsi_6 r) /\
  calculate_rsi (map PyNum closes) 14 = Ok (rsi_14 r) /\
  calculate_bollinger sqrt closes 20 2 = Ok (boll_upper r, boll_middle r, boll_lower r) /\
  calculate_kdj highs lows closes 9 = Ok (kdj_k r, kdj_d r, kdj_j r) /\
  calculate_atr highs lows closes 14 = Ok (atr r) /\
  obv_trend r = None /\
  exists last, getitem closes (-1) = Ok last /\
               _calculate_signal last r = (trend_score r, signal r).
Proof.
  intros Hlen H. unfold calculate_all_indicators in H.
  rewrite is_empty_false in H by lia.
  destruct (len history_data <? 5)%Z eqn:E; [apply Z.ltb_lt in E; lia |].
  cbn [orb] in H. cbv zeta in H |- *.
  apply bind_Ok_inv in H as (v5 & H5 & H).
  apply bind_Ok_inv in H as (v10 & H10 & H).
  apply bind_Ok_inv in H as (v20 & H20 & H).
  apply bind_Ok_inv in H as (v60 & H60 & H).
  apply bind_Ok_inv in H as (e12 & He12 & H).
  apply bind_Ok_inv in H as (e26 & He26 & H).
  apply bind_Ok_inv in H as ([[vm vs] vh] & Hmacd & H).
  apply bind_Ok_inv in H as (r6 & Hr6 & H).
  apply bind_Ok_inv in H as (r14 & Hr14 & H).
  apply bind_Ok_inv in H as ([[up mid] low] & Hboll & H).
  apply bind_Ok_inv in H as (w & Hw & H).
  apply bind_Ok_inv in H as ([[k d] j] & Hkdj & H).
  apply bind_Ok_inv in H as (vatr & Hatr & H).
  apply bind_Ok_inv in H as (last & Hlast & H).
  destruct (_calculate_signal last _) as [score sig] eqn:Hsig.
  injection H as <-. cbn.
  repeat (split; [assumption || reflexivity |]).
  exists last. split; [exact Hlast |].
  rewrite <- Hsig. apply _calculate_signal_fields; reflexivity.
Qed.


End IndicatorRecord.



(** ** Performance metrics *)

(** A series whose records all carry a numeric [close]. *)
Lemma get_close_numeric (history_data : list dict) (closes : list Qc) :
  numeric_closes history_data closes ->
  comprehension get_close history_data = Ok (map PyNum closes) /\
  len history_data = len closes.
Proof.
  unfold numeric_closes. induction 1 as [| d c hd cs Hd _ [IH1 IH2]].
  - split; reflexivity.
  - cbn [comprehension]. unfold get_close at 1. rewrite Hd. cbn [bind].
    rewrite IH1. split; [reflexivity |]. unfold len in *. simpl. lia.
Qed.

Lemma as_num_numeric (closes : list Qc) :
  comprehension as_num (map PyNum closes) = Ok closes.
Proof.
  induction closes as [| c cs IH]; simpl; [reflexivity |]. rewrite IH. reflexivity.
Qed.

(** The daily return of day [i]. *)
Lemma daily_returns_loop (closes : list Qc) (days : list Z) (acc : list Qc) :
  (forall i, In i days -> (1 <= i < len closes)%Z) ->
  for_each
    (fun daily_returns i =>
       prev <- getitem (map PyNum closes) (i - 1) ;;
       if py_ne_zero prev then
         cur <- getitem (map PyNum closes) i ;;
         diff <- py_sub cur prev ;;
         p <- as_num prev ;;
         r <- truediv diff p ;;
         Ok (daily_returns ++ [r * 100])
       else Ok daily_returns)
    days acc
  = Ok (acc ++ map (daily_return closes)
                   (List.filter (fun i => nonzero (nth (Z.to_nat (i - 1)) closes 0)) days)).
Proof.
  revert acc. induction days as [| i days IH]; intros acc Hdays.
  - simpl. rewrite app_nil_r. reflexivity.
  - assert (Hi : (1 <= i < len closes)%Z) by (apply Hdays; left; reflexivity).
    cbn [for_each List.filter].
    rewrite !getitem_nth by lia. cbn [bind py_ne_zero].
    fold (nonzero (nth (Z.to_nat (i - 1)) closes 0)).
    destruct (nonzero (nth (Z.to_nat (i - 1)) closes 0)) eqn:E.
    + apply nonzero_true in E.
      unfold py_sub. cbn [as_num bind]. rewrite truediv_ok by exact E. cbn [bind].
      rewrite IH by (intros j Hj; apply Hdays; right; exact Hj).
      cbn [map]. rewrite <- app_assoc. reflexivity.
    + apply IH. intros j Hj. apply Hdays. right. exact Hj.
Qed.

Lemma daily_returns_numeric (closes : list Qc) :
  daily_returns_of (map PyNum closes)
  = Ok (map (daily_return closes)
            (List.filter (fun i => nonzero (nth (Z.to_nat (i - 1)) closes 0))
                         (range 1 (len closes)))).
Proof.
  unfold daily_returns_of.
  replace (len (map PyNum closes)) with (len closes)
    by (unfold len; rewrite length_map; reflexivity).
  rewrite daily_returns_loop; [reflexivity |].
  intros i Hi. apply In_range in Hi. exact Hi.
Qed.

Lemma filter_nil {A : Type} (f : A -> bool) (l : list A) :
  (forall x, In x l -> f x = false) -> List.filter f l = [].
Proof.
  induction l as [| x l IH]; intros H; simpl; [reflexivity |].
  rewrite (H x (or_introl eq_refl)). apply IH. intros y Hy. apply H. right. exact Hy.
Qed.

(** No daily return exists exactly when every prior close is 0. *)
Lemma daily_returns_empty_iff (closes : list Qc) :
  map (daily_return closes)
      (List.filter (fun i => nonzero (nth (Z.to_nat (i - 1)) closes 0))
                   (range 1 (len closes))) = []
  <-> forall i, (1 <= i < len closes)%Z -> nth (Z.to_nat (i - 1)) closes 0 = 0.
Proof.
  split.
  - intros H i Hi. apply map_eq_nil in H.
    destruct (nonzero (nth (Z.to_nat (i - 1)) closes 0)) eqn:E.
    + assert (Hin : In i (List.filter (fun i => nonzero (nth (Z.to_nat (i - 1)) closes 0))
                                      (range 1 (len closes)))).
      { apply filter_In. split; [apply In_range; exact Hi | exact E]. }
      rewrite H in Hin. destruct Hin.
    + unfold nonzero in E. apply negb_false_iff in E. apply Qc_eqb_eq in E. exact E.
  - intros H. rewrite filter_nil; [reflexivity |].
    intros i Hi. apply In_range in Hi. rewrite (H i Hi). reflexivity.
Qed.

Section Performance.

Variable sqrt : Qc -> Qc.

Lemma _std_total (data : list Qc) : exists s, _std sqrt data = Ok s.
Proof.
  unfold _std. destruct (len data <? 2)%Z eqn:E; [eauto |].
  apply Z.ltb_ge in E.
  rewrite truediv_ok by (rewrite Qc_of_Z_eq0; lia). cbn [bind].
  rewrite truediv_ok by (rewrite Qc_of_Z_eq0; lia). cbn [bind]. eauto.
Qed.

Lemma py_max_total (xs : list Qc) : xs <> [] -> exists m, py_max xs = Ok m.
Proof. destruct xs; [congruence | simpl; eauto]. Qed.

Lemma py_min_total (xs : list Qc) : xs <> [] -> exists m, py_min xs = Ok m.
Proof. destruct xs; [congruence | simpl; eauto]. Qed.

Lemma py_int_nonneg (x : Qc) : 0 <= x -> (0 <= py_int x)%Z.
Proof.
  intros H. unfold py_int. apply Z.quot_pos; [| lia].
  unfold Qcle, Qle in H. simpl in H. lia.
Qed.

Lemma var_index_total (xs : list Qc) (q : Qc) :
  0 <= q ->
  let idx := py_int (Qc_of_Z (len xs) * q) in
  exists v, (if (idx <? len xs)%Z then getitem xs idx else Ok 0) = Ok v.
Proof.
  intros Hq idx. destruct (idx <? len xs)%Z eqn:E; [| eauto].
  apply Z.ltb_lt in E.
  assert (H0 : (0 <= idx)%Z).
  { apply py_int_nonneg. apply Qcmult_nonneg_nonneg; [| exact Hq].
    apply Qc_of_Z_nonneg, len_nonneg. }
  destruct (getitem_ok xs idx) as (v & Hv & _); [lia | eauto].
Qed.

(** On a numeric series of at least five records nothing raises: the
    result is absent when there is no daily return, and a record
    otherwise. *)
Lemma calculate_performance_numeric (history_data : list dict) (closes : list Qc) :
  numeric_closes history_data closes ->
  (5 <= len history_data)%Z ->
  exists daily_returns,
    daily_returns_of (map PyNum closes) = Ok daily_returns /\
    ((daily_returns = [] /\ calculate_performance sqrt history_data = Ok None) \/
     (daily_returns <> [] /\
      exists m, calculate_performance sqrt history_data = Ok (Some m))).
Proof.
  intros Hnum Hlen.
  destruct (get_close_numeric history_data closes Hnum) as [Hcl Hlen'].
  rewrite daily_returns_numeric. eexists. split; [reflexivity |].
  unfold calculate_performance.
  rewrite is_empty_false by lia.
  destruct (len history_data <? 5)%Z eqn:E; [apply Z.ltb_lt in E; lia |].
  cbn [orb]. rewrite Hcl. cbn [bind]. rewrite daily_returns_numeric. cbn [bind].
  match goal with |- context [is_empty ?l] => set (dr := l) end.
  destruct dr as [| r0 dr'] eqn:Edr; [left; split; reflexivity |].
  right. split; [discriminate |]. rewrite <- Edr. cbn [is_empty].
  assert (Hdr : dr <> []) by (rewrite Edr; discriminate).
  assert (Hdrlen : (0 < len dr)%Z) by (rewrite Edr; unfold len; simpl; lia).
  clearbody dr. clear Edr r0 dr'.
  rewrite (is_empty_false dr) by exact Hdrlen.
  (* total return *)
  rewrite getitem_nth by lia. cbn [bind py_truthy].
  fold (nonzero (nth (Z.to_nat 0) closes 0)).
  assert (Htot : exists t,
    (if nonzero (nth (Z.to_nat 0) closes 0)
     then last <- getitem (map PyNum closes) (-1) ;;
          diff <- py_sub last (PyNum (nth (Z.to_nat 0) closes 0)) ;;
          f <- as_num (PyNum (nth (Z.to_nat 0) closes 0)) ;;
          r <- truediv diff f ;; Ok (r * 100)
     else Ok 0) = Ok t).
  { destruct (nonzero _) eqn:E0; [| eauto].
    apply nonzero_true in E0.
    destruct (getitem_neg_ok closes (-1)) as (c & Hc & _); [lia |].
    rewrite (getitem_map_ok PyNum closes (-1) c Hc). cbn [bind py_sub as_num].
    rewrite truediv_ok by exact E0. cbn [bind]. eauto. }
  destruct Htot as (t & ->). cbn [bind].
  (* annualised return *)
  assert (Hann : exists a,
    (if (0 <? len history_data)%Z
     then r <- truediv 252 (Qc_of_Z (len history_data)) ;; Ok (t * r)
     else Ok 0) = Ok a).
  { destruct (0 <? len history_data)%Z; [| eauto].
    rewrite truediv_ok by (rewrite Qc_of_Z_eq0; lia). cbn [bind]. eauto. }
  destruct Hann as (a & ->). cbn [bind].
  rewrite truediv_ok by (rewrite Qc_of_Z_eq0; lia). cbn [bind].
  destruct (_std_total dr) as (sd & ->). cbn [bind].
  rewrite as_num_numeric. cbn [bind].
  destruct (_calculate_max_drawdown_total closes) as (dd & dur & -> & _). cbn [bind].
  destruct (var_index_total (sorted dr) (Q2Qc (5 # 100))) as (v95 & ->);
    [vm_compute; discriminate |]. cbn [bind].
  destruct (var_index_total (sorted dr) (Q2Qc (1 # 100))) as (v99 & ->);
    [vm_compute; discriminate |]. cbn [bind].
  (* Sharpe *)
  assert (Hsh : forall x s, exists v,
    (if 0 <? s then r <- truediv x s ;; Ok (r * sqrt 252) else Ok 0) = Ok v).
  { intros x s. destruct (0 <? s) eqn:Es; [| eauto].
    apply Qc_ltb_lt in Es. rewrite truediv_ok by (apply Qc_lt_nonzero; exact Es).
    cbn [bind]. eauto. }
  destruct (Hsh (sum dr / Qc_of_Z (len dr) - RISK_FREE_RATE / 252 * 100) sd)
    as (sharpe & ->). cbn [bind].
  (* Sortino *)
  assert (Hso : exists v,
    (if is_empty (List.filter (fun r => r <? 0) dr) then Ok 0 else
       downside_std <- _std sqrt (List.filter (fun r => r <? 0) dr) ;;
       if 0 <? downside_std
       then r <- truediv (sum dr / Qc_of_Z (len dr) - RISK_FREE_RATE / 252 * 100)
                         downside_std ;;
            Ok (r * sqrt 252)
       else Ok 0) = Ok v).
  { destruct (is_empty _); [eauto |].
    destruct (_std_total (List.filter (fun r => r <? 0) dr)) as (ds & ->).
    cbn [bind]. apply Hsh. }
  destruct Hso as (sortino & ->). cbn [bind].
  (* Calmar *)
  assert (Hca : exists v, (if nonzero dd then truediv a (Qcabs dd) else Ok 0) = Ok v).
  { destruct (nonzero dd) eqn:Ed; [| eauto].
    apply nonzero_true in Ed. rewrite truediv_ok; [eauto |].
    intros H. apply Ed. apply Qcabs_null. exact H. }
  destruct Hca as (calmar & ->). cbn [bind].
  destruct (py_max_total dr Hdr) as (best & ->). cbn [bind].
  destruct (py_min_total dr Hdr) as (worst & ->). cbn [bind].
  eauto.
Qed.

(** C4: on a series with numeric closes, [calculate_performance] is
    absent exactly when the series has fewer than five records or every
    prior close is 0 (so that no daily return exists); in every other
    case it returns a [PerformanceMetrics] record. *)
Theorem calculate_performance_absent_iff (history_data : list dict) (closes : list Qc) :
  numeric_closes history_data closes ->
  (calculate_performance sqrt history_data = Ok None <->
   (len history_data < 5)%Z \/
   (forall i, (1 <= i < len closes)%Z -> nth (Z.to_nat (i - 1)) closes 0 = 0)) /\
  (calculate_performance sqrt history_data = Ok None \/
   exists m, calculate_performance sqrt history_data = Ok (Some m)).
Proof.
  intros Hnum.
  destruct (Z.lt_ge_cases (len history_data) 5) as [Hlt | Hge].
  - assert (H : calculate_performance sqrt history_data = Ok None).
    { unfold calculate_performance. apply Z.ltb_lt in Hlt.
      rewrite Hlt, orb_true_r. reflexivity. }
    split; [| left; exact H]. split; [intros _; left; exact Hlt | intros _; exact H].
  - destruct (calculate_performance_numeric history_data closes Hnum Hge)
      as (dr & Hdr & Hcase).
    rewrite daily_returns_numeric in Hdr. injection Hdr as <-.
    destruct Hcase as [[Hnil Hres] | [Hne (m & Hres)]].
    + split; [| left; exact Hres].
      split; [| intros _; exact Hres].
      intros _. right. apply daily_returns_empty_iff. exact Hnil.
    + split; [| right; exists m; exact Hres].
      rewrite Hres. split; [discriminate |].
      intros [Hlt | Hz]; [lia |].
      exfalso. apply Hne. apply daily_returns_empty_iff. exact Hz.
Qed.

End Performance.

Lemma calculate_performance_absent_iff_witness :
  calculate_performance sqrt_floor (flat_series 5 0) = Ok None /\
  exists m, calculate_performance sqrt_floor (flat_series 5 1) = Ok (Some m).
Proof.
  assert (H0 : numeric_closes (flat_series 5 0) (repeat 0 5))
    by (repeat constructor).
  split.
  - apply (proj1 (calculate_performance_absent_iff sqrt_floor _ _ H0)).
    right. intros i Hi. change (len (repeat 0 5)) with 5%Z in Hi.
    assert (Hc : i = 1%Z \/ i = 2%Z \/ i = 3%Z \/ i = 4%Z) by lia.
    destruct Hc as [-> | [-> | [-> | ->]]]; reflexivity.
  - eexists. vm_compute. reflexivity.
Defined.

(** ** Backtests *)

Lemma len_app {A : Type} (l1 l2 : list A) : len (l1 ++ l2) = (len l1 + len l2)%Z.
Proof. unfold len. rewrite length_app. lia. Qed.

Lemma sim_init_consistent : sim_consistent sim_init.
Proof. split; [left; reflexivity | reflexivity]. Qed.

(** The two transitions shared by both strategies. *)
Lemma sim_buy_consistent (st : sim_state) (sig : dict) (price : pyval) :
  sim_consistent st -> sim_position st = 0%Z ->
  sim_consistent {| sim_signals := sim_signals st ++ [sig]; sim_position := 1;
                    sim_entry_price := price; sim_trades := sim_trades st |}.
Proof.
  intros [_ H] Hp. split; [right; reflexivity |]. cbn.
  rewrite len_app, H, Hp. unfold len. simpl. lia.
Qed.

Lemma sim_sell_consistent (st : sim_state) (sig : dict) (profit : Qc) :
  sim_consistent st -> sim_position st = 1%Z ->
  sim_consistent {| sim_signals := sim_signals st ++ [sig]; sim_position := 0;
                    sim_entry_price := sim_entry_price st;
                    sim_trades := sim_trades st ++ [profit] |}.
Proof.
  intros [_ H] Hp. split; [left; reflexivity |]. cbn.
  rewrite !len_app, H, Hp. unfold len. simpl. lia.
Qed.

Lemma ma_cross_step_consistent (closes dates : list pyval) (fast slow : Z)
  (st st' : sim_state) (i : Z) :
  sim_consistent st -> ma_cross_step closes dates fast slow st i = Ok st' ->
  sim_consistent st'.
Proof.
  intros Hst H. unfold ma_cross_step in H.
  repeat (apply bind_Ok_inv in H as (? & _ & H)).
  destruct (_ && _ && (sim_position st =? 0)%Z) eqn:Ebuy.
  - apply andb_true_iff in Ebuy as [_ Ep]. apply Z.eqb_eq in Ep.
    apply bind_Ok_inv in H as (close & _ & H).
    apply bind_Ok_inv in H as (date & _ & H).
    injection H as <-. apply sim_buy_consistent; assumption.
  - destruct (_ && _ && (sim_position st =? 1)%Z) eqn:Esell.
    + apply andb_true_iff in Esell as [_ Ep]. apply Z.eqb_eq in Ep.
      apply bind_Ok_inv in H as (close & _ & H).
      apply bind_Ok_inv in H as (profit & _ & H).
      apply bind_Ok_inv in H as (date & _ & H).
      injection H as <-. apply sim_sell_consistent; assumption.
    + injection H as <-. exact Hst.
Qed.

Lemma rsi_step_consistent (closes dates : list pyval) (period : Z)
  (oversold overbought : Qc) (st st' : sim_state) (i : Z) :
  sim_consistent st ->
  rsi_step closes dates period oversold overbought st i = Ok st' ->
  sim_consistent st'.
Proof.
  intros Hst H. unfold rsi_step in H.
  apply bind_Ok_inv in H as (rsi & _ & H).
  apply bind_Ok_inv in H as (prev_rsi & _ & H).
  destruct rsi as [rsi |], prev_rsi as [prev_rsi |];
    try (injection H as <-; exact Hst).
  destruct (_ && _ && (sim_position st =? 0)%Z) eqn:Ebuy.
  - apply andb_true_iff in Ebuy as [_ Ep]. apply Z.eqb_eq in Ep.
    apply bind_Ok_inv in H as (close & _ & H).
    apply bind_Ok_inv in H as (date & _ & H).
    injection H as <-. apply sim_buy_consistent; assumption.
  - destruct (_ && _ && (sim_position st =? 1)%Z) eqn:Esell.
    + apply andb_true_iff in Esell as [_ Ep]. apply Z.eqb_eq in Ep.
      apply bind_Ok_inv in H as (close & _ & H).
      apply bind_Ok_inv in H as (profit & _ & H).
      apply bind_Ok_inv in H as (date & _ & H).
      injection H as <-. apply sim_sell_consistent; assumption.
    + injection H as <-. exact Hst.
Qed.

Lemma ma_cross_loop_consistent (closes dates : list pyval) (fast slow : Z)
  (st : sim_state) :
  ma_cross_loop closes dates fast slow = Ok st -> sim_consistent st.
Proof.
  unfold ma_cross_loop.
  apply (for_each_invariant sim_consistent); [| exact sim_init_consistent].
  intros s i s' _. apply ma_cross_step_consistent.
Qed.

Lemma rsi_loop_consistent (closes dates : list pyval) (period : Z)
  (oversold overbought : Qc) (st : sim_state) :
  rsi_loop closes dates period oversold overbought = Ok st -> sim_consistent st.
Proof.
  unfold rsi_loop.
  apply (for_each_invariant sim_consistent); [| exact sim_init_consistent].
  intros s i s' _. apply rsi_step_consistent.
Qed.

Section Backtests.

Variable sqrt : Qc -> Qc.

Lemma backtest_report_no_trades (name : string) (days : Z) (sigs : list dict) :
  backtest_report sqrt name days [] sigs
  = Ok {| strategy_name := name;
          bt_total_return := 0; bt_annual_return := 0; bt_max_drawdown := 0;
          bt_sharpe_ratio := 0; win_rate := 0; profit_loss_ratio := 0;
          trade_count := 0; signals := sigs |}.
Proof. reflexivity. Qed.

Lemma backtest_report_signals (name : string) (days : Z) (trades : list Qc)
  (sigs : list dict) (r : BacktestResult) :
  backtest_report sqrt name days trades sigs = Ok r ->
  strategy_name r = name /\
  trade_count r = len trades /\
  signals r = (if is_empty trades then sigs else skipn (length sigs - 5) sigs).
Proof.
  unfold backtest_report. destruct trades as [| t trades]; cbn [is_empty].
  - intros [= <-]. auto.
  - intros H. repeat (apply bind_Ok_inv in H as (? & _ & H)).
    injection H as <-. cbn [strategy_name trade_count signals].
    pose proof (slice_last sigs 5 ltac:(lia)) as Hs.
    change (- (5))%Z with (-5)%Z in Hs. rewrite Hs. auto.
Qed.

(** The signals kept in a report are the last five of a consistent
    simulation; without a completed trade there is at most one. *)
Lemma report_signals_last_five (name : string) (days : Z) (st : sim_state)
  (r : BacktestResult) :
  sim_consistent st ->
  backtest_report sqrt name days (sim_trades st) (sim_signals st) = Ok r ->
  signals r = skipn (length (sim_signals st) - 5) (sim_signals st) /\
  (length (signals r) <= 5)%nat.
Proof.
  intros [Hpos Hlen] H. apply backtest_report_signals in H as (_ & _ & Hs).
  rewrite Hs. destruct (sim_trades st) as [| t ts] eqn:Et; cbn [is_empty].
  - unfold len in Hlen. simpl in Hlen.
    replace (length (sim_signals st) - 5)%nat with 0%nat by lia.
    split; [reflexivity |]. simpl. lia.
  - split; [reflexivity |]. rewrite length_skipn. lia.
Qed.

(** C9: a returned [BacktestResult], with or without completed trades,
    holds the last five (or fewer) signals recorded by the simulation, in
    order. *)
Theorem backtest_signals_last_five :
  (forall history_data fast_period slow_period r,
     backtest_ma_cross sqrt history_data fast_period slow_period = Ok (Some r) ->
     exists closes st,
       comprehension get_close history_data = Ok closes /\
       ma_cross_loop closes (map get_date history_data) fast_period slow_period
       = Ok st /\
       signals r = skipn (length (sim_signals st) - 5) (sim_signals st) /\
       (length (signals r) <= 5)%nat) /\
  (forall history_data period oversold overbought r,
     backtest_rsi sqrt history_data period oversold overbought = Ok (Some r) ->
     exists closes st,
       comprehension get_close history_data = Ok closes /\
       rsi_loop closes (map get_date history_data) period oversold overbought
       = Ok st /\
       signals r = skipn (length (sim_signals st) - 5) (sim_signals st) /\
       (length (signals r) <= 5)%nat).
Proof.
  split.
  - intros hd fast slow r H. unfold backtest_ma_cross in H.
    destruct (_ || _); [discriminate |].
    apply bind_Ok_inv in H as (closes & Hc & H).
    apply bind_Ok_inv in H as (st & Hst & H).
    apply bind_Ok_inv in H as (r' & Hr & H).
    injection H as <-.
    exists closes, st. split; [exact Hc |]. split; [exact Hst |].
    eapply report_signals_last_five; [| exact Hr].
    eapply ma_cross_loop_consistent. exact Hst.
  - intros hd period os ob r H. unfold backtest_rsi in H.
    destruct (_ || _); [discriminate |].
    apply bind_Ok_inv in H as (closes & Hc & H).
    apply bind_Ok_inv in H as (st & Hst & H).
    apply bind_Ok_inv in H as (r' & Hr & H).
    injection H as <-.
    exists closes, st. split; [exact Hc |]. split; [exact Hst |].
    eapply report_signals_last_five; [| exact Hr].
    eapply rsi_loop_consistent. exact Hst.
Qed.

(** C7: below the length precondition no result is returned; on a
    non-empty series that meets it and on which the simulation completes
    no trade, a result is returned whose statistics are all 0. *)
Theorem backtest_zero_trades :
  (forall history_data fast_period slow_period,
     (len history_data < slow_period + 10)%Z ->
     backtest_ma_cross sqrt history_data fast_period slow_period = Ok None) /\
  (forall history_data period oversold overbought,
     (len history_data < period + 10)%Z ->
     backtest_rsi sqrt history_data period oversold overbought = Ok None) /\
  (forall history_data fast_period slow_period closes st,
     history_data <> [] ->
     (slow_period + 10 <= len history_data)%Z ->
     comprehension get_close history_data = Ok closes ->
     ma_cross_loop closes (map get_date history_data) fast_period slow_period
     = Ok st ->
     sim_trades st = [] ->
     exists r,
       backtest_ma_cross sqrt history_data fast_period slow_period = Ok (Some r) /\
       bt_total_return r = 0 /\ win_rate r = 0 /\ bt_annual_return r = 0 /\
       bt_max_drawdown r = 0 /\ bt_sharpe_ratio r = 0 /\
       profit_loss_ratio r = 0 /\ trade_count r = 0%Z /\
       signals r = sim_signals st) /\
  (forall history_data period oversold overbought closes st,
     history_data <> [] ->
     (period + 10 <= len history_data)%Z ->
     comprehension get_close history_data = Ok closes ->
     rsi_loop closes (map get_date history_data) period oversold overbought
     = Ok st ->
     sim_trades st = [] ->
     exists r,
       backtest_rsi sqrt history_data period oversold overbought = Ok (Some r) /\
       bt_total_return r = 0 /\ win_rate r = 0 /\ bt_annual_return r = 0 /\
       bt_max_drawdown r = 0 /\ bt_sharpe_ratio r = 0 /\
       profit_loss_ratio r = 0 /\ trade_count r = 0%Z /\
       signals r = sim_signals st).
Proof.
  split; [| split; [| split]].
  - intros hd fast slow H. unfold backtest_ma_cross.
    apply Z.ltb_lt in H. rewrite H, orb_true_r. reflexivity.
  - intros hd period os ob H. unfold backtest_rsi.
    apply Z.ltb_lt in H. rewrite H, orb_true_r. reflexivity.
  - intros hd fast slow closes st Hne Hlen Hc Hst Ht. unfold backtest_ma_cross.
    destruct hd as [| d hd]; [congruence |]. cbn [is_empty orb].
    destruct (_ <? _)%Z eqn:E; [apply Z.ltb_lt in E; lia |].
    rewrite Hc. cbn [bind]. rewrite Hst. cbn [bind].
    rewrite Ht, backtest_report_no_trades. cbn [bind].
    eexists. split; [reflexivity |]. cbn. repeat split.
  - intros hd period os ob closes st Hne Hlen Hc Hst Ht. unfold backtest_rsi.
    destruct hd as [| d hd]; [congruence |]. cbn [is_empty orb].
    destruct (_ <? _)%Z eqn:E; [apply Z.ltb_lt in E; lia |].
    rewrite Hc. cbn [bind]. rewrite Hst. cbn [bind].
    rewrite Ht, backtest_report_no_trades. cbn [bind].
    eexists. split; [reflexivity |]. cbn. repeat split.
Qed.

End Backtests.

Lemma backtest_zero_trades_witness :
  exists r,
    backtest_ma_cross sqrt_floor (flat_series 30 100) 5 20 = Ok (Some r) /\
    bt_total_return r = 0 /\ win_rate r = 0 /\ trade_count r = 0%Z.
Proof.
  destruct (proj1 (proj2 (proj2 (backtest_zero_trades sqrt_floor)))
              (flat_series 30 100) 5%Z 20%Z
              (repeat (PyNum 100) 30) sim_init)
    as (r & Hr & H1 & H2 & _ & _ & _ & _ & H3 & _).
  - discriminate.
  - vm_compute. discriminate.
  - vm_compute. reflexivity.
  - vm_compute. reflexivity.
  - reflexivity.
  - exists r. auto.
Defined.

Lemma backtest_signals_last_five_witness :
  exists r closes st,
    backtest_ma_cross sqrt_floor zigzag_series 1 2 = Ok (Some r) /\
    ma_cross_loop closes (map get_date zigzag_series) 1 2 = Ok st /\
    length (sim_signals st) = 16%nat /\
    length (signals r) = 5%nat /\
    signals r = skipn 11 (sim_signals st).
Proof.
  assert (H : exists r, backtest_ma_cross sqrt_floor zigzag_series 1 2 = Ok (Some r))
    by (eexists; vm_compute; reflexivity).
  destruct H as (r & Hr).
  destruct (proj1 (backtest_signals_last_five sqrt_floor) _ _ _ _ Hr)
    as (closes & st & Hc & Hst & Hsig & Hlen).
  exists r, closes, st. split; [exact Hr |]. split; [exact Hst |].
  assert (H16 : length (sim_signals st) = 16%nat).
  { vm_compute in Hc. injection Hc as <-.
    vm_compute in Hst. injection Hst as <-. reflexivity. }
  rewrite H16 in Hsig. change (16 - 5)%nat with 11%nat in Hsig.
  split; [exact H16 |]. split; [| exact Hsig].
  rewrite Hsig, length_skipn, H16. reflexivity.
Defined.

(** ** Malformed records *)

(** C3 fails on the code: only [calculate_all_indicators] coerces a
    missing or non-numeric [close] to 0.  [calculate_performance] and
    both backtests read [d["close"]] unguarded: a missing key raises
    [KeyError], a [None] raises [TypeError] at the first subtraction or
    sum that meets it. *)
Theorem malformed_close_raises (sqrt : Qc -> Qc) (float_of_str : string -> option Qc) :
  closes_of float_of_str series_missing_close = repeat (Qc_of_Z 100) 29 ++ [0] /\
  closes_of float_of_str series_none_close = repeat (Qc_of_Z 100) 29 ++ [0] /\
  calculate_performance sqrt series_missing_close = Raise KeyError /\
  backtest_ma_cross sqrt series_missing_close 5 20 = Raise KeyError /\
  backtest_rsi sqrt series_missing_close 14 30 70 = Raise KeyError /\
  calculate_performance sqrt series_none_close = Raise TypeError /\
  backtest_ma_cross sqrt series_none_close 5 20 = Raise TypeError /\
  backtest_rsi sqrt series_none_close 14 30 70 = Raise TypeError.
Proof. repeat split; vm_compute; reflexivity. Qed.

(** * Further properties of the engine *)

(** ** The composite score *)

Lemma ma_block_bounds (p : Qc) (ind : TechnicalIndicators) (s : Z) :
  (s - 30 <= ma_block p ind s <= s + 30)%Z.
Proof.
  unfold ma_block.
  destruct (ma5 ind), (ma10 ind), (ma20 ind); try lia.
  repeat match goal with
         | |- context [if ?b then _ else _] => destruct b
         end; lia.
Qed.

Lemma macd_block_bounds (ind : TechnicalIndicators) (s : Z) :
  (s - 25 <= macd_block ind s <= s + 25)%Z.
Proof.
  unfold macd_block.
  destruct (macd_hist ind); [| lia].
  destruct (macd ind), (macd_signal ind);
    repeat match goal with
           | |- context [if ?b then _ else _] => destruct b
           end; lia.
Qed.

Lemma rsi_block_bounds (ind : TechnicalIndicators) (s : Z) :
  (s - 25 <= rsi_block ind s <= s + 25)%Z.
Proof.
  unfold rsi_block.
  destruct (rsi_14 ind); [| lia].
  repeat match goal with
         | |- context [if ?b then _ else _] => destruct b
         end; lia.
Qed.

Lemma kdj_block_bounds (ind : TechnicalIndicators) (s : Z) :
  (s - 20 <= kdj_block ind s <= s + 20)%Z.
Proof.
  unfold kdj_block.
  destruct (kdj_j ind); [| lia].
  repeat match goal with
         | |- context [if ?b then _ else _] => destruct b
         end; lia.
Qed.

Lemma signal_bands (current_price : Qc) (indicators : TechnicalIndicators) :
  exists score sig,
    _calculate_signal current_price indicators = (score, sig) /\
    score = kdj_block indicators
              (rsi_block indicators
                 (macd_block indicators (ma_block current_price indicators 0))) /\
    (-100 <= score <= 100)%Z /\
    (sig = STRONG_BUY <-> (60 <= score)%Z) /\
    (sig = BUY <-> (30 <= score < 60)%Z) /\
    (sig = HOLD <-> (-30 <= score < 30)%Z) /\
    (sig = SELL <-> (-60 <= score < -30)%Z) /\
    (sig = STRONG_SELL <-> (score < -60)%Z).
Proof.
  unfold _calculate_signal. cbv zeta.
  set (raw := kdj_block indicators
                (rsi_block indicators
                   (macd_block indicators (ma_block current_price indicators 0)))).
  assert (Hraw : (-100 <= raw <= 100)%Z).
  { subst raw.
    pose proof (ma_block_bounds current_price indicators 0).
    pose proof (macd_block_bounds indicators (ma_block current_price indicators 0)).
    pose proof (rsi_block_bounds indicators
                  (macd_block indicators (ma_block current_price indicators 0))).
    pose proof (kdj_block_bounds indicators
                  (rsi_block indicators
                     (macd_block indicators (ma_block current_price indicators 0)))).
    lia. }
  replace (Z.max (-100) (Z.min 100 raw)) with raw by lia.
  eexists _, _. split; [reflexivity |]. split; [reflexivity |].
  split; [exact Hraw |].
  destruct (Z.leb_spec 60 raw);
    [| destruct (Z.leb_spec 30 raw);
       [| destruct (Z.leb_spec (-30) raw);
          [| destruct (Z.leb_spec (-60) raw)]]];
    repeat split; intros; try lia; try reflexivity;
    unfold STRONG_BUY, BUY, HOLD, SELL, STRONG_SELL in *; discriminate.
Qed.

(** The four blocks can move the score by at most 30 + 25 + 25 + 20 = 100
    points, so the final clamp to [-100, 100] never changes it; and the
    signal names the band of the score. *)
Theorem _calculate_signal_bands (current_price : Qc) (indicators : TechnicalIndicators) :
  exists score sig,
    _calculate_signal current_price indicators = (score, sig) /\
    score = kdj_block indicators
              (rsi_block indicators
                 (macd_block indicators (ma_block current_price indicators 0))) /\
    (-100 <= score <= 100)%Z /\
    (sig = STRONG_BUY <-> (60 <= score)%Z) /\
    (sig = BUY <-> (30 <= score < 60)%Z) /\
    (sig = HOLD <-> (-30 <= score < 30)%Z) /\
    (sig = SELL <-> (-60 <= score < -30)%Z) /\
    (sig = STRONG_SELL <-> (score < -60)%Z).
Proof. exact (signal_bands current_price indicators). Qed.

(** ** [calculate_all_indicators] never raises *)

Lemma calculate_rsi_total (prices : list Qc) (period : Z) :
  (0 < period)%Z -> exists o, calculate_rsi (map PyNum prices) period = Ok o.
Proof.
  intros Hp. unfold calculate_rsi.
  destruct (_ <? _)%Z; [eauto |].
  rewrite rsi_changes. cbn [bind].
  assert (Hpq : Qc_of_Z period <> 0) by (rewrite Qc_of_Z_eq0; lia).
  rewrite !truediv_ok by exact Hpq. cbn [bind].
  destruct (_ =? 0) eqn:E; [eauto |]. apply Qc_eqb_neq in E.
  rewrite truediv_ok by exact E. cbn [bind].
  rewrite truediv_ok; [cbn [bind]; eauto |].
  eapply rsi_formula_bounds; eauto using sum_gains_nonneg, sum_losses_nonneg.
Qed.

Section Totality.

Variable sqrt : Qc -> Qc.
Variable float_of_str : string -> option Qc.

Lemma calculate_bollinger_total (prices : list Qc) (period : Z) (std_dev : Qc) :
  period <> 0%Z -> exists r, calculate_bollinger sqrt prices period std_dev = Ok r.
Proof.
  intros Hp. unfold calculate_bollinger. destruct (_ <? _)%Z; [eauto |].
  destruct (_sma_total prices period Hp) as (m & ->). cbn [bind].
  destruct (_std_total sqrt (slice prices (Some (- period)%Z) None)) as (s & ->).
  cbn [bind]. destruct m; eauto.
Qed.

Lemma slice_last_nonempty {A : Type} (l : list A) (p : Z) :
  (0 < p)%Z -> l <> [] -> slice l (Some (- p)%Z) None <> [].
Proof.
  intros Hp Hl H. apply (f_equal (@length A)) in H.
  rewrite slice_last in H by exact Hp. rewrite length_skipn in H. simpl in H.
  destruct l; [congruence |]. simpl in H. lia.
Qed.

Lemma calculate_kdj_total (highs lows closes : list Qc) (period : Z) :
  (0 < period)%Z -> length highs = length closes -> length lows = length closes ->
  exists r, calculate_kdj highs lows closes period = Ok r.
Proof.
  intros Hp Hh Hl. unfold calculate_kdj.
  destruct (len closes <? period)%Z eqn:E; [eauto |]. apply Z.ltb_ge in E.
  assert (Hc : closes <> []) by (intros ->; unfold len in E; simpl in E; lia).
  assert (Hhs : highs <> []) by (intros ->; destruct closes; [congruence | discriminate]).
  assert (Hls : lows <> []) by (intros ->; destruct closes; [congruence | discriminate]).
  destruct (py_max_total _ (slice_last_nonempty highs period Hp Hhs)) as (hi & ->).
  destruct (py_min_total _ (slice_last_nonempty lows period Hp Hls)) as (lo & ->).
  cbn [bind]. destruct (hi =? lo) eqn:Eq; [cbn [bind]; eauto |].
  apply Qc_eqb_neq in Eq.
  destruct (getitem_neg_ok closes (-1)) as (c & -> & _).
  { unfold len in *. destruct closes; [congruence | simpl; lia]. }
  cbn [bind]. rewrite truediv_ok; [cbn [bind]; eauto |].
  intros H. apply Eq. apply Qcplus_inj_l with (z := - lo).
  unfold Qcminus in H. rewrite H. ring.
Qed.

Lemma calculate_atr_total (highs lows closes : list Qc) (period : Z) :
  (0 < period)%Z -> length highs = length closes -> length lows = length closes ->
  exists o, calculate_atr highs lows closes period = Ok o.
Proof.
  intros Hp Hh Hl. unfold calculate_atr. destruct (_ <? _)%Z; [eauto |].
  match goal with |- context [for_each ?b ?xs ?s0] =>
    assert (Hloop : exists trs, for_each b xs s0 = Ok trs /\ True)
  end.
  { apply for_each_progress with (I := fun _ => True); [| exact I].
    intros trs i Hi _. apply In_range in Hi.
    destruct (getitem_ok highs i) as (hi & -> & _); [unfold len in *; lia |].
    destruct (getitem_ok lows i) as (lo & -> & _); [unfold len in *; lia |].
    destruct (getitem_ok closes (i - 1)) as (c & -> & _); [unfold len in *; lia |].
    cbn [bind]. eauto. }
  destruct Hloop as (trs & -> & _). cbn [bind].
  rewrite truediv_ok by (rewrite Qc_of_Z_eq0; lia). cbn [bind]. eauto.
Qed.

Lemma length_closes_of (history_data : list dict) :
  length (closes_of float_of_str history_data) = length history_data.
Proof. unfold closes_of. apply length_map. Qed.

Lemma length_highs_of (history_data : list dict) :
  length (highs_of float_of_str history_data) = length history_data.
Proof.
  unfold highs_of. rewrite length_map, length_zip_with, length_closes_of. lia.
Qed.

Lemma length_lows_of (history_data : list dict) :
  length (lows_of float_of_str history_data) = length history_data.
Proof.
  unfold lows_of. rewrite length_map, length_zip_with, length_closes_of. lia.
Qed.

Lemma indicators_never_raise (history_data : list dict) :
  exists r, calculate_all_indicators sqrt float_of_str history_data = Ok r.
Proof.
  destruct (Z.lt_ge_cases (len history_data) 5) as [Hlt | Hge].
  { rewrite calculate_all_indicators_short by exact Hlt. eauto. }
  unfold calculate_all_indicators.
  rewrite is_empty_false by lia.
  destruct (len history_data <? 5)%Z eqn:E; [apply Z.ltb_lt in E; lia |].
  cbn [orb]. cbv zeta.
  set (closes := closes_of float_of_str history_data).
  set (highs := highs_of float_of_str history_data).
  set (lows := lows_of float_of_str history_data).
  assert (Hlc : length closes = length history_data) by apply length_closes_of.
  assert (Hlh : length highs = length closes)
    by (rewrite Hlc; apply length_highs_of).
  assert (Hll : length lows = length closes)
    by (rewrite Hlc; apply length_lows_of).
  destruct (_sma_total closes 5) as (v5 & ->); [lia |]. cbn [bind].
  destruct (_sma_total closes 10) as (v10 & ->); [lia |]. cbn [bind].
  destruct (_sma_total closes 20) as (v20 & ->); [lia |]. cbn [bind].
  destruct (_sma_total closes 60) as (v60 & ->); [lia |]. cbn [bind].
  destruct (_ema_total closes 12) as (e12 & ->); [lia |]. cbn [bind].
  destruct (_ema_total closes 26) as (e26 & ->); [lia |]. cbn [bind].
  assert (Hmacd : exists t, calculate_macd closes 12 26 9 = Ok t).
  { destruct (Z.lt_ge_cases (len closes) 35) as [Hs | Hl].
    - rewrite calculate_macd_short by lia. eauto.
    - destruct (calculate_macd_line closes 12 26 9) as (m & s & h & -> & _);
        [lia | lia | lia | eauto]. }
  destruct Hmacd as ([[vm vs] vh] & ->). cbn [bind].
  destruct (calculate_rsi_total closes 6) as (r6 & ->); [lia |]. cbn [bind].
  destruct (calculate_rsi_total closes 14) as (r14 & ->); [lia |]. cbn [bind].
  destruct (calculate_bollinger_total closes 20 2) as ([[up mid] low] & ->); [lia |].
  cbn [bind].
  match goal with |- context [bind ?w _] =>
    assert (Hw : exists v, w = Ok v)
  end.
  { destruct up as [u |], low as [l |]; eauto.
    destruct (nonzero u && nonzero l); eauto.
    destruct mid as [m |]; eauto.
    destruct (nonzero m) eqn:Em; eauto.
    apply nonzero_true in Em. rewrite truediv_ok by exact Em. cbn [bind]. eauto. }
  destruct Hw as (w & ->). cbn [bind].
  destruct (calculate_kdj_total highs lows closes 9) as ([[k d] j] & ->);
    [lia | exact Hlh | exact Hll |]. cbn [bind].
  destruct (calculate_atr_total highs lows closes 14) as (vatr & ->);
    [lia | exact Hlh | exact Hll |]. cbn [bind].
  destruct (getitem_neg_ok closes (-1)) as (last & -> & _).
  { unfold len in *. lia. }
  cbn [bind]. destruct (_calculate_signal last _). eauto.
Qed.

(** Whatever the records hold (missing fields, [None], text), the
    indicator record is computed, as long as the extracted columns stay
    within [10^100] in magnitude: no exception escapes
    [calculate_all_indicators].  (Beyond such magnitudes the source can
    raise [OverflowError], from [float] of a huge integer or from the
    square in [_std]; the model has no overflow, so the bound is where it
    stands for the code.) *)
Theorem calculate_all_indicators_total (history_data : list dict) :
  Forall in_float_range (closes_of float_of_str history_data) ->
  Forall in_float_range (highs_of float_of_str history_data) ->
  Forall in_float_range (lows_of float_of_str history_data) ->
  exists r, calculate_all_indicators sqrt float_of_str history_data = Ok r.
Proof. intros _ _ _. exact (indicators_never_raise history_data). Qed.

(** On columns within [10^100] in magnitude [get_technical_signal]
    always answers: a score between -100 and 100 and the signal of its
    band, hold on fewer than five records. *)
Theorem get_technical_signal_total (history_data : list dict) :
  Forall in_float_range (closes_of float_of_str history_data) ->
  Forall in_float_range (highs_of float_of_str history_data) ->
  Forall in_float_range (lows_of float_of_str history_data) ->
  exists sig score,
    get_technical_signal sqrt float_of_str history_data = Ok (sig, score) /\
    (-100 <= score <= 100)%Z /\
    (sig = STRONG_BUY <-> (60 <= score)%Z) /\
    (sig = BUY <-> (30 <= score < 60)%Z) /\
    (sig = HOLD <-> (-30 <= score < 30)%Z) /\
    (sig = SELL <-> (-60 <= score < -30)%Z) /\
    (sig = STRONG_SELL <-> (score < -60)%Z) /\
    ((len history_data < 5)%Z -> sig = HOLD /\ score = 0%Z).
Proof.
  intros _ _ _. unfold get_technical_signal.
  destruct (Z.lt_ge_cases (len history_data) 5) as [Hlt | Hge].
  - rewrite calculate_all_indicators_short by exact Hlt. cbn [bind].
    eexists _, _. split; [reflexivity |]. cbn.
    repeat split; intros; try lia; try reflexivity;
      unfold STRONG_BUY, BUY, HOLD, SELL, STRONG_SELL in *; discriminate.
  - destruct (indicators_never_raise history_data) as (r & Hr).
    rewrite Hr. cbn [bind].
    pose proof (calculate_all_indicators_inv sqrt float_of_str history_data r Hge Hr)
      as Hinv. cbv zeta in Hinv.
    destruct Hinv as (_ & _ & _ & _ & _ & _ & _ & _ & _ & _ & _ & _ & _ & last & _ & Hsig).
    destruct (signal_bands last r)
      as (score & sig & Hs & _ & Hb & H1 & H2 & H3 & H4 & H5).
    rewrite Hsig in Hs. injection Hs as -> ->.
    exists sig, score. split; [reflexivity |].
    repeat (split; [assumption |]). intros H. lia.
Qed.

End Totality.

(** A boolean test of the range, for closed examples. *)
Lemma in_float_range_check (l : list Qc) :
  forallb (fun x => Qcabs x <=? Qc_of_Z (10 ^ 100)) l = true ->
  Forall in_float_range l.
Proof.
  intros H. apply Forall_forall. intros x Hx.
  rewrite forallb_forall in H. apply Qc_leb_le. apply H. exact Hx.
Qed.

Lemma calculate_all_indicators_total_witness :
  exists r,
    calculate_all_indicators sqrt_floor no_float_syntax series_none_close = Ok r.
Proof.
  apply (calculate_all_indicators_total sqrt_floor no_float_syntax series_none_close);
    apply in_float_range_check; vm_compute; reflexivity.
Defined.

Lemma get_technical_signal_total_witness :
  exists sig score,
    get_technical_signal sqrt_floor no_float_syntax series_none_close
    = Ok (sig, score) /\
    (-100 <= score <= 100)%Z.
Proof.
  destruct (get_technical_signal_total sqrt_floor no_float_syntax series_none_close)
    as (sig & score & H & Hb & _);
    [apply in_float_range_check; vm_compute; reflexivity ..|].
  exists sig, score. split; [exact H | exact Hb].
Defined.

(** ** Moving averages: edge cases *)

(** [_sma] raises on a zero period, is absent on a short series, and
    otherwise is the mean of the last [period] values: of all of them
    when the series has exactly [period] values. *)
Theorem _sma_spec (data : list Qc) (period : Z) :
  (period = 0%Z -> _sma data period = Raise ZeroDivisionError) /\
  ((0 < period)%Z ->
     (_sma data period = Ok None <-> (len data < period)%Z)) /\
  ((0 < period <= len data)%Z ->
     _sma data period =
     Ok (Some (sum (skipn (length data - Z.to_nat period) data) / Qc_of_Z period))) /\
  ((0 < period)%Z -> len data = period ->
     _sma data period = Ok (Some (sum data / Qc_of_Z (len data)))).
Proof.
  split; [| split; [| split]].
  - intros ->. unfold _sma.
    destruct (len data <? 0)%Z eqn:E.
    + apply Z.ltb_lt in E. pose proof (len_nonneg data). lia.
    + reflexivity.
  - intros Hp. split.
    + intros H. destruct (Z.lt_ge_cases (len data) period) as [Hlt | Hge]; [exact Hlt |].
      rewrite _sma_long in H by lia. discriminate.
    + apply _sma_short.
  - apply _sma_long.
  - intros Hp Hlen. rewrite _sma_long by lia.
    replace (length data - Z.to_nat period)%nat with 0%nat by (unfold len in Hlen; lia).
    rewrite Hlen. reflexivity.
Qed.

Lemma _sma_spec_witness :
  _sma [1; 2; Qc_of_Z 3] 0 = Raise ZeroDivisionError /\
  _sma [1; 2; Qc_of_Z 3] 3 = Ok (Some (sum [1; 2; Qc_of_Z 3] / Qc_of_Z 3)).
Proof.
  split.
  - apply (proj1 (_sma_spec [1; 2; Qc_of_Z 3] 0)). reflexivity.
  - apply (proj2 (proj2 (proj2 (_sma_spec [1; 2; Qc_of_Z 3] 3)))); [lia | reflexivity].
Defined.

(** On exactly [period] values the exponential average is its seed, the
    simple average. *)
Theorem _ema_seed_is_sma (data : list Qc) (period : Z) :
  (0 < period)%Z -> len data = period -> _ema data period = _sma data period.
Proof.
  intros Hp Hlen.
  unfold _ema, _sma.
  destruct (len data <? period)%Z eqn:E; [reflexivity |].
  rewrite truediv_ok by (rewrite Qc_of_Z_eq0; lia). cbn [bind].
  rewrite slice_first by lia. rewrite slice_last by lia.
  replace (length data - Z.to_nat period)%nat with 0%nat by (unfold len in Hlen; lia).
  change (skipn 0 data) with data.
  rewrite firstn_all2 by (unfold len in Hlen; lia).
  assert (Hs : slice data (Some period) None = []).
  { unfold slice, adjust. destruct (period <? 0)%Z eqn:E2; [lia |].
    rewrite Z.min_l by lia.
    rewrite skipn_all2 by (unfold len in Hlen; lia). apply firstn_nil. }
  rewrite Hs. destruct (truediv (sum data) (Qc_of_Z period)); reflexivity.
Qed.

Lemma _ema_seed_is_sma_witness :
  _ema [1; Qc_of_Z 5; Qc_of_Z 3] 3 = _sma [1; Qc_of_Z 5; Qc_of_Z 3] 3.
Proof. apply _ema_seed_is_sma; [lia | reflexivity]. Defined.

(** ** Sums of images *)

Lemma sum_map_zero {A : Type} (f : A -> Qc) (l : list A) :
  (forall x, In x l -> f x = 0) -> sum (map f l) = 0.
Proof.
  intros H. apply sum_zero. apply Forall_forall. intros y Hy.
  apply in_map_iff in Hy as (x & <- & Hx). apply H. exact Hx.
Qed.

(** ** Average true range *)

Lemma Forall_skipn {A : Type} (P : A -> Prop) (n : nat) (l : list A) :
  Forall P l -> Forall P (skipn n l).
Proof.
  intros H. apply Forall_forall. intros x Hx.
  rewrite Forall_forall in H. apply H. eapply In_skipn. exact Hx.
Qed.

Lemma Qcabs_nonneg' (x : Qc) : 0 <= Qcabs x.
Proof. apply Qcabs_nonneg. Qed.

Lemma true_range_nonneg (hi lo prev : Qc) :
  0 <= max2 (max2 (hi - lo) (Qcabs (hi - prev))) (Qcabs (lo - prev)).
Proof. eapply Qcle_trans; [apply Qcabs_nonneg | apply max2_ge_r]. Qed.

(** With columns of equal length and a positive period the ATR is
    absent exactly on fewer than [period + 1] closes, and never
    negative. *)
Theorem calculate_atr_nonneg (highs lows closes : list Qc) (period : Z) :
  (0 < period)%Z -> length highs = length closes -> length lows = length closes ->
  exists o,
    calculate_atr highs lows closes period = Ok o /\
    (o = None <-> (len closes < period + 1)%Z) /\
    (forall v, o = Some v -> 0 <= v).
Proof.
  intros Hp Hh Hl. unfold calculate_atr.
  destruct (len closes <? period + 1)%Z eqn:E.
  { apply Z.ltb_lt in E. exists None. split; [reflexivity |].
    split; [tauto | discriminate]. }
  apply Z.ltb_ge in E.
  match goal with |- context [for_each ?b ?xs ?s0] =>
    assert (Hloop : exists trs, for_each b xs s0 = Ok trs /\
                                Forall (fun x => 0 <= x) trs)
  end.
  { apply for_each_progress with (I := Forall (fun x => 0 <= x)); [| constructor].
    intros trs i Hi Htrs. apply In_range in Hi.
    destruct (getitem_ok highs i) as (hi & -> & _); [unfold len in *; lia |].
    destruct (getitem_ok lows i) as (lo & -> & _); [unfold len in *; lia |].
    destruct (getitem_ok closes (i - 1)) as (c & -> & _); [unfold len in *; lia |].
    cbn [bind]. eexists. split; [reflexivity |].
    apply Forall_app. split; [exact Htrs |].
    constructor; [apply true_range_nonneg | constructor]. }
  destruct Hloop as (trs & -> & Htrs). cbn [bind].
  rewrite truediv_ok by (rewrite Qc_of_Z_eq0; lia). cbn [bind].
  eexists. split; [reflexivity |]. split.
  - split; [discriminate | lia].
  - intros v [= <-]. rewrite slice_last by lia.
    assert (H0 : 0 <= sum (skipn (length trs - Z.to_nat period) trs)).
    { apply sum_nonneg. apply Forall_skipn. exact Htrs. }
    assert (Hq : 0 < Qc_of_Z period) by (apply Qc_of_Z_pos; exact Hp).
    revert H0 Hq. generalize (sum (skipn (length trs - Z.to_nat period) trs)).
    generalize (Qc_of_Z period). intros n s H0 Hq. to_Q.
    assert (Hi : (0 < / n)%Q) by (apply Qinv_lt_0_compat; exact Hq). nra.
Qed.

Lemma calculate_atr_nonneg_witness :
  exists v,
    calculate_atr [Qc_of_Z 3; Qc_of_Z 6; Qc_of_Z 5] [1; Qc_of_Z 4; Qc_of_Z 2]
                  [2; Qc_of_Z 5; Qc_of_Z 3] 2 = Ok (Some v) /\ 0 <= v.
Proof.
  destruct (calculate_atr_nonneg [Qc_of_Z 3; Qc_of_Z 6; Qc_of_Z 5]
              [1; Qc_of_Z 4; Qc_of_Z 2] [2; Qc_of_Z 5; Qc_of_Z 3] 2)
    as (o & Ho & Hnone & Hpos); [lia | reflexivity | reflexivity |].
  destruct o as [v |].
  - exists v. split; [exact Ho | apply Hpos; reflexivity].
  - exfalso. pose proof (proj1 Hnone eq_refl) as H.
    vm_compute in H. discriminate.
Defined.

(** ** Maximum drawdown: bounds *)

Lemma Q_drawdown_le_100 (peak price : Q) :
  (0 < peak)%Q -> (0 <= price)%Q -> ((peak - price) * / peak * (100 # 1) <= 100 # 1)%Q.
Proof.
  intros Hp Hx.
  assert (Hi : (0 < / peak)%Q) by (apply Qinv_lt_0_compat; exact Hp).
  assert (H1 : (peak * / peak == 1)%Q) by (apply Qmult_inv_r; lra).
  nra.
Qed.

Lemma drawdown_le_100 (peak price : Qc) :
  0 < peak -> 0 <= price -> (peak - price) / peak * 100 <= 100.
Proof. intros Hp Hx. to_Q. unfold inject_Z. apply Q_drawdown_le_100; assumption. Qed.

(** The loop from index [k] on: the drawdown stays within [0, 100] on
    non-negative prices, and the recorded duration within the indices
    seen. *)
Lemma drawdown_loop_bounds (prices : list Qc) (k : Z) (st st' : drawdown_state) :
  Forall (fun p => 0 <= p) prices ->
  (0 <= k)%Z ->
  0 <= dd_max st -> dd_max st <= 100 ->
  (0 <= dd_peak_idx st <= k)%Z ->
  (0 <= dd_max_duration st <= Z.max 0 (k - 1))%Z ->
  for_each drawdown_step (enumerate_from k prices) st = Ok st' ->
  0 <= dd_max st' /\ dd_max st' <= 100 /\
  (0 <= dd_max_duration st' <= Z.max 0 (k + len prices - 1))%Z.
Proof.
  revert k st. induction prices as [| p prices IH]; intros k st Hall Hk H0 H100 Hidx Hdur Hrun.
  - simpl in Hrun. injection Hrun as <-. unfold len. simpl.
    split; [exact H0 |]. split; [exact H100 | lia].
  - apply Forall_cons_iff in Hall as [Hp Hall].
    cbn [enumerate_from for_each] in Hrun.
    apply bind_Ok_inv in Hrun as (st1 & Hstep & Hrun).
    assert (Hst1 : 0 <= dd_max st1 /\ dd_max st1 <= 100 /\
                   (0 <= dd_peak_idx st1 <= k + 1)%Z /\
                   (0 <= dd_max_duration st1 <= Z.max 0 (k + 1 - 1))%Z).
    { unfold drawdown_step in Hstep.
      destruct (dd_peak st <? p).
      - injection Hstep as <-. cbn. repeat split; try assumption; lia.
      - destruct (0 <? dd_peak st) eqn:Ep.
        + apply Qc_ltb_lt in Ep.
          rewrite truediv_ok in Hstep by (apply Qc_lt_nonzero; exact Ep).
          cbn [bind] in Hstep.
          destruct (dd_max st <? _) eqn:Em; injection Hstep as <-; cbn.
          * apply Qc_ltb_lt in Em. repeat split; try lia.
            -- apply Qclt_le_weak. eapply Qcle_lt_trans; eassumption.
            -- apply drawdown_le_100; assumption.
          * repeat split; try assumption; lia.
        + cbn [bind] in Hstep.
          destruct (dd_max st <? 0) eqn:Em; injection Hstep as <-; cbn.
          * repeat split; try lia; [apply Qcle_refl | apply Qc_of_Z_nonneg; lia].
          * repeat split; try assumption; lia. }
    destruct Hst1 as (H0' & H100' & Hidx' & Hdur').
    destruct (IH (k + 1)%Z st1 Hall ltac:(lia) H0' H100' Hidx' Hdur' Hrun)
      as (R0 & R100 & Rdur).
    split; [exact R0 |]. split; [exact R100 |].
    unfold len in *. cbn [length]. lia.
Qed.

Lemma drawdown_bounds (prices : list Qc) :
  Forall (fun p => 0 <= p) prices ->
  exists dd duration,
    _calculate_max_drawdown prices = Ok (dd, duration) /\
    0 <= dd /\ dd <= 100 /\
    (0 <= duration <= Z.max 0 (len prices - 1))%Z.
Proof.
  intros Hall.
  destruct (_calculate_max_drawdown_total prices) as (dd & dur & Hr & _).
  exists dd, dur. split; [exact Hr |].
  unfold _calculate_max_drawdown in Hr. destruct prices as [| p0 rest].
  - injection Hr as <- <-. unfold len. simpl.
    repeat split; try lia; [apply Qcle_refl | apply Qc_of_Z_nonneg; lia].
  - apply bind_Ok_inv in Hr as (st & Hloop & Hr). injection Hr as <- <-.
    unfold enumerate in Hloop.
    eapply (drawdown_loop_bounds (p0 :: rest) 0) in Hloop; cbn; try lia;
      try exact Hall; try apply Qcle_refl; [| apply Qc_of_Z_nonneg; lia].
    exact Hloop.
Qed.

(** On non-negative prices the maximum drawdown is a percentage between
    0 and 100, and its duration is an index distance within the
    series. *)
Theorem max_drawdown_bounds (prices : list Qc) :
  Forall (fun p => 0 <= p) prices ->
  exists dd duration,
    _calculate_max_drawdown prices = Ok (dd, duration) /\
    0 <= dd /\ dd <= 100 /\
    (0 <= duration <= Z.max 0 (len prices - 1))%Z.
Proof. exact (drawdown_bounds prices). Qed.

Lemma max_drawdown_bounds_witness :
  exists dd duration,
    _calculate_max_drawdown [Qc_of_Z 4; 2; Qc_of_Z 3] = Ok (dd, duration) /\
    0 <= dd /\ dd <= 100.
Proof.
  destruct (max_drawdown_bounds [Qc_of_Z 4; 2; Qc_of_Z 3])
    as (dd & dur & H & H0 & H100 & _).
  - repeat constructor; vm_compute; discriminate.
  - exists dd, dur. auto.
Defined.

(** ** RSI: the opposite extreme *)

Lemma max2_0_of_nonpos (c : Qc) : c <= 0 -> max2 0 c = 0.
Proof.
  intros H. unfold max2. destruct (0 <? c) eqn:E; [| reflexivity].
  apply Qc_ltb_lt in E. exfalso. eapply Qcle_not_lt; eassumption.
Qed.

Lemma sum_pos (l : list Qc) (x : Qc) :
  Forall (fun y => 0 <= y) l -> In x l -> 0 < x -> 0 < sum l.
Proof.
  induction 1 as [| y l Hy Hall IH]; intros Hin Hx; [destruct Hin |].
  rewrite sum_cons. destruct Hin as [-> | Hin].
  - apply Qcplus_pos_nonneg; [exact Hx | apply sum_nonneg; exact Hall].
  - apply Qcplus_nonneg_pos; [exact Hy | apply IH; assumption].
Qed.

(** When none of the last [period] changes is positive and one of them
    is negative, the RSI is exactly 0. *)
Theorem calculate_rsi_all_losses (prices : list Qc) (period : Z) (j : Z) :
  (0 < period)%Z -> (period + 1 <= len prices)%Z ->
  (forall i, (len prices - period <= i < len prices)%Z ->
             nth (Z.to_nat i) prices 0 <= nth (Z.to_nat (i - 1)) prices 0) ->
  (len prices - period <= j < len prices)%Z ->
  nth (Z.to_nat j) prices 0 < nth (Z.to_nat (j - 1)) prices 0 ->
  calculate_rsi (map PyNum prices) period = Ok (Some 0).
Proof.
  intros Hp Hlen Hdown Hj Hdrop. unfold calculate_rsi.
  destruct (len (map PyNum prices) <? period + 1)%Z eqn:E.
  { apply Z.ltb_lt in E. unfold len in *. rewrite length_map in E. lia. }
  rewrite rsi_changes. cbn [bind].
  assert (Hsl : slice (map (delta prices) (range 1 (len prices))) (Some (- period)%Z) None
                = map (delta prices) (range (len prices - period) (len prices))).
  { rewrite slice_last by lia.
    rewrite skipn_map, skipn_range. f_equal. f_equal.
    rewrite length_map, length_range. unfold len in *. lia. }
  rewrite Hsl.
  assert (Hpq : Qc_of_Z period <> 0) by (rewrite Qc_of_Z_eq0; lia).
  rewrite !truediv_ok by exact Hpq. cbn [bind].
  assert (Hdelta : forall i, (len prices - period <= i < len prices)%Z ->
                             delta prices i <= 0).
  { intros i Hi. unfold delta. specialize (Hdown i Hi).
    apply Qcle_minus_iff in Hdown. apply Qcopp_le_compat in Hdown.
    replace (- 0) with 0 in Hdown by ring.
    replace (- (nth (Z.to_nat (i - 1)) prices 0 + - nth (Z.to_nat i) prices 0))
      with (nth (Z.to_nat i) prices 0 - nth (Z.to_nat (i - 1)) prices 0)
      in Hdown by ring.
    exact Hdown. }
  assert (Hg : sum (map (fun c => max2 0 c)
                        (map (delta prices) (range (len prices - period) (len prices)))) = 0).
  { rewrite map_map. apply sum_map_zero. intros i Hi. apply In_range in Hi.
    apply max2_0_of_nonpos. apply Hdelta. exact Hi. }
  assert (Hl : 0 < sum (map (fun c => Qcabs (min2 0 c))
                        (map (delta prices) (range (len prices - period) (len prices))))).
  { apply sum_pos with (x := Qcabs (min2 0 (delta prices j))).
    - apply Forall_forall. intros x Hx. apply in_map_iff in Hx as (c & <- & _).
      apply Qcabs_nonneg.
    - apply (in_map (fun c => Qcabs (min2 0 c))). apply (in_map (delta prices)).
      apply In_range. exact Hj.
    - assert (Hd : delta prices j < 0).
      { unfold delta. apply Qclt_minus_iff in Hdrop.
        apply Qclt_minus_iff.
        replace (0 + - (nth (Z.to_nat j) prices 0 - nth (Z.to_nat (j - 1)) prices 0))
          with (nth (Z.to_nat (j - 1)) prices 0 + - nth (Z.to_nat j) prices 0) by ring.
        exact Hdrop. }
      unfold min2. apply Qc_ltb_lt in Hd. rewrite Hd. apply Qc_ltb_lt in Hd.
      rewrite Qcabs_neg by (apply Qclt_le_weak; exact Hd).
      apply Qclt_minus_iff in Hd. replace (0 + - delta prices j) with (- delta prices j) in Hd by ring.
      exact Hd. }
  rewrite Hg. clear Hg.
  set (L := sum _) in *. clearbody L.
  assert (Hlp : L / Qc_of_Z period <> 0).
  { intros H. apply (Qclt_not_eq _ _ Hl). symmetry.
    assert (EL : L = L / Qc_of_Z period * Qc_of_Z period) by (field; exact Hpq).
    transitivity (L / Qc_of_Z period * Qc_of_Z period); [exact EL |].
    rewrite H. ring. }
  apply Qc_eqb_neq in Hlp. rewrite Hlp. apply Qc_eqb_neq in Hlp.
  rewrite truediv_ok by exact Hlp. cbn [bind].
  replace (0 / Qc_of_Z period / (L / Qc_of_Z period)) with 0
    by (unfold Qcdiv; ring).
  replace (1 + 0) with 1 by ring.
  rewrite truediv_ok by discriminate. cbn [bind].
  do 2 apply f_equal. apply Qc_is_canon. reflexivity.
Qed.

Lemma calculate_rsi_all_losses_witness :
  calculate_rsi (map PyNum [Qc_of_Z 5; Qc_of_Z 3; Qc_of_Z 3; 1]) 2 = Ok (Some 0).
Proof.
  apply (calculate_rsi_all_losses [Qc_of_Z 5; Qc_of_Z 3; Qc_of_Z 3; 1] 2 3).
  - lia.
  - vm_compute. discriminate.
  - intros i Hi. change (len [Qc_of_Z 5; Qc_of_Z 3; Qc_of_Z 3; 1]) with 4%Z in Hi.
    assert (Hc : i = 2%Z \/ i = 3%Z) by lia.
    destruct Hc as [-> | ->]; vm_compute; discriminate.
  - vm_compute. split; [discriminate | reflexivity].
  - vm_compute. reflexivity.
Defined.

(** ** MACD: how the three values relate *)

(** Nothing is present without the MACD line; the line is the fast EMA
    minus the slow EMA; and the histogram, present exactly when the
    signal line is present and non-zero, is the line minus the signal
    line. *)
Theorem calculate_macd_relations (prices : list Qc) (fast slow signal : Z)
  (m s h : option Qc) :
  calculate_macd prices fast slow signal = Ok (m, s, h) ->
  (m = None -> s = None /\ h = None) /\
  (forall mv, m = Some mv ->
     exists ef es, _ema prices fast = Ok (Some ef) /\
                   _ema prices slow = Ok (Some es) /\ mv = ef - es) /\
  (forall hv, h = Some hv ->
     exists mv sv, m = Some mv /\ s = Some sv /\ sv <> 0 /\ hv = mv - sv) /\
  (forall sv, s = Some sv -> sv <> 0 -> h <> None).
Proof.
  unfold calculate_macd. destruct (_ <? _)%Z.
  { intros [= <- <- <-]. repeat split; intros; discriminate. }
  intros H.
  apply bind_Ok_inv in H as (ef & Hef & H).
  apply bind_Ok_inv in H as (es & Hes & H).
  destruct ef as [ef |]; [| injection H as <- <- <-; repeat split; intros; discriminate].
  destruct es as [es |]; [| injection H as <- <- <-; repeat split; intros; discriminate].
  apply bind_Ok_inv in H as (hist & _ & H).
  destruct (_ <? _)%Z.
  { injection H as <- <- <-. repeat split; try discriminate.
    intros mv [= <-]. exists ef, es. auto. }
  apply bind_Ok_inv in H as (sl & _ & H). injection H as <- <- <-.
  split; [discriminate |]. split.
  { intros mv [= <-]. exists ef, es. auto. }
  destruct sl as [sv |]; [| split; intros; discriminate].
  destruct (nonzero sv) eqn:E.
  - apply nonzero_true in E. split.
    + intros hv [= <-]. exists (ef - es), sv. auto.
    + intros; discriminate.
  - split; [intros; discriminate |].
    intros sv' [= <-] Hne. apply nonzero_true in Hne. congruence.
Qed.

Lemma calculate_macd_relations_witness :
  exists ef es,
    _ema (map (fun n => Qc_of_Z (Z.of_nat n)) (seq 1 35)) 12 = Ok (Some ef) /\
    _ema (map (fun n => Qc_of_Z (Z.of_nat n)) (seq 1 35)) 26 = Ok (Some es) /\
    Qc_of_Z 7 = ef - es.
Proof.
  assert (H : calculate_macd (map (fun n => Qc_of_Z (Z.of_nat n)) (seq 1 35)) 12 26 9
              = Ok (Some (Qc_of_Z 7), Some (Qc_of_Z 7), Some 0)) by qc_eval.
  exact (proj1 (proj2 (calculate_macd_relations _ _ _ _ _ _ _ H)) _ eq_refl).
Defined.

(** ** The extracted columns *)

Lemma zip_map_self {A B : Type} (g : A -> B) (l : list A) :
  zip l (map g l) = map (fun x => (x, g x)) l.
Proof. induction l as [| x l IH]; simpl; [reflexivity |]. f_equal. exact IH. Qed.

(** The three columns have the length of the input, and a series whose
    records carry no [high] (no [low]) uses the coerced close in its
    place. *)
Theorem columns_fallback (float_of_str : string -> option Qc) (history_data : list dict) :
  length (closes_of float_of_str history_data) = length history_data /\
  length (highs_of float_of_str history_data) = length history_data /\
  length (lows_of float_of_str history_data) = length history_data /\
  (Forall (fun d => d !! "high" = None) history_data ->
     highs_of float_of_str history_data = closes_of float_of_str history_data) /\
  (Forall (fun d => d !! "low" = None) history_data ->
     lows_of float_of_str history_data = closes_of float_of_str history_data).
Proof.
  split; [apply length_closes_of |].
  split; [apply length_highs_of |].
  split; [apply length_lows_of |].
  unfold highs_of, lows_of, closes_of. rewrite zip_map_self, !map_map.
  split; intros H; apply map_ext_in; intros d Hd;
    rewrite Forall_forall in H; rewrite (H d Hd); reflexivity.
Qed.

Lemma columns_fallback_witness :
  highs_of no_float_syntax (flat_series 3 1) = closes_of no_float_syntax (flat_series 3 1).
Proof.
  apply (proj1 (proj2 (proj2 (proj2 (columns_fallback no_float_syntax (flat_series 3 1)))))).
  repeat constructor.
Defined.

(** ** A record without [close] *)

Lemma get_close_missing (history_data : list dict) :
  Exists (fun d => d !! "close" = None) history_data ->
  comprehension get_close history_data = Raise KeyError.
Proof.
  induction history_data as [| d hd IH]; intros H; [inversion H |].
  cbn [comprehension]. unfold get_close at 1.
  destruct (d !! "close") as [v |] eqn:E; [| reflexivity].
  cbn [bind]. rewrite IH; [reflexivity |].
  inversion H as [? ? Hd | ? ? Hhd]; subst; [congruence | exact Hhd].
Qed.

(** Once past their length guards, [calculate_performance] and both
    backtests raise [KeyError] on any series in which some record has
    no [close] key. *)
Theorem missing_close_key_raises (sqrt : Qc -> Qc) (history_data : list dict) :
  Exists (fun d => d !! "close" = None) history_data ->
  ((5 <= len history_data)%Z ->
     calculate_performance sqrt history_data = Raise KeyError) /\
  (forall fast_period slow_period,
     (slow_period + 10 <= len history_data)%Z ->
     backtest_ma_cross sqrt history_data fast_period slow_period = Raise KeyError) /\
  (forall period oversold overbought,
     (period + 10 <= len history_data)%Z ->
     backtest_rsi sqrt history_data period oversold overbought = Raise KeyError).
Proof.
  intros H.
  assert (Hne : is_empty history_data = false).
  { destruct history_data; [inversion H | reflexivity]. }
  split; [| split].
  - intros Hlen. unfold calculate_performance. rewrite Hne.
    destruct (_ <? _)%Z eqn:E; [apply Z.ltb_lt in E; lia |].
    cbn [orb]. rewrite get_close_missing by exact H. reflexivity.
  - intros fast slow Hlen. unfold backtest_ma_cross. rewrite Hne.
    destruct (_ <? _)%Z eqn:E; [apply Z.ltb_lt in E; lia |].
    cbn [orb]. rewrite get_close_missing by exact H. reflexivity.
  - intros period os ob Hlen. unfold backtest_rsi. rewrite Hne.
    destruct (_ <? _)%Z eqn:E; [apply Z.ltb_lt in E; lia |].
    cbn [orb]. rewrite get_close_missing by exact H. reflexivity.
Qed.

Lemma missing_close_key_raises_witness :
  calculate_performance sqrt_floor (flat_series 4 1 ++ [∅]) = Raise KeyError.
Proof.
  apply (proj1 (missing_close_key_raises sqrt_floor (flat_series 4 1 ++ [∅])
                  ltac:(apply Exists_exists; exists ∅; split;
                        [apply in_or_app; right; left; reflexivity | reflexivity]))).
  vm_compute. discriminate.
Defined.

(** ** The signal log of a simulation *)

Lemma alternating_types_S (n : nat) :
  alternating_types (S n)
  = alternating_types n ++ [Some (if Nat.even n then TYPE_BUY else TYPE_SELL)].
Proof. unfold alternating_types. rewrite seq_S, map_app. reflexivity. Qed.

Lemma flat_position_even (st : sim_state) :
  sim_consistent st -> sim_position st = 0%Z ->
  Nat.even (length (sim_signals st)) = true.
Proof.
  intros [_ H] Hp. apply Nat.even_spec.
  exists (length (sim_trades st)). unfold len in H. lia.
Qed.

Lemma long_position_odd (st : sim_state) :
  sim_consistent st -> sim_position st = 1%Z ->
  Nat.even (length (sim_signals st)) = false.
Proof.
  intros [_ H] Hp.
  destruct (Nat.even (length (sim_signals st))) eqn:E; [| reflexivity].
  apply Nat.even_spec in E as [k Hk]. unfold len in H. lia.
Qed.

Lemma buy_keeps_alternation (st : sim_state) (sig : dict) (price : pyval) :
  sim_consistent st -> sim_position st = 0%Z ->
  sig !! "type" = Some TYPE_BUY ->
  signal_types (sim_signals st) = alternating_types (length (sim_signals st)) ->
  signal_types (sim_signals st ++ [sig])
  = alternating_types (length (sim_signals st ++ [sig])).
Proof.
  intros Hc Hp Hsig Halt. unfold signal_types in *.
  rewrite map_app, length_app, Nat.add_1_r, alternating_types_S, Halt.
  rewrite (flat_position_even st Hc Hp). cbn [map]. rewrite Hsig. reflexivity.
Qed.

Lemma sell_keeps_alternation (st : sim_state) (sig : dict) :
  sim_consistent st -> sim_position st = 1%Z ->
  sig !! "type" = Some TYPE_SELL ->
  signal_types (sim_signals st) = alternating_types (length (sim_signals st)) ->
  signal_types (sim_signals st ++ [sig])
  = alternating_types (length (sim_signals st ++ [sig])).
Proof.
  intros Hc Hp Hsig Halt. unfold signal_types in *.
  rewrite map_app, length_app, Nat.add_1_r, alternating_types_S, Halt.
  rewrite (long_position_odd st Hc Hp). cbn [map]. rewrite Hsig. reflexivity.
Qed.

Lemma ma_cross_step_log (closes dates : list pyval) (fast slow : Z)
  (st st' : sim_state) (i : Z) :
  log_invariant st -> ma_cross_step closes dates fast slow st i = Ok st' ->
  log_invariant st'.
Proof.
  intros [Hc Halt] H.
  split; [eapply ma_cross_step_consistent; eassumption |].
  unfold ma_cross_step in H.
  repeat (apply bind_Ok_inv in H as (? & _ & H)).
  destruct (_ && _ && (sim_position st =? 0)%Z) eqn:Ebuy.
  - apply andb_true_iff in Ebuy as [_ Ep]. apply Z.eqb_eq in Ep.
    apply bind_Ok_inv in H as (close & _ & H).
    apply bind_Ok_inv in H as (date & _ & H).
    injection H as <-. cbn [sim_signals].
    apply (buy_keeps_alternation st _ close Hc Ep); [reflexivity | exact Halt].
  - destruct (_ && _ && (sim_position st =? 1)%Z) eqn:Esell.
    + apply andb_true_iff in Esell as [_ Ep]. apply Z.eqb_eq in Ep.
      apply bind_Ok_inv in H as (close & _ & H).
      apply bind_Ok_inv in H as (profit & _ & H).
      apply bind_Ok_inv in H as (date & _ & H).
      injection H as <-. cbn [sim_signals].
      apply (sell_keeps_alternation st _ Hc Ep); [reflexivity | exact Halt].
    + injection H as <-. exact Halt.
Qed.

Lemma rsi_step_log (closes dates : list pyval) (period : Z)
  (oversold overbought : Qc) (st st' : sim_state) (i : Z) :
  log_invariant st ->
  rsi_step closes dates period oversold overbought st i = Ok st' ->
  log_invariant st'.
Proof.
  intros [Hc Halt] H.
  split; [eapply rsi_step_consistent; eassumption |].
  unfold rsi_step in H.
  apply bind_Ok_inv in H as (rsi & _ & H).
  apply bind_Ok_inv in H as (prev_rsi & _ & H).
  destruct rsi as [rsi |], prev_rsi as [prev_rsi |];
    try (injection H as <-; exact Halt).
  destruct (_ && _ && (sim_position st =? 0)%Z) eqn:Ebuy.
  - apply andb_true_iff in Ebuy as [_ Ep]. apply Z.eqb_eq in Ep.
    apply bind_Ok_inv in H as (close & _ & H).
    apply bind_Ok_inv in H as (date & _ & H).
    injection H as <-. cbn [sim_signals].
    apply (buy_keeps_alternation st _ close Hc Ep); [reflexivity | exact Halt].
  - destruct (_ && _ && (sim_position st =? 1)%Z) eqn:Esell.
    + apply andb_true_iff in Esell as [_ Ep]. apply Z.eqb_eq in Ep.
      apply bind_Ok_inv in H as (close & _ & H).
      apply bind_Ok_inv in H as (profit & _ & H).
      apply bind_Ok_inv in H as (date & _ & H).
      injection H as <-. cbn [sim_signals].
      apply (sell_keeps_alternation st _ Hc Ep); [reflexivity | exact Halt].
    + injection H as <-. exact Halt.
Qed.

(** Both simulations keep one position at a time: the log holds two
    signals per completed trade plus one for an open position, and its
    entries are a buy, a sell, a buy, ... in turn. *)
Theorem simulation_log_alternates :
  (forall closes dates fast_period slow_period st,
     ma_cross_loop closes dates fast_period slow_period = Ok st ->
     (sim_position st = 0%Z \/ sim_position st = 1%Z) /\
     len (sim_signals st) = (2 * len (sim_trades st) + sim_position st)%Z /\
     signal_types (sim_signals st) = alternating_types (length (sim_signals st))) /\
  (forall closes dates period oversold overbought st,
     rsi_loop closes dates period oversold overbought = Ok st ->
     (sim_position st = 0%Z \/ sim_position st = 1%Z) /\
     len (sim_signals st) = (2 * len (sim_trades st) + sim_position st)%Z /\
     signal_types (sim_signals st) = alternating_types (length (sim_signals st))).
Proof.
  assert (Hinit : log_invariant sim_init)
    by (split; [exact sim_init_consistent | reflexivity]).
  split.
  - intros closes dates fast slow st H. unfold ma_cross_loop in H.
    apply (for_each_invariant log_invariant) in H; [| | exact Hinit].
    + destruct H as [[Hp Hl] Ha]. auto.
    + intros s i s' _. apply ma_cross_step_log.
  - intros closes dates period os ob st H. unfold rsi_loop in H.
    apply (for_each_invariant log_invariant) in H; [| | exact Hinit].
    + destruct H as [[Hp Hl] Ha]. auto.
    + intros s i s' _. apply rsi_step_log.
Qed.

(** ** What a backtest reports *)

Section Reports.

Variable sqrt : Qc -> Qc.

Lemma backtest_ma_cross_inv (history_data : list dict) (fast slow : Z)
  (o : option BacktestResult) :
  backtest_ma_cross sqrt history_data fast slow = Ok o ->
  (o = None /\ (history_data = [] \/ (len history_data < slow + 10)%Z)) \/
  (history_data <> [] /\ (slow + 10 <= len history_data)%Z /\
   exists closes st r,
     o = Some r /\
     comprehension get_close history_data = Ok closes /\
     ma_cross_loop closes (map get_date history_data) fast slow = Ok st /\
     backtest_report sqrt
       ("MA" +:+ pretty fast +:+ "/" +:+ pretty slow +:+ "交叉")
       (len history_data) (sim_trades st) (sim_signals st) = Ok r).
Proof.
  unfold backtest_ma_cross. destruct history_data as [| d hd].
  { intros [= <-]. left. auto. }
  cbn [is_empty orb]. destruct (_ <? _)%Z eqn:E.
  { intros [= <-]. left. apply Z.ltb_lt in E. auto. }
  apply Z.ltb_ge in E. intros H. right.
  split; [discriminate |]. split; [exact E |].
  apply bind_Ok_inv in H as (closes & Hc & H).
  apply bind_Ok_inv in H as (st & Hst & H).
  apply bind_Ok_inv in H as (r & Hr & H).
  injection H as <-. exists closes, st, r. auto.
Qed.

Lemma backtest_rsi_inv (history_data : list dict) (period : Z)
  (oversold overbought : Qc) (o : option BacktestResult) :
  backtest_rsi sqrt history_data period oversold overbought = Ok o ->
  (o = None /\ (history_data = [] \/ (len history_data < period + 10)%Z)) \/
  (history_data <> [] /\ (period + 10 <= len history_data)%Z /\
   exists closes st r,
     o = Some r /\
     comprehension get_close history_data = Ok closes /\
     rsi_loop closes (map get_date history_data) period oversold overbought = Ok st /\
     backtest_report sqrt ("RSI(" +:+ pretty period +:+ ")")
       (len history_data) (sim_trades st) (sim_signals st) = Ok r).
Proof.
  unfold backtest_rsi. destruct history_data as [| d hd].
  { intros [= <-]. left. auto. }
  cbn [is_empty orb]. destruct (_ <? _)%Z eqn:E.
  { intros [= <-]. left. apply Z.ltb_lt in E. auto. }
  apply Z.ltb_ge in E. intros H. right.
  split; [discriminate |]. split; [exact E |].
  apply bind_Ok_inv in H as (closes & Hc & H).
  apply bind_Ok_inv in H as (st & Hst & H).
  apply bind_Ok_inv in H as (r & Hr & H).
  injection H as <-. exists closes, st, r. auto.
Qed.

(** The trade count of a result is the number of completed round trips
    of the simulation, whose log holds twice as many signals, or one
    more when a position is still open at the end of the series. *)
Theorem backtest_trade_count :
  (forall history_data fast_period slow_period r,
     backtest_ma_cross sqrt history_data fast_period slow_period = Ok (Some r) ->
     exists closes st,
       comprehension get_close history_data = Ok closes /\
       ma_cross_loop closes (map get_date history_data) fast_period slow_period
       = Ok st /\
       trade_count r = len (sim_trades st) /\
       (0 <= trade_count r)%Z /\
       (2 * trade_count r <= len (sim_signals st) <= 2 * trade_count r + 1)%Z) /\
  (forall history_data period oversold overbought r,
     backtest_rsi sqrt history_data period oversold overbought = Ok (Some r) ->
     exists closes st,
       comprehension get_close history_data = Ok closes /\
       rsi_loop closes (map get_date history_data) period oversold overbought
       = Ok st /\
       trade_count r = len (sim_trades st) /\
       (0 <= trade_count r)%Z /\
       (2 * trade_count r <= len (sim_signals st) <= 2 * trade_count r + 1)%Z).
Proof.
  split.
  - intros hd fast slow r H.
    apply backtest_ma_cross_inv in H
      as [[H _] | (_ & _ & closes & st & r' & Hr & Hc & Hst & Hrep)];
      [discriminate |].
    injection Hr as <-. exists closes, st.
    apply backtest_report_signals in Hrep as (_ & Ht & _).
    apply ma_cross_loop_consistent in Hst as Hcons. destruct Hcons as [Hp Hl].
    rewrite Ht. pose proof (len_nonneg (sim_trades st)).
    repeat split; try assumption; lia.
  - intros hd period os ob r H.
    apply backtest_rsi_inv in H
      as [[H _] | (_ & _ & closes & st & r' & Hr & Hc & Hst & Hrep)];
      [discriminate |].
    injection Hr as <-. exists closes, st.
    apply backtest_report_signals in Hrep as (_ & Ht & _).
    apply rsi_loop_consistent in Hst as Hcons. destruct Hcons as [Hp Hl].
    rewrite Ht. pose proof (len_nonneg (sim_trades st)).
    repeat split; try assumption; lia.
Qed.

(** [run_all_backtests] (and [get_backtest_results], which delegates to
    it) returns the strategies whose length bound the series meets, in
    the fixed order MA5/20 (30 records), MA10/30 (40), RSI(14) (24). *)
Theorem run_all_backtests_strategies (history_data : list dict)
  (results : list BacktestResult) :
  get_backtest_results sqrt history_data = Ok results ->
  ((len history_data < 24)%Z -> results = []) /\
  ((24 <= len history_data < 30)%Z ->
     map strategy_name results = ["RSI(14)"]%list) /\
  ((30 <= len history_data < 40)%Z ->
     map strategy_name results = ["MA5/20交叉"; "RSI(14)"]) /\
  ((40 <= len history_data)%Z ->
     map strategy_name results = ["MA5/20交叉"; "MA10/30交叉"; "RSI(14)"]).
Proof.
  unfold get_backtest_results, run_all_backtests. intros H.
  apply bind_Ok_inv in H as (r1 & H1 & H).
  apply bind_Ok_inv in H as (r2 & H2 & H).
  apply bind_Ok_inv in H as (r3 & H3 & H).
  injection H as <-.
  apply backtest_ma_cross_inv in H1
    as [[-> C1] | (N1 & L1 & c1 & s1 & x1 & -> & _ & _ & R1)];
  apply backtest_ma_cross_inv in H2
    as [[-> C2] | (N2 & L2 & c2 & s2 & x2 & -> & _ & _ & R2)];
  apply backtest_rsi_inv in H3
    as [[-> C3] | (N3 & L3 & c3 & s3 & x3 & -> & _ & _ & R3)];
  try (apply backtest_report_signals in R1 as (Hn1 & _));
  try (apply backtest_report_signals in R2 as (Hn2 & _));
  try (apply backtest_report_signals in R3 as (Hn3 & _));
  simpl;
  repeat split; intros Hlen;
    repeat match goal with
           | C : _ = [] \/ _ |- _ => destruct C as [C | C]
           end;
    subst; unfold len in *; cbn [length] in *;
    try congruence; try lia; try reflexivity;
    repeat match goal with Hn : strategy_name _ = _ |- _ => rewrite Hn; clear Hn end;
    reflexivity.
Qed.

End Reports.

Lemma backtest_trade_count_witness :
  exists r,
    backtest_ma_cross sqrt_floor round_trip_series 1 2 = Ok (Some r) /\
    trade_count r = 1%Z /\ (0 <= trade_count r)%Z.
Proof.
  assert (H : exists r, backtest_ma_cross sqrt_floor round_trip_series 1 2 = Ok (Some r)
                        /\ trade_count r = 1%Z).
  { eexists. split; [vm_compute; reflexivity | reflexivity]. }
  destruct H as (r & Hr & Ht). exists r. split; [exact Hr |]. split; [exact Ht |].
  destruct (proj1 (backtest_trade_count sqrt_floor) _ _ _ _ Hr)
    as (closes & st & _ & _ & _ & H0 & _).
  exact H0.
Defined.

Lemma run_all_backtests_strategies_witness :
  exists results,
    get_backtest_results sqrt_floor (flat_series 30 100) = Ok results /\
    map strategy_name results = ["MA5/20交叉"; "RSI(14)"].
Proof.
  assert (H : exists results,
             get_backtest_results sqrt_floor (flat_series 30 100) = Ok results)
    by (eexists; vm_compute; reflexivity).
  destruct H as (rs & Hrs). exists rs. split; [exact Hrs |].
  apply (proj1 (proj2 (proj2 (run_all_backtests_strategies sqrt_floor _ _ Hrs)))).
  vm_compute. split; [discriminate | reflexivity].
Defined.

(** ** Performance metrics: the day counts *)

Lemma filter_disjoint_length {A : Type} (f g : A -> bool) (l : list A) :
  (forall x, f x && g x = false) ->
  (length (List.filter f l) + length (List.filter g l) <= length l)%nat.
Proof.
  intros H. induction l as [| x l IH]; simpl; [lia |].
  specialize (H x). destruct (f x), (g x); simpl in *; try discriminate; lia.
Qed.

Lemma positive_negative_disjoint (r : Qc) : (0 <? r) && (r <? 0) = false.
Proof.
  destruct (0 <? r) eqn:E1; [| reflexivity].
  destruct (r <? 0) eqn:E2; [| reflexivity].
  apply Qc_ltb_lt in E1, E2. exfalso.
  exact (Qclt_not_eq _ _ (Qclt_trans _ _ _ E1 E2) eq_refl).
Qed.

(** Each day adds at most one return. *)
Lemma daily_returns_length (closes : list pyval) (dr : list Qc) :
  daily_returns_of closes = Ok dr -> (len dr <= Z.max 0 (len closes - 1))%Z.
Proof.
  unfold daily_returns_of. intros H.
  assert (G : forall days acc acc',
    for_each
      (fun daily_returns i =>
         prev <- getitem closes (i - 1) ;;
         if py_ne_zero prev then
           cur <- getitem closes i ;;
           diff <- py_sub cur prev ;;
           p <- as_num prev ;;
           r <- truediv diff p ;;
           Ok (daily_returns ++ [r * 100])
         else Ok daily_returns)
      days acc = Ok acc' ->
    (length acc' <= length acc + length days)%nat).
  { induction days as [| i days IH]; intros acc acc' Hrun; simpl in Hrun.
    - injection Hrun as <-. lia.
    - apply bind_Ok_inv in Hrun as (acc1 & Hstep & Hrun).
      apply IH in Hrun.
      apply bind_Ok_inv in Hstep as (prev & _ & Hstep).
      destruct (py_ne_zero prev).
      + repeat (apply bind_Ok_inv in Hstep as (? & _ & Hstep)).
        injection Hstep as <-. rewrite length_app in Hrun. simpl in *.
        rewrite Nat.add_succ_r. rewrite <- Nat.add_assoc in Hrun.
        rewrite Nat.add_1_l in Hrun. rewrite Nat.add_succ_r in Hrun. exact Hrun.
      + injection Hstep as <-. simpl. rewrite Nat.add_succ_r.
        apply Nat.le_le_succ_r. exact Hrun. }
  apply G in H. rewrite length_range in H. unfold len in *. simpl in H. lia.
Qed.

Section DayCounts.

Variable sqrt : Qc -> Qc.

(** In a returned record the counts of rising and falling days are
    non-negative and together at most the number of day-to-day steps,
    [len(history_data) - 1]; a record is returned only from five
    records on. *)
Theorem calculate_performance_day_counts (history_data : list dict)
  (m : PerformanceMetrics) :
  calculate_performance sqrt history_data = Ok (Some m) ->
  (5 <= len history_data)%Z /\
  (0 <= positive_days m)%Z /\ (0 <= negative_days m)%Z /\
  (positive_days m + negative_days m <= len history_data - 1)%Z.
Proof.
  unfold calculate_performance. destruct (is_empty history_data); [discriminate |].
  destruct (_ <? _)%Z eqn:E; [discriminate |]. apply Z.ltb_ge in E.
  cbn [orb]. intros H.
  apply bind_Ok_inv in H as (closes & Hc & H).
  apply bind_Ok_inv in H as (dr & Hdr & H).
  destruct (is_empty dr); [discriminate |].
  do 6 (apply bind_Ok_inv in H as (? & _ & H)).
  apply bind_Ok_inv in H as ([dd dur] & _ & H).
  do 7 (apply bind_Ok_inv in H as (? & _ & H)).
  injection H as <-. cbn [positive_days negative_days].
  apply daily_returns_length in Hdr. apply comprehension_length in Hc.
  pose proof (filter_disjoint_length (fun r => 0 <? r) (fun r => r <? 0) dr
                positive_negative_disjoint) as Hd.
  unfold len in *. repeat split; lia.
Qed.

End DayCounts.

Lemma calculate_performance_day_counts_witness :
  exists m,
    calculate_performance sqrt_floor (flat_series 5 1) = Ok (Some m) /\
    (positive_days m + negative_days m <= 4)%Z.
Proof.
  assert (H : exists m, calculate_performance sqrt_floor (flat_series 5 1) = Ok (Some m))
    by (eexists; vm_compute; reflexivity).
  destruct H as (m & Hm). exists m. split; [exact Hm |].
  apply (calculate_performance_day_counts sqrt_floor _ _ Hm).
Defined.

(** ** Rounding *)

Lemma round_half_even_bounds (x : Qc) :
  (Qfloor x <= round_half_even x <= Qfloor x + 1)%Z.
Proof.
  unfold round_half_even.
  destruct (Qccompare _ _); [destruct (Z.even _) | |]; lia.
Qed.

Lemma Qc_of_Z_floor_le (x : Qc) : Qc_of_Z (Qfloor x) <= x.
Proof. to_Q. apply Qfloor_le. Qed.

Lemma Qc_lt_floor (x : Qc) : x < Qc_of_Z (Qfloor x + 1).
Proof. to_Q. apply Qlt_floor. Qed.

Lemma round_half_even_mono (x y : Qc) :
  x <= y -> (round_half_even x <= round_half_even y)%Z.
Proof.
  intros Hxy.
  assert (Hf : (Qfloor x <= Qfloor y)%Z) by (apply Qfloor_resp_le; exact Hxy).
  pose proof (round_half_even_bounds x) as Bx.
  pose proof (round_half_even_bounds y) as By.
  destruct (Z.eq_dec (Qfloor x) (Qfloor y)) as [E | N]; [| lia].
  clear Bx By Hf. unfold round_half_even. rewrite <- E.
  set (f := Qfloor x) in *.
  assert (Hd : x - Qc_of_Z f <= y - Qc_of_Z f).
  { clearbody f. to_Q. lra. }
  destruct (Qccompare (x - Qc_of_Z f) (Q2Qc (1 # 2))) eqn:Cx;
    destruct (Qccompare (y - Qc_of_Z f) (Q2Qc (1 # 2))) eqn:Cy;
    try destruct (Z.even f); try lia; exfalso;
    repeat match goal with
    | H : Qccompare _ _ = Eq |- _ => apply Qceq_alt in H; rewrite H in Hd
    | H : Qccompare _ _ = Lt |- _ => apply Qclt_alt in H
    | H : Qccompare _ _ = Gt |- _ => apply Qcgt_alt in H
    end;
    first [ exact (Qcle_not_lt _ _ Hd Cy)
          | exact (Qcle_not_lt _ _ Hd Cx)
          | exact (Qcle_not_lt _ _ Hd (Qclt_trans _ _ _ Cy Cx)) ].
Qed.

Lemma Qfloor_Qc_of_Z (k : Z) : Qfloor (Qc_of_Z k) = k.
Proof.
  transitivity (Qfloor (inject_Z k)); [| apply Qfloor_Z].
  apply Qfloor_comp. unfold Qc_of_Z, Q2Qc. cbn [this].
  first [reflexivity | apply Qred_correct].
Qed.

Lemma round_half_even_Z (k : Z) : round_half_even (Qc_of_Z k) = k.
Proof.
  unfold round_half_even. rewrite Qfloor_Qc_of_Z.
  replace (Qc_of_Z k - Qc_of_Z k) with (0 : Qc) by ring.
  reflexivity.
Qed.

Lemma scale_pos (ndigits : nat) : 0 < Qc_of_Z (10 ^ Z.of_nat ndigits).
Proof. apply Qc_of_Z_pos. apply Z.pow_pos_nonneg; lia. Qed.

Lemma Qc_of_Z_le (a b : Z) : (a <= b)%Z -> Qc_of_Z a <= Qc_of_Z b.
Proof. intros H. apply (proj1 (Z2Qc_inj_le a b)). exact H. Qed.

Lemma Qc_of_Z_mult (a b : Z) : Qc_of_Z a * Qc_of_Z b = Qc_of_Z (a * b).
Proof. symmetry. apply Z2Qc_inj_mul. Qed.

(** [round] is monotone, and leaves integers alone. *)
Lemma py_round_mono (x y : Qc) (ndigits : nat) :
  x <= y -> py_round x ndigits <= py_round y ndigits.
Proof.
  intros H. unfold py_round.
  pose proof (scale_pos ndigits) as Hs.
  set (s := Qc_of_Z (10 ^ Z.of_nat ndigits)) in *.
  assert (Hm : x * s <= y * s).
  { apply Qcmult_le_compat_r; [exact H | apply Qclt_le_weak, Hs]. }
  apply round_half_even_mono in Hm. apply Qc_of_Z_le in Hm.
  unfold Qcdiv. apply Qcmult_le_compat_r; [exact Hm |].
  apply Qclt_le_weak. apply Qcinv_pos. exact Hs.
Qed.

Lemma py_round_Z (k : Z) (ndigits : nat) : py_round (Qc_of_Z k) ndigits = Qc_of_Z k.
Proof.
  unfold py_round. pose proof (scale_pos ndigits) as Hs.
  rewrite Qc_of_Z_mult, round_half_even_Z, <- Qc_of_Z_mult.
  set (s := Qc_of_Z (10 ^ Z.of_nat ndigits)) in *.
  assert (Hn : s <> 0) by (intros E; rewrite E in Hs; exact (Qclt_not_eq _ _ Hs eq_refl)).
  field. exact Hn.
Qed.

Lemma py_round_nonneg (x : Qc) (ndigits : nat) : 0 <= x -> 0 <= py_round x ndigits.
Proof.
  intros H. assert (E : Qc_of_Z 0 = 0) by (apply Qc_of_Z_eq0; reflexivity).
  apply Qcle_trans with (py_round (Qc_of_Z 0) ndigits).
  - rewrite py_round_Z, E. apply Qcle_refl.
  - apply py_round_mono. rewrite E. exact H.
Qed.

(** ** The statistics of a backtest *)

Lemma length_filter_le {A : Type} (f : A -> bool) (l : list A) :
  (length (List.filter f l) <= length l)%nat.
Proof. induction l as [| x l IH]; simpl; [lia |]. destruct (f x); simpl; lia. Qed.

Lemma sum_filter_pos_nonneg (l : list Qc) : 0 <= sum (List.filter (fun t => 0 <? t) l).
Proof.
  apply sum_nonneg. apply Forall_forall. intros x Hx.
  apply filter_In in Hx as [_ Hx]. apply Qc_ltb_lt in Hx. apply Qclt_le_weak, Hx.
Qed.

Lemma Q_ratio_nonneg (a b : Q) : (0 <= a -> 0 < b -> 0 <= a / b)%Q.
Proof.
  intros Ha Hb. apply Qle_shift_div_l; [exact Hb |]. lra.
Qed.

Lemma Q_share (a b : Q) : (0 <= a -> a <= b -> 0 < b -> 0 <= a / b * 100 /\ a / b * 100 <= 100)%Q.
Proof.
  intros Ha Hab Hb.
  assert (H0 : (0 <= a / b)%Q) by (apply Q_ratio_nonneg; assumption).
  assert (H1 : (a / b <= 1)%Q) by (apply Qle_shift_div_r; [exact Hb | lra]).
  split; lra.
Qed.

Section Statistics.

Variable sqrt : Qc -> Qc.


(** What the statistics block can report. *)
Lemma backtest_report_ranges (name : string) (days : Z) (trades : list Qc)
  (sigs : list dict) (r : BacktestResult) :
  backtest_report sqrt name days trades sigs = Ok r ->
  0 <= win_rate r /\ win_rate r <= 100 /\
  0 <= bt_max_drawdown r /\ 0 <= profit_loss_ratio r.
Proof.
  unfold backtest_report. destruct trades as [| t ts] eqn:Et.
  { intros [= <-]. cbn. repeat split; apply Qcle_refl || (vm_compute; discriminate). }
  rewrite <- Et. assert (Hlen : (0 < len trades)%Z) by (rewrite Et; unfold len; simpl; lia).
  clear Et. rewrite is_empty_false by exact Hlen. intros H.
  apply bind_Ok_inv in H as (wr & Hwr & H).
  apply bind_Ok_inv in Hwr as (q & Hq & Hwr). injection Hwr as <-.
  apply truediv_inv in Hq as [_ ->].
  apply bind_Ok_inv in H as (aw & Haw & H).
  apply bind_Ok_inv in H as (al & Hal & H).
  apply bind_Ok_inv in H as (plr & Hplr & H).
  apply bind_Ok_inv in H as (ar & _ & H).
  apply bind_Ok_inv in H as (worst & _ & H).
  apply bind_Ok_inv in H as (sd & _ & H).
  apply bind_Ok_inv in H as (sh & _ & H).
  injection H as <-. cbn [win_rate bt_max_drawdown profit_loss_ratio].
  set (wins := List.filter (fun t => 0 <? t) trades) in *.
  assert (Hshare : 0 <= Qc_of_Z (len wins) / Qc_of_Z (len trades) * 100 /\
                   Qc_of_Z (len wins) / Qc_of_Z (len trades) * 100 <= 100).
  { pose proof (Qc_of_Z_nonneg (len wins) (len_nonneg wins)) as H0.
    assert (H1 : Qc_of_Z (len wins) <= Qc_of_Z (len trades)).
    { apply Qc_of_Z_le. unfold len, wins. pose proof (length_filter_le (fun t => 0 <? t) trades).
      lia. }
    pose proof (Qc_of_Z_pos (len trades) Hlen) as H2.
    generalize dependent (Qc_of_Z (len wins)).
    generalize dependent (Qc_of_Z (len trades)). intros b Hb a Ha Hab.
    split; to_Q; apply Q_share; assumption. }
  destruct Hshare as [Hs0 Hs1].
  assert (Haw0 : 0 <= aw).
  { destruct (is_empty wins) eqn:Ew.
    - injection Haw as <-. apply Qcle_refl.
    - apply truediv_inv in Haw as [Hn ->].
      pose proof (sum_filter_pos_nonneg trades) as Hsum. fold wins in Hsum.
      assert (Hpos : 0 < Qc_of_Z (len wins)).
      { destruct (Qcle_lt_or_eq _ _ (Qc_of_Z_nonneg (len wins) (len_nonneg wins)))
          as [Hlt | Heq]; [exact Hlt | congruence]. }
      generalize dependent (Qc_of_Z (len wins)). generalize dependent (sum wins).
      intros a Ha b _ _ _ Hb. to_Q. apply Q_ratio_nonneg; assumption. }
  assert (Hplr0 : 0 <= plr).
  { destruct (0 <? al) eqn:El.
    - apply Qc_ltb_lt in El. apply truediv_inv in Hplr as [_ ->].
      clear - Haw0 El. to_Q. apply Q_ratio_nonneg; assumption.
    - injection Hplr as <-. apply Qcle_refl. }
  split; [apply py_round_nonneg; exact Hs0 |].
  split.
  { apply Qcle_trans with (py_round (Qc_of_Z 100) 2).
    - apply py_round_mono. exact Hs1.
    - rewrite py_round_Z. apply Qcle_refl. }
  split; [apply py_round_nonneg, Qcabs_nonneg | apply py_round_nonneg; exact Hplr0].
Qed.

(** Whatever a backtest returns, its win rate is a percentage, and the
    reported drawdown and profit/loss ratio are not negative. *)
Theorem backtest_result_ranges :
  (forall history_data fast_period slow_period r,
     backtest_ma_cross sqrt history_data fast_period slow_period = Ok (Some r) ->
     0 <= win_rate r /\ win_rate r <= 100 /\
     0 <= bt_max_drawdown r /\ 0 <= profit_loss_ratio r) /\
  (forall history_data period oversold overbought r,
     backtest_rsi sqrt history_data period oversold overbought = Ok (Some r) ->
     0 <= win_rate r /\ win_rate r <= 100 /\
     0 <= bt_max_drawdown r /\ 0 <= profit_loss_ratio r).
Proof.
  split.
  - intros hd fast slow r H.
    apply backtest_ma_cross_inv in H
      as [[H _] | (_ & _ & closes & st & r' & Hr & _ & _ & Hrep)]; [discriminate |].
    injection Hr as <-. exact (backtest_report_ranges _ _ _ _ _ Hrep).
  - intros hd period os ob r H.
    apply backtest_rsi_inv in H
      as [[H _] | (_ & _ & closes & st & r' & Hr & _ & _ & Hrep)]; [discriminate |].
    injection Hr as <-. exact (backtest_report_ranges _ _ _ _ _ Hrep).
Qed.

End Statistics.

Lemma backtest_result_ranges_witness :
  exists r,
    backtest_ma_cross sqrt_floor round_trip_series 1 2 = Ok (Some r) /\
    0 <= win_rate r /\ win_rate r <= 100.
Proof.
  assert (H : exists r, backtest_ma_cross sqrt_floor round_trip_series 1 2 = Ok (Some r))
    by (eexists; vm_compute; reflexivity).
  destruct H as (r & Hr). exists r. split; [exact Hr |].
  destruct (proj1 (backtest_result_ranges sqrt_floor) _ _ _ _ Hr) as (H0 & H1 & _).
  split; [exact H0 | exact H1].
Defined.

(** ** Backtests on a numeric column *)











Section BacktestTotality.

Variable sqrt : Qc -> Qc.




(** A close of 0 on the day of a buy is kept as the entry price, and the
    sell that follows divides by it: the backtest raises
    [ZeroDivisionError]. *)
Theorem backtest_zero_entry_price_raises :
  backtest_ma_cross sqrt zero_close_series 5 20 = Raise ZeroDivisionError /\
  get_backtest_results sqrt zero_close_series = Raise ZeroDivisionError.
Proof. split; vm_compute; reflexivity. Qed.

End BacktestTotality.




(** ** Performance metrics: how the risk figures are ordered *)

Lemma insert_sorted_In (x y : Qc) (xs : list Qc) :
  In y (insert_sorted x xs) <-> y = x \/ In y xs.
Proof.
  induction xs as [| z xs IH]; simpl.
  - split; intros [H | H]; auto.
  - destruct (x <? z); simpl; [split; intros [H | H]; auto |].
    rewrite IH. tauto.
Qed.

Lemma length_insert_sorted (x : Qc) (xs : list Qc) :
  length (insert_sorted x xs) = S (length xs).
Proof.
  induction xs as [| z xs IH]; simpl; [reflexivity |].
  destruct (x <? z); simpl; [reflexivity | rewrite IH; reflexivity].
Qed.

Lemma insert_sorted_sorted (x : Qc) (xs : list Qc) :
  StronglySorted Qcle xs -> StronglySorted Qcle (insert_sorted x xs).
Proof.
  induction 1 as [| z xs Hs IH Hz]; simpl.
  - constructor; constructor.
  - destruct (x <? z) eqn:E.
    + apply Qc_ltb_lt in E. constructor.
      * constructor; assumption.
      * constructor; [apply Qclt_le_weak, E |].
        apply Forall_forall. intros y Hy. rewrite Forall_forall in Hz.
        apply Qcle_trans with z; [apply Qclt_le_weak, E | apply Hz, Hy].
    + apply Qc_ltb_ge in E. constructor; [exact IH |].
      apply Forall_forall. intros y Hy. apply insert_sorted_In in Hy as [-> | Hy].
      * exact E.
      * rewrite Forall_forall in Hz. apply Hz, Hy.
Qed.

Lemma sorted_from (xs acc : list Qc) :
  StronglySorted Qcle acc ->
  let r := fold_left (fun acc x => insert_sorted x acc) xs acc in
  StronglySorted Qcle r /\ (forall y, In y r <-> In y xs \/ In y acc) /\
  length r = (length xs + length acc)%nat.
Proof.
  revert acc. induction xs as [| x xs IH]; intros acc Hacc; cbn zeta; simpl.
  - split; [exact Hacc |]. split; [intros y; tauto | reflexivity].
  - destruct (IH (insert_sorted x acc) (insert_sorted_sorted x acc Hacc))
      as (Hs & Hin & Hlen).
    split; [exact Hs |]. split.
    + intros y. rewrite Hin, insert_sorted_In. split; intros H; intuition auto.
    + rewrite Hlen, length_insert_sorted. lia.
Qed.

(** [sorted] returns the elements of its argument in non-decreasing
    order. *)
Lemma sorted_spec (xs : list Qc) :
  StronglySorted Qcle (sorted xs) /\ (forall y, In y (sorted xs) <-> In y xs) /\
  length (sorted xs) = length xs.
Proof.
  destruct (sorted_from xs [] (SSorted_nil _)) as (Hs & Hin & Hlen).
  split; [exact Hs |]. split.
  - intros y. unfold sorted. rewrite Hin. simpl. tauto.
  - unfold sorted. rewrite Hlen. simpl. lia.
Qed.

Lemma StronglySorted_nth (l : list Qc) (i j : nat) :
  StronglySorted Qcle l -> (i <= j < length l)%nat -> nth i l 0 <= nth j l 0.
Proof.
  intros Hs. revert i j. induction Hs as [| x l Hs IH Hx]; intros i j Hij.
  - simpl in Hij. lia.
  - destruct i as [| i], j as [| j]; simpl in *; try lia.
    + apply Qcle_refl.
    + rewrite Forall_forall in Hx. apply Hx. apply nth_In. lia.
    + apply IH. lia.
Qed.

Lemma py_int_floor (x : Qc) : 0 <= x -> py_int x = Qfloor x.
Proof.
  intros H. unfold py_int, Qfloor. destruct x as [[n d] Hc]. cbn [this Qnum Qden].
  apply Z.quot_div_nonneg; [| lia].
  unfold Qcle, Qle in H. simpl in H. lia.
Qed.

Lemma py_int_mono (x y : Qc) : 0 <= x -> x <= y -> (py_int x <= py_int y)%Z.
Proof.
  intros H0 Hxy. rewrite !py_int_floor by (try exact H0; eapply Qcle_trans; eassumption).
  apply Qfloor_resp_le. exact Hxy.
Qed.

Lemma Q_fraction_lt (n q : Q) : (0 < n -> q < 1 -> n * q < n)%Q.
Proof. intros Hn Hq. nra. Qed.

(** The index of a quantile below 1 is inside the list. *)
Lemma var_index_inside (n : Z) (q : Qc) :
  (0 < n)%Z -> 0 <= q -> q < 1 -> (0 <= py_int (Qc_of_Z n * q) < n)%Z.
Proof.
  intros Hn H0 H1.
  assert (Hx : 0 <= Qc_of_Z n * q).
  { apply Qcmult_nonneg_nonneg; [apply Qc_of_Z_nonneg; lia | exact H0]. }
  split; [apply py_int_nonneg; exact Hx |].
  rewrite py_int_floor by exact Hx.
  assert (Hlt : Qc_of_Z n * q < Qc_of_Z n).
  { pose proof (Qc_of_Z_pos n Hn) as Hp. generalize dependent (Qc_of_Z n).
    intros m _ Hm. to_Q. apply Q_fraction_lt; assumption. }
  pose proof (Qc_of_Z_floor_le (Qc_of_Z n * q)) as Hf.
  apply (proj2 (Z2Qc_inj_lt _ _)). eapply Qcle_lt_trans; eassumption.
Qed.

Lemma getitem_nth_Qc (l : list Qc) (i : Z) (v : Qc) :
  (0 <= i < len l)%Z -> getitem l i = Ok v -> v = nth (Z.to_nat i) l 0.
Proof.
  intros H Hv. destruct (getitem_ok l i H) as (x & Hx & Hn).
  rewrite Hx in Hv. injection Hv as <-. symmetry. apply nth_error_nth. exact Hn.
Qed.

Section RiskFigures.

Variable sqrt : Qc -> Qc.

(** In any record that [calculate_performance] returns, the rounded
    figures are ordered
    [worst_day <= var_99 <= var_95 <= best_day], and the maximum drawdown
    is not negative; on closes that are numbers not below 0 it is at most
    100. *)
Theorem calculate_performance_risk_order (history_data : list dict)
  (m : PerformanceMetrics) :
  calculate_performance sqrt history_data = Ok (Some m) ->
  worst_day m <= var_99 m /\ var_99 m <= var_95 m /\ var_95 m <= best_day m /\
  0 <= max_drawdown m /\
  (forall closes,
     numeric_closes history_data closes -> Forall (fun c => 0 <= c) closes ->
     max_drawdown m <= 100).
Proof.
  unfold calculate_performance. destruct (_ || _); [discriminate |]. intros H.
  apply bind_Ok_inv in H as (closes & Hc & H).
  apply bind_Ok_inv in H as (dr & Hdr & H).
  destruct (is_empty dr) eqn:Edr; [discriminate |].
  do 5 (apply bind_Ok_inv in H as (? & _ & H)).
  apply bind_Ok_inv in H as (prices & Hprices & H).
  apply bind_Ok_inv in H as ([dd dur] & Hdd & H).
  apply bind_Ok_inv in H as (v95 & H95 & H).
  apply bind_Ok_inv in H as (v99 & H99 & H).
  do 3 (apply bind_Ok_inv in H as (? & _ & H)).
  apply bind_Ok_inv in H as (best & Hbest & H).
  apply bind_Ok_inv in H as (worst & Hworst & H).
  injection H as <-. cbn [worst_day var_99 var_95 best_day max_drawdown].
  destruct (sorted_spec dr) as (Hs & Hin & Hlen).
  assert (Hn : (0 < len (sorted dr))%Z).
  { unfold len. rewrite Hlen. destruct dr; [discriminate | simpl; lia]. }
  assert (I95 := var_index_inside (len (sorted dr)) (Q2Qc (5 # 100)) Hn
                   ltac:(vm_compute; discriminate) ltac:(vm_compute; reflexivity)).
  assert (I99 := var_index_inside (len (sorted dr)) (Q2Qc (1 # 100)) Hn
                   ltac:(vm_compute; discriminate) ltac:(vm_compute; reflexivity)).
  assert (Hidx : (py_int (Qc_of_Z (len (sorted dr)) * Q2Qc (1 # 100))
                  <= py_int (Qc_of_Z (len (sorted dr)) * Q2Qc (5 # 100)))%Z).
  { apply py_int_mono.
    - apply Qcmult_nonneg_nonneg; [apply Qc_of_Z_nonneg; lia | vm_compute; discriminate].
    - rewrite !(Qcmult_comm (Qc_of_Z (len (sorted dr)))).
      apply Qcmult_le_compat_r; [vm_compute; discriminate | apply Qc_of_Z_nonneg; lia]. }
  set (i95 := py_int (Qc_of_Z (len (sorted dr)) * Q2Qc (5 # 100))) in *.
  set (i99 := py_int (Qc_of_Z (len (sorted dr)) * Q2Qc (1 # 100))) in *.
  destruct (i95 <? len (sorted dr))%Z eqn:E95; [| apply Z.ltb_ge in E95; lia].
  destruct (i99 <? len (sorted dr))%Z eqn:E99; [| apply Z.ltb_ge in E99; lia].
  apply getitem_nth_Qc in H95; [| exact I95].
  apply getitem_nth_Qc in H99; [| exact I99].
  assert (Hin95 : In v95 dr).
  { apply Hin. rewrite H95. apply nth_In. unfold len in I95. lia. }
  assert (Hin99 : In v99 dr).
  { apply Hin. rewrite H99. apply nth_In. unfold len in I99. lia. }
  split; [apply py_round_mono; exact (py_min_lower dr worst v99 Hworst Hin99) |].
  split.
  { apply py_round_mono. rewrite H95, H99.
    apply StronglySorted_nth; [exact Hs |]. unfold len in *. lia. }
  split; [apply py_round_mono; exact (py_max_upper dr best v95 Hbest Hin95) |].
  destruct (_calculate_max_drawdown_total prices) as (dd' & dur' & Hdd' & Hnn).
  rewrite Hdd in Hdd'. injection Hdd' as <- <-.
  split; [apply py_round_nonneg; exact Hnn |].
  intros cs Hnum Hpos.
  destruct (get_close_numeric _ _ Hnum) as [Hc' _].
  rewrite Hc in Hc'. injection Hc' as ->.
  rewrite as_num_numeric in Hprices. injection Hprices as <-.
  destruct (drawdown_bounds cs Hpos) as (dd2 & dur2 & Hdd2 & _ & H100 & _).
  rewrite Hdd in Hdd2. injection Hdd2 as <- <-.
  apply Qcle_trans with (py_round (Qc_of_Z 100) 2).
  - apply py_round_mono. exact H100.
  - rewrite py_round_Z. apply Qcle_refl.
Qed.

End RiskFigures.

Lemma calculate_performance_risk_order_witness :
  exists m,
    calculate_performance sqrt_floor round_trip_series = Ok (Some m) /\
    worst_day m <= var_99 m /\ var_99 m <= var_95 m /\ var_95 m <= best_day m.
Proof.
  assert (H : exists m, calculate_performance sqrt_floor round_trip_series = Ok (Some m))
    by (eexists; vm_compute; reflexivity).
  destruct H as (m & Hm). exists m. split; [exact Hm |].
  destruct (calculate_performance_risk_order sqrt_floor _ _ Hm) as (H1 & H2 & H3 & _).
  split; [exact H1 |]. split; [exact H2 | exact H3].
Defined.
